(** * Career Path Explorer: the REST API over its PostgreSQL store, and the
    resource filter of the frontend.

    The development follows the backend sources
    - [validation/schemas.ts]   (the zod schemas),
    - [db/migrate.ts]           (the schema of the two tables),
    - [db/queries.ts]           (the data access functions),
    - [routes/roles.ts], [routes/resources.ts], [server.ts] (the handlers),
    - [db/seed.ts]              (the seed script),
    - the two property tests of the data access functions,
    and the frontend sources [components/ResourceList.tsx], [api.ts],
    [components/RoleList.tsx], [components/RoleCard.tsx] and
    [pages/RoleDetailPage.tsx].

    Conventions of the embedding.
    - A JavaScript value is a [JsValue].  A number is the exact rational
      value of the double it holds: the code tests only whether it is an
      integer, whether it is positive, and whether PostgreSQL can read it as
      an INTEGER.  (A double is an integer exactly when its value is, and a
      double beyond 2^53 is far outside the INTEGER range whichever way it
      was rounded.  The two infinities, which [.int()] rejects as it rejects
      a fraction, are not represented.)  The id of a path is another
      matter: [Number] reads it from any string of digits, so it is a
      [Num], the integer value of the nearest double or [Infinity].
    - A string is a [string] of characters with codes up to 255; [length]
      counts them.  U+0000 is one of them; PostgreSQL takes no text that
      holds it.
    - A request reaches the application with its body parsed by
      [express.json()] and its path split at its slashes into segments,
      which hold no percent-escape.  Express matches the path to the
      routes with its defaults, and answers HEAD through the GET routes.
    - The database is a record of the two tables and of the two sequences
      behind the SERIAL columns.  A statement either returns rows or raises
      a [DbError], as the parameters it is sent and the column types and
      constraints of [migrate.ts] make it; the connection itself is taken
      to be up.
    - An [async] function of [queries.ts] is a computation [Pg A]: it reads
      and writes the store and may raise. *)

From Stdlib Require Import ZArith QArith_base String Ascii List Bool Lia.
From Stdlib Require Import DecimalString Sorting.Sorted Sorting.Permutation.
From Stdlib Require DecimalPos.
Import ListNotations.

Set Warnings "-register-all".
Open Scope string_scope.
Open Scope Z_scope.

(** ** JavaScript values *)

Module Js.

Inductive JsValue : Type :=
| JUndefined
| JNull
| JBool (b : bool)
| JNum (q : Q)
| JStr (s : string)
| JArr (items : list JsValue)
| JObj (fields : list (string * JsValue)).

(** [obj[key]]: the value of a property, [undefined] when it is absent or
    when the value is not an object. *)
Fixpoint lookup (key : string) (fields : list (string * JsValue)) : JsValue :=
  match fields with
  | [] => JUndefined
  | (k, v) :: rest => if String.eqb k key then v else lookup key rest
  end.

Definition get (v : JsValue) (key : string) : JsValue :=
  match v with
  | JObj fields => lookup key fields
  | _ => JUndefined
  end.

Definition of_Z (z : Z) : JsValue := JNum (inject_Z z).

(** [Number.isInteger] on a finite number. *)
Definition isInteger (q : Q) : bool := (Qnum q mod Zpos (Qden q) =? 0).

Definition toZ (q : Q) : Z := Qnum q / Zpos (Qden q).

(** Template-literal rendering of an integer below 1e21. *)
Definition Z_to_string (z : Z) : string := NilZero.string_of_int (Z.to_int z).

(** A number whose value is an integer, or [Infinity]: what [Number] makes
    of a string of decimal digits. *)
Inductive Num : Type :=
| Finite (z : Z)
| Infinity.

Coercion Finite : Z >-> Num.

(** The double nearest to a non-negative integer, ties to the even
    significand of 53 bits; past the largest double it is [Infinity]. *)
Definition to_double (n : Z) : Num :=
  let bits := Z.log2 n + 1 in
  if bits <=? 53 then Finite n
  else
    let shift := bits - 53 in
    let significand := Z.shiftr n shift in
    let rest := n - Z.shiftl significand shift in
    let half := Z.shiftl 1 (shift - 1) in
    let rounded :=
      if rest <? half then significand
      else if half <? rest then significand + 1
      else if Z.even significand then significand
      else significand + 1 in
    let value := Z.shiftl rounded shift in
    if value <? 2 ^ 1024 then Finite value else Infinity.

(** Template-literal rendering of such a number (below 1e21). *)
Definition Num_to_string (n : Num) : string :=
  match n with
  | Finite z => Z_to_string z
  | Infinity => "Infinity"
  end.

(** White space as [String.prototype.trim] sees it (code points up to 255). *)
Definition is_white_space (c : ascii) : bool :=
  let n := nat_of_ascii c in
  ((9 <=? n)%nat && (n <=? 13)%nat) || (n =? 32)%nat || (n =? 160)%nat.

Fixpoint trimStart (s : string) : string :=
  match s with
  | EmptyString => EmptyString
  | String c rest => if is_white_space c then trimStart rest else s
  end.

Fixpoint rev_string (s acc : string) : string :=
  match s with
  | EmptyString => acc
  | String c rest => rev_string rest (String c acc)
  end.

Definition trimEnd (s : string) : string :=
  rev_string (trimStart (rev_string s EmptyString)) EmptyString.

Definition trim (s : string) : string := trimEnd (trimStart s).

(** [arr.join(sep)] on strings. *)
Definition join (sep : string) (l : list string) : string := String.concat sep l.

(** A value that may also be [undefined] or [null]. *)
Inductive Nullish (A : Type) : Type :=
| Undefined
| Null
| Val (a : A).
Arguments Undefined {A}.
Arguments Null {A}.
Arguments Val {A} a.

End Js.
Import Js.

(** ** The validation schemas ([validation/schemas.ts])

    zod parses a value into a result that carries the parsed data, unless
    parsing was aborted, and the issues met; a string or number check that
    fails adds its issue and lets parsing go on, a value of the wrong type
    aborts.  [safeParse] succeeds when no issue was met. *)

Module Zod.

Record Parse (A : Type) : Type := mkParse {
  value : option A;
  errors : list string
}.
Arguments mkParse {A} value errors.
Arguments value {A} p.
Arguments errors {A} p.

Definition Schema (A : Type) : Type := JsValue -> Parse A.

Inductive SafeParse (A : Type) : Type :=
| Success (data : A)
| Failure (messages : list string).
Arguments Success {A} data.
Arguments Failure {A} messages.

Definition safeParse {A} (schema : Schema A) (v : JsValue) : SafeParse A :=
  let r := schema v in
  match errors r, value r with
  | [], Some data => Success data
  | messages, _ => Failure messages
  end.

Definition success {A} (r : SafeParse A) : bool :=
  match r with Success _ => true | Failure _ => false end.

(** zod's name for the type of a value, and its default message for a value
    of the wrong type. *)
Definition getParsedType (v : JsValue) : string :=
  match v with
  | JUndefined => "undefined"
  | JNull => "null"
  | JBool _ => "boolean"
  | JNum _ => "number"
  | JStr _ => "string"
  | JArr _ => "array"
  | JObj _ => "object"
  end.

Definition invalid_type (expected : string) (v : JsValue) : string :=
  match v with
  | JUndefined => "Required"
  | _ => "Expected " ++ expected ++ ", received " ++ getParsedType v
  end.

Definition aborted {A} (message : string) : Parse A := mkParse None [message].

(** One check of a schema: the test and the message of its issue. *)
Definition Check (A : Type) : Type := ((A -> bool) * string)%type.

Definition run_checks {A} (checks : list (Check A)) (a : A) : list string :=
  flat_map (fun c : Check A => if (fst c) a then [] else [snd c]) checks.

(** [z.string()] followed by its checks, in order. *)
Definition z_string (checks : list (Check string)) : Schema string :=
  fun v =>
    match v with
    | JStr s => mkParse (Some s) (run_checks checks s)
    | _ => aborted (invalid_type "string" v)
    end.

Definition min (n : nat) (message : string) : Check string :=
  (fun s => (n <=? String.length s)%nat, message).

Definition max (n : nat) (message : string) : Check string :=
  (fun s => (String.length s <=? n)%nat, message).

(** [z.number()] followed by its checks; [.int()] has zod's own message. *)
Definition z_number (checks : list (Check Q)) : Schema Q :=
  fun v =>
    match v with
    | JNum q => mkParse (Some q) (run_checks checks q)
    | _ => aborted (invalid_type "number" v)
    end.

Definition int : Check Q := (isInteger, "Expected integer, received float").

Definition positive (message : string) : Check Q :=
  (fun q => 0 <? Qnum q, message).

(** [.refine(test, message)]: runs on whatever the inner schema parsed. *)
Definition refine {A} (test : A -> bool) (message : string)
    (inner : Schema A) : Schema A :=
  fun v =>
    let r := inner v in
    match value r with
    | None => r
    | Some a => mkParse (Some a) (errors r ++ (if test a then [] else [message]))%list
    end.

(** [.transform(f)]: runs only on a value parsed without issue. *)
Definition transform {A B} (f : A -> B) (inner : Schema A) : Schema B :=
  fun v =>
    let r := inner v in
    match errors r, value r with
    | [], Some a => mkParse (Some (f a)) []
    | messages, _ => mkParse None messages
    end.

Definition map_value {A B} (f : A -> B) (r : Parse A) : Parse B :=
  mkParse (option_map f (value r)) (errors r).

(** [.optional()] and [.nullable()] *)
Definition optional {A} (inner : Schema A) : Schema (Nullish A) :=
  fun v =>
    match v with
    | JUndefined => mkParse (Some Undefined) []
    | _ => map_value Val (inner v)
    end.

Definition nullable {A} (inner : Schema (Nullish A)) : Schema (Nullish A) :=
  fun v =>
    match v with
    | JNull => mkParse (Some Null) []
    | _ => inner v
    end.

(** [z.array(element)] *)
Fixpoint parse_items {A} (element : Schema A) (items : list JsValue)
    : Parse (list A) :=
  match items with
  | [] => mkParse (Some []) []
  | item :: rest =>
      let r := element item in
      let rs := parse_items element rest in
      mkParse
        (match value r, value rs with
         | Some a, Some l => Some (a :: l)
         | _, _ => None
         end)
        (errors r ++ errors rs)%list
  end.

Definition z_array {A} (element : Schema A) : Schema (list A) :=
  fun v =>
    match v with
    | JArr items => parse_items element items
    | _ => aborted (invalid_type "array" v)
    end.

(** [z.enum(values, { errorMap })]: every issue carries the one message. *)
Definition z_enum {A} (values : list (string * A)) (message : string)
    : Schema A :=
  fun v =>
    match v with
    | JStr s =>
        match find (fun kv => String.eqb (fst kv) s) values with
        | Some kv => mkParse (Some (snd kv)) []
        | None => aborted message
        end
    | _ => aborted message
    end.

End Zod.
Import Zod.

(** What the platform supplies and the sources do not spell out: the URL
    parser behind zod's [.url()] ([new URL(s)] does not throw), and the text
    PostgreSQL gives for an error. *)
Inductive DbError : Type :=
| NumericValueOutOfRange      (* a parameter that is no INTEGER: its value
                                 lies outside the range of the type *)
| InvalidTextRepresentation   (* a parameter that is no INTEGER: a number
                                 that is sent with an exponent, or as
                                 Infinity *)
| CharacterNotInRepertoire    (* a text parameter that holds U+0000 *)
| StringDataRightTruncation   (* a value too long for VARCHAR(n) *)
| UniqueViolation             (* a duplicate primary key *)
| ForeignKeyViolation         (* a reference to a missing row, or RESTRICT *)
| SequenceLimitExceeded.      (* nextval past the maximum of a SERIAL *)

Class Platform : Type := {
  URL_parses : string -> bool;
  pg_message : DbError -> string
}.

Module Schemas.

Inductive ResourceType : Type := Video | Article | Course.
Inductive DifficultyLevel : Type := Beginner | Intermediate | Advanced.

Module CreateRoleInput.
Record t : Type := make {
  name : string;
  short_description : string;
  long_description : Nullish string;
  responsibilities : Nullish (list string);
  skills : Nullish (list string)
}.
End CreateRoleInput.

Module CreateResourceInput.
Record t : Type := make {
  role_id : Z;
  title : string;
  url : string;
  resource_type : ResourceType;
  difficulty : DifficultyLevel
}.
End CreateResourceInput.

(** [z.object(shape)]: a value that is not an object aborts; otherwise the
    properties are parsed in the order of the shape and their issues
    collected. *)
Definition z_object {A} (shape : JsValue -> Parse A) : Schema A :=
  fun v =>
    match v with
    | JObj _ => shape v
    | _ => aborted (invalid_type "object" v)
    end.

Definition pure {A} (a : A) : Parse A := mkParse (Some a) [].

Definition ap {A B} (f : Parse (A -> B)) (a : Parse A) : Parse B :=
  mkParse
    (match value f, value a with
     | Some g, Some x => Some (g x)
     | _, _ => None
     end)
    (errors f ++ errors a)%list.

Notation "f <*> a" := (ap f a) (at level 50, left associativity).

Definition ResourceTypeSchema : Schema ResourceType :=
  z_enum [("Video", Video); ("Article", Article); ("Course", Course)]
    "Resource type must be one of: Video, Article, Course".

Definition DifficultyLevelSchema : Schema DifficultyLevel :=
  z_enum [("Beginner", Beginner); ("Intermediate", Intermediate);
          ("Advanced", Advanced)]
    "Difficulty must be one of: Beginner, Intermediate, Advanced".

(** [val => val.trim().length > 0] *)
Definition not_only_whitespace (val : string) : bool :=
  (0 <? String.length (trim val))%nat.

Definition CreateRoleSchema : Schema CreateRoleInput.t :=
  z_object (fun body =>
    pure CreateRoleInput.make
    <*> refine not_only_whitespace "Name cannot be only whitespace"
          (z_string [min 1 "Name is required";
                     max 255 "Name must be 255 characters or less"])
          (get body "name")
    <*> refine not_only_whitespace "Short description cannot be only whitespace"
          (z_string [min 1 "Short description is required"])
          (get body "short_description")
    <*> nullable (optional (z_string [])) (get body "long_description")
    <*> nullable (optional (z_array (z_string []))) (get body "responsibilities")
    <*> nullable (optional (z_array (z_string []))) (get body "skills")).

Section WithPlatform.
Context {platform : Platform}.

Definition url (message : string) : Check string := (URL_parses, message).

(** [role_id] is read as the integer it denotes once [.int()] has passed. *)
Definition CreateResourceSchema : Schema CreateResourceInput.t :=
  z_object (fun body =>
    pure CreateResourceInput.make
    <*> map_value toZ
          (z_number [int; positive "Role ID must be a positive integer"]
             (get body "role_id"))
    <*> refine not_only_whitespace "Title cannot be only whitespace"
          (z_string [min 1 "Title is required";
                     max 255 "Title must be 255 characters or less"])
          (get body "title")
    <*> z_string [url "URL must be a valid URL"] (get body "url")
    <*> ResourceTypeSchema (get body "resource_type")
    <*> DifficultyLevelSchema (get body "difficulty")).

End WithPlatform.

(** [/^\d+$/] *)
Definition is_digit (c : ascii) : bool :=
  let n := nat_of_ascii c in ((48 <=? n)%nat && (n <=? 57)%nat).

Fixpoint all_digits (s : string) : bool :=
  match s with
  | EmptyString => true
  | String c rest => is_digit c && all_digits rest
  end.

Definition decimal_digits (s : string) : bool :=
  negb (String.eqb s "") && all_digits s.

Definition regex_digits (message : string) : Check string :=
  (decimal_digits, message).

(** [Number(s)] on a string of decimal digits: the double nearest to the
    integer they write. *)
Fixpoint Number_from (acc : Z) (s : string) : Z :=
  match s with
  | EmptyString => acc
  | String c rest => Number_from (10 * acc + Z.of_nat (nat_of_ascii c - 48)) rest
  end.

Definition Number (s : string) : Num := to_double (Number_from 0 s).

Definition RoleIdParamSchema : Schema Num :=
  z_object (fun params =>
    transform Number (z_string [regex_digits "ID must be a valid number"])
      (get params "id")).

End Schemas.
Import Schemas.

(** ** The store ([db/migrate.ts])

    [roles] and [resources] are the two tables, rows in the order of
    insertion; the two sequences feed the SERIAL [id] columns.  A nullable
    column holds an [option]. *)

Module Role.
Record t : Type := make {
  id : Z;                                   (* SERIAL PRIMARY KEY *)
  name : string;                            (* VARCHAR(255) NOT NULL *)
  short_description : string;               (* TEXT NOT NULL *)
  long_description : option string;         (* TEXT *)
  responsibilities : option (list string);  (* TEXT[] *)
  skills : option (list string)             (* TEXT[] *)
}.
End Role.

Module Resource.
Record t : Type := make {
  id : Z;                          (* SERIAL PRIMARY KEY *)
  role_id : Z;                     (* INTEGER NOT NULL REFERENCES roles(id)
                                      ON DELETE RESTRICT *)
  title : string;                  (* VARCHAR(255) NOT NULL *)
  url : string;                    (* TEXT NOT NULL *)
  resource_type : ResourceType;    (* CHECK (resource_type IN (...)) *)
  difficulty : DifficultyLevel     (* CHECK (difficulty IN (...)) *)
}.
End Resource.

Module RoleSummary.
Record t : Type := make {
  id : Z;
  name : string;
  short_description : string
}.
End RoleSummary.

(** [Role & { resources: Resource[] }] *)
Module RoleWithResources.
Record t : Type := make {
  role : Role.t;
  resources : list Resource.t
}.
End RoleWithResources.

Module Pg.

Record Db : Type := mkDb {
  roles : list Role.t;
  resources : list Resource.t;
  roles_id_seq : Z;        (* the value the next nextval returns *)
  resources_id_seq : Z
}.

(** The store after the migration: both tables empty, both sequences at 1. *)
Definition migrated : Db := mkDb [] [] 1 1.

(** A statement run through [pool.query]: it raises or returns, and leaves
    a store; a sequence keeps the values it has handed out even when the
    statement fails. *)
Definition Pg (A : Type) : Type := Db -> (DbError + A) * Db.

Definition ret {A} (a : A) : Pg A := fun db => (inr a, db).

Definition raise {A} (e : DbError) : Pg A := fun db => (inl e, db).

Definition bind {A B} (m : Pg A) (k : A -> Pg B) : Pg B :=
  fun db =>
    match m db with
    | (inr a, db') => k a db'
    | (inl e, db') => (inl e, db')
    end.

Definition get_db : Pg Db := fun db => (inr db, db).

Definition put_db (db' : Db) : Pg unit := fun _ => (inr tt, db').

Notation "x <- m ;; k" := (bind m (fun x => k))
  (at level 61, m at next level, right associativity).
Notation "m ;; k" := (bind m (fun _ => k))
  (at level 61, right associativity).

Definition INT4_MIN : Z := -2147483648.
Definition INT4_MAX : Z := 2147483647.

(** A number bound to an INTEGER parameter.  The driver sends the text
    [String(n)]: digits below 1e21, an exponent from there on, and
    [Infinity]; the server reads digits only, and in its range. *)
Definition int4_in_range (n : Z) : bool :=
  (INT4_MIN <=? n) && (n <=? INT4_MAX).

Definition int4_error (n : Num) : DbError :=
  match n with
  | Finite z =>
      if Z.abs z <? 10 ^ 21 then NumericValueOutOfRange
      else InvalidTextRepresentation
  | Infinity => InvalidTextRepresentation
  end.

Definition int4_value (n : Num) : option Z :=
  match n with
  | Finite z => if int4_in_range z then Some z else None
  | Infinity => None
  end.

Definition int4 (n : Num) : Pg Z :=
  match int4_value n with
  | Some z => ret z
  | None => raise (int4_error n)
  end.

(** A string bound to a parameter: the server takes no text that holds
    U+0000.  An array of strings is sent as one text. *)
Definition has_nul (s : string) : bool :=
  existsb (Ascii.eqb "000"%char) (list_ascii_of_string s).

Definition text (s : string) : Pg string :=
  if has_nul s then raise CharacterNotInRepertoire else ret s.

Definition text_or_null (s : option string) : Pg (option string) :=
  match s with
  | Some a => a <- text a ;; ret (Some a)
  | None => ret None
  end.

Definition text_array (l : list string) : Pg (list string) :=
  if existsb has_nul l then raise CharacterNotInRepertoire else ret l.

(** A value assigned to a VARCHAR(n) column: characters past the n-th are
    cut off when all of them are spaces, and refused otherwise. *)
Definition all_spaces (s : string) : bool :=
  forallb (Ascii.eqb " "%char) (list_ascii_of_string s).

Definition fitted (n : nat) (s : string) : option string :=
  if (String.length s <=? n)%nat then Some s
  else if all_spaces (substring n (String.length s - n) s)
  then Some (substring 0 n s)
  else None.

Definition varchar (n : nat) (s : string) : Pg string :=
  match fitted n s with
  | Some stored => ret stored
  | None => raise StringDataRightTruncation
  end.

Definition nextval_roles_id_seq : Pg Z :=
  fun db =>
    let n := roles_id_seq db in
    if n <=? INT4_MAX
    then (inr n, mkDb (roles db) (resources db) (n + 1) (resources_id_seq db))
    else (inl SequenceLimitExceeded, db).

Definition nextval_resources_id_seq : Pg Z :=
  fun db =>
    let n := resources_id_seq db in
    if n <=? INT4_MAX
    then (inr n, mkDb (roles db) (resources db) (roles_id_seq db) (n + 1))
    else (inl SequenceLimitExceeded, db).

Definition has_role (db : Db) (id : Z) : bool :=
  existsb (fun r => Role.id r =? id) (roles db).

Definition has_resource (db : Db) (id : Z) : bool :=
  existsb (fun r => Resource.id r =? id) (resources db).

Definition references (db : Db) (id : Z) : bool :=
  existsb (fun r => Resource.role_id r =? id) (resources db).

(** INSERT INTO roles: the primary key must be new. *)
Definition insert_role (row : Role.t) : Pg unit :=
  db <- get_db ;;
  if has_role db (Role.id row) then raise UniqueViolation
  else put_db (mkDb (roles db ++ [row])%list (resources db)
                 (roles_id_seq db) (resources_id_seq db)).

(** INSERT INTO resources: the primary key must be new and the role
    referenced must exist. *)
Definition insert_resource (row : Resource.t) : Pg unit :=
  db <- get_db ;;
  if has_resource db (Resource.id row) then raise UniqueViolation
  else if negb (has_role db (Resource.role_id row)) then raise ForeignKeyViolation
  else put_db (mkDb (roles db) (resources db ++ [row])%list
                 (roles_id_seq db) (resources_id_seq db)).

(** [DELETE FROM roles WHERE id = $1], the statement the test suites clean
    up with: ON DELETE RESTRICT refuses to delete a row that a resource
    references. *)
Definition delete_from_roles (id : Z) : Pg unit :=
  id <- int4 id ;;
  db <- get_db ;;
  if has_role db id && references db id then raise ForeignKeyViolation
  else put_db (mkDb (filter (fun r => negb (Role.id r =? id)) (roles db))
                 (resources db) (roles_id_seq db) (resources_id_seq db)).

(** [DELETE FROM resources WHERE role_id = $1] *)
Definition delete_from_resources (role_id : Z) : Pg unit :=
  role_id <- int4 role_id ;;
  db <- get_db ;;
  put_db (mkDb (roles db)
            (filter (fun r => negb (Resource.role_id r =? role_id)) (resources db))
            (roles_id_seq db) (resources_id_seq db)).

(** ORDER BY on an integer column: a stable insertion sort. *)
Fixpoint insert_by {A} (key : A -> Z) (x : A) (l : list A) : list A :=
  match l with
  | [] => [x]
  | y :: rest => if key x <=? key y then x :: l else y :: insert_by key x rest
  end.

Definition order_by {A} (key : A -> Z) (l : list A) : list A :=
  fold_right (insert_by key) [] l.

End Pg.
Import Pg.

(** ** The data access functions ([db/queries.ts]) *)

Module Queries.

Definition summary (r : Role.t) : RoleSummary.t :=
  RoleSummary.make (Role.id r) (Role.name r) (Role.short_description r).

(** [SELECT id, name, short_description FROM roles ORDER BY id] *)
Definition getAllRoles : Pg (list RoleSummary.t) :=
  db <- get_db ;;
  ret (map summary (order_by Role.id (roles db))).

(** The two SELECTs of [getRoleById]; [null] is [None]. *)
Definition getRoleById (id : Num) : Pg (option RoleWithResources.t) :=
  p <- int4 id ;;
  db <- get_db ;;
  let roleResult := filter (fun r => Role.id r =? p) (roles db) in
  match roleResult with
  | [] => ret None
  | role :: _ =>
      p <- int4 id ;;
      db <- get_db ;;
      let resourcesResult :=
        order_by Resource.id
          (filter (fun r => Resource.role_id r =? p) (resources db)) in
      ret (Some (RoleWithResources.make role resourcesResult))
  end.

(** [data.long_description || null]: the empty string is falsy. *)
Definition or_null (s : Nullish string) : option string :=
  match s with
  | Val a => if String.eqb a "" then None else Some a
  | _ => None
  end.

(** [data.responsibilities || []]: every array is truthy. *)
Definition or_empty (l : Nullish (list string)) : list string :=
  match l with
  | Val a => a
  | _ => []
  end.

(** [INSERT INTO roles (...) VALUES ($1, ..., $5) RETURNING ...]: the five
    parameters are read in their order, the name is fitted to its column
    when the statement is planned, and the row gets its id when the
    statement runs. *)
Definition createRole (data : CreateRoleInput.t) : Pg Role.t :=
  name <- text (CreateRoleInput.name data) ;;
  short_description <- text (CreateRoleInput.short_description data) ;;
  long_description <-
    text_or_null (or_null (CreateRoleInput.long_description data)) ;;
  responsibilities <-
    text_array (or_empty (CreateRoleInput.responsibilities data)) ;;
  skills <- text_array (or_empty (CreateRoleInput.skills data)) ;;
  name <- varchar 255 name ;;
  id <- nextval_roles_id_seq ;;
  let row :=
    Role.make id name short_description long_description
      (Some responsibilities) (Some skills) in
  insert_role row ;;
  ret row.

(** [SELECT 1 FROM roles WHERE id = $1], then [result.rows.length > 0] *)
Definition roleExists (id : Z) : Pg bool :=
  p <- int4 id ;;
  db <- get_db ;;
  let rows := filter (fun r => Role.id r =? p) (roles db) in
  ret (0 <? List.length rows)%nat.

(** [SELECT ... FROM resources WHERE role_id = $1 ORDER BY id] *)
Definition getResourcesByRoleId (roleId : Z) : Pg (list Resource.t) :=
  p <- int4 roleId ;;
  db <- get_db ;;
  ret (order_by Resource.id
         (filter (fun r => Resource.role_id r =? p) (resources db))).

(** [INSERT INTO resources (...) VALUES ($1, ..., $5) RETURNING ...], in
    the same order: parameters, columns, id.  The two enumerated values
    are among those of the CHECK constraints. *)
Definition createResource (data : CreateResourceInput.t) : Pg Resource.t :=
  role_id <- int4 (CreateResourceInput.role_id data) ;;
  title <- text (CreateResourceInput.title data) ;;
  url <- text (CreateResourceInput.url data) ;;
  title <- varchar 255 title ;;
  id <- nextval_resources_id_seq ;;
  let row :=
    Resource.make id role_id title url
      (CreateResourceInput.resource_type data)
      (CreateResourceInput.difficulty data) in
  insert_resource row ;;
  ret row.

End Queries.
Import Queries.

(** ** The handlers ([routes/roles.ts], [routes/resources.ts]) and the
    application ([server.ts]) *)

Module Routes.

Record Response : Type := mkResponse {
  status : Z;
  body : JsValue
}.

(** [res.status(code).json(value)] *)
Definition json (code : Z) (value : JsValue) : Response := mkResponse code value.

Definition ResourceType_text (t : ResourceType) : string :=
  match t with Video => "Video" | Article => "Article" | Course => "Course" end.

Definition DifficultyLevel_text (d : DifficultyLevel) : string :=
  match d with
  | Beginner => "Beginner"
  | Intermediate => "Intermediate"
  | Advanced => "Advanced"
  end.

(** The rows as JSON. *)
Definition json_of_strings (o : option (list string)) : JsValue :=
  match o with
  | Some l => JArr (map JStr l)
  | None => JNull
  end.

Definition json_of_text (o : option string) : JsValue :=
  match o with
  | Some s => JStr s
  | None => JNull
  end.

Definition json_of_summary (r : RoleSummary.t) : JsValue :=
  JObj [("id", of_Z (RoleSummary.id r));
        ("name", JStr (RoleSummary.name r));
        ("short_description", JStr (RoleSummary.short_description r))].

Definition fields_of_role (r : Role.t) : list (string * JsValue) :=
  [("id", of_Z (Role.id r));
   ("name", JStr (Role.name r));
   ("short_description", JStr (Role.short_description r));
   ("long_description", json_of_text (Role.long_description r));
   ("responsibilities", json_of_strings (Role.responsibilities r));
   ("skills", json_of_strings (Role.skills r))].

Definition json_of_role (r : Role.t) : JsValue := JObj (fields_of_role r).

Definition json_of_resource (r : Resource.t) : JsValue :=
  JObj [("id", of_Z (Resource.id r));
        ("role_id", of_Z (Resource.role_id r));
        ("title", JStr (Resource.title r));
        ("url", JStr (Resource.url r));
        ("resource_type", JStr (ResourceType_text (Resource.resource_type r)));
        ("difficulty", JStr (DifficultyLevel_text (Resource.difficulty r)))].

Definition json_of_role_with_resources (r : RoleWithResources.t) : JsValue :=
  JObj (fields_of_role (RoleWithResources.role r) ++
        [("resources", JArr (map json_of_resource (RoleWithResources.resources r)))])%list.

(** [{ error, details }] *)
Definition error_json (error details : string) : JsValue :=
  JObj [("error", JStr error); ("details", JStr details)].

(** A handler runs against the store and answers. *)
Definition Handler : Type := Db -> Response * Db.

(** [try { ... } catch (error) { ... }] around the awaited queries. *)
Definition try_catch (block : Pg Response) (handler : DbError -> Response)
    : Handler :=
  fun db =>
    match block db with
    | (inr response, db') => (response, db')
    | (inl error, db') => (handler error, db')
    end.

Section WithPlatform.
Context {platform : Platform}.

(** GET /api/roles *)
Definition get_roles : Handler :=
  try_catch
    (roles <- getAllRoles ;;
     ret (json 200 (JObj [("roles", JArr (map json_of_summary roles))])))
    (fun error =>
       json 500 (error_json "Failed to fetch roles" (pg_message error))).

(** GET /api/roles/:id *)
Definition get_role_by_id (id_param : string) : Handler :=
  try_catch
    (match safeParse RoleIdParamSchema (JObj [("id", JStr id_param)]) with
     | Failure messages =>
         ret (json 400 (error_json "Invalid ID format" (hd "" messages)))
     | Success id =>
         role <- getRoleById id ;;
         match role with
         | None =>
             ret (json 404 (error_json "Role not found"
                              ("No role found with ID " ++ Num_to_string id)))
         | Some role =>
             ret (json 200 (JObj [("role", json_of_role_with_resources role)]))
         end
     end)
    (fun error =>
       json 500 (error_json "Failed to fetch role" (pg_message error))).

(** POST /api/roles *)
Definition post_roles (req_body : JsValue) : Handler :=
  try_catch
    (match safeParse CreateRoleSchema req_body with
     | Failure messages =>
         ret (json 400 (error_json "Validation failed" (join ", " messages)))
     | Success roleData =>
         createdRole <- createRole roleData ;;
         ret (json 201 (JObj [("role", json_of_role createdRole)]))
     end)
    (fun error =>
       json 500 (error_json "Failed to create role" (pg_message error))).

(** POST /api/resources *)
Definition post_resources (req_body : JsValue) : Handler :=
  try_catch
    (match safeParse CreateResourceSchema req_body with
     | Failure messages =>
         ret (json 400 (error_json "Validation failed" (join ", " messages)))
     | Success resourceData =>
         roleExistsResult <- roleExists (CreateResourceInput.role_id resourceData) ;;
         if negb roleExistsResult
         then ret (json 404 (error_json "Role not found"
                     ("No role found with ID " ++
                      Z_to_string (CreateResourceInput.role_id resourceData))))
         else
           createdResource <- createResource resourceData ;;
           ret (json 201 (JObj [("resource", json_of_resource createdResource)]))
     end)
    (fun error =>
       json 500 (error_json "Failed to create resource" (pg_message error))).

End WithPlatform.

End Routes.
Import Routes.

Module Server.

Inductive Method : Type := GET | HEAD | POST | PUT | PATCH | DELETE | OPTIONS.

Definition Method_text (m : Method) : string :=
  match m with
  | GET => "GET" | HEAD => "HEAD" | POST => "POST" | PUT => "PUT"
  | PATCH => "PATCH" | DELETE => "DELETE" | OPTIONS => "OPTIONS"
  end.

(** A request after [express.json()]: the path is held as the segments its
    slashes separate, so that [/api/roles/7] is ["api"; "roles"; "7"] and a
    slash at the end leaves an empty last segment. *)
Record Request : Type := mkRequest {
  method : Method;
  path : list string;
  body : JsValue
}.

Definition path_text (segments : list string) : string :=
  "/" ++ join "/" segments.

Definition health : Handler :=
  fun db =>
    (json 200 (JObj [("status", JStr "ok");
                     ("message", JStr "Server is running")]), db).

Definition root : Handler :=
  fun db =>
    (json 200
       (JObj [("message", JStr "Career Path Explorer API");
              ("version", JStr "1.0.0");
              ("endpoints",
               JObj [("roles", JStr "/api/roles");
                     ("resources", JStr "/api/resources");
                     ("health", JStr "/health")])]), db).

Definition not_found (req : Request) : Handler :=
  fun db =>
    (json 404
       (error_json "Not Found"
          ("Route " ++ Method_text (method req) ++ " " ++
           path_text (path req) ++ " does not exist")), db).

(** The [cors] middleware answers every preflight itself. *)
Definition preflight : Handler := fun db => (mkResponse 204 JUndefined, db).

(** The routes [server.ts] mounts, and the layer that takes a request; a
    GET route also serves HEAD. *)
Inductive Route : Type :=
| Preflight
| GetRoles
| GetRoleById (id : string)
| PostRoles
| PostResources
| Health
| Root
| NotFound.

(** Express matches a path to a route with its defaults: the case of the
    letters does not count, and one slash may follow the path. *)
Definition lower (c : ascii) : ascii :=
  let n := nat_of_ascii c in
  if ((65 <=? n) && (n <=? 90))%nat then ascii_of_nat (n + 32) else c.

Fixpoint segment_eqb (a b : string) : bool :=
  match a, b with
  | EmptyString, EmptyString => true
  | String c a', String d b' => Ascii.eqb (lower c) (lower d) && segment_eqb a' b'
  | _, _ => false
  end.

Fixpoint path_eqb (p route : list string) : bool :=
  match p, route with
  | [], [] => true
  | [last], [] => String.eqb last ""
  | a :: p', b :: route' => segment_eqb a b && path_eqb p' route'
  | _, _ => false
  end.

(** [/roles/:id] under [/api]: the parameter is a segment that is not
    empty. *)
Definition role_id_param (p : list string) : option string :=
  match p with
  | api :: roles :: id :: rest =>
      if segment_eqb api "api" && segment_eqb roles "roles"
         && negb (String.eqb id "") && path_eqb rest []
      then Some id else None
  | _ => None
  end.

(** The routes are tried in the order [server.ts] registers them. *)
Definition router (req : Request) : Route :=
  match method req with
  | OPTIONS => Preflight
  | GET | HEAD =>
      if path_eqb (path req) ["api"; "roles"] then GetRoles
      else
        match role_id_param (path req) with
        | Some id => GetRoleById id
        | None =>
            if path_eqb (path req) ["health"] then Health
            else if path_eqb (path req) [] then Root
            else NotFound
        end
  | POST =>
      if path_eqb (path req) ["api"; "roles"] then PostRoles
      else if path_eqb (path req) ["api"; "resources"] then PostResources
      else NotFound
  | PUT | PATCH | DELETE => NotFound
  end.

Section WithPlatform.
Context {platform : Platform}.

Definition handle (req : Request) : Handler :=
  match router req with
  | Preflight => preflight
  | GetRoles => get_roles
  | GetRoleById id => get_role_by_id id
  | PostRoles => post_roles (body req)
  | PostResources => post_resources (body req)
  | Health => health
  | Root => root
  | NotFound => not_found req
  end.

(** The answer to a HEAD request is the one to the GET request, sent
    without its body. *)
Definition app (req : Request) : Handler :=
  fun db =>
    let (response, db') := handle req db in
    match method req with
    | HEAD => (mkResponse (status response) JUndefined, db')
    | _ => (response, db')
    end.

(** The store after a sequence of requests, and the responses given. *)
Fixpoint serve (reqs : list Request) (db : Db) : list Response * Db :=
  match reqs with
  | [] => ([], db)
  | req :: rest =>
      let (response, db') := app req db in
      let (responses, db'') := serve rest db' in
      (response :: responses, db'')
  end.

(** The stores the API reaches from the migrated, empty one. *)
Inductive reachable : Db -> Prop :=
| reachable_migrated : reachable migrated
| reachable_request req db :
    reachable db -> reachable (snd (app req db)).

End WithPlatform.

End Server.
Import Server.

(** ** The resource list of the frontend ([components/ResourceList.tsx]) *)

Module ResourceList.

(** [type FilterOption = 'All' | DifficultyLevel] *)
Inductive FilterOption : Type :=
| All
| Level (d : DifficultyLevel).

Definition DifficultyLevel_eqb (a b : DifficultyLevel) : bool :=
  match a, b with
  | Beginner, Beginner | Intermediate, Intermediate | Advanced, Advanced => true
  | _, _ => false
  end.

(** The props of one [ResourceItem] element, with its key. *)
Record ResourceItem : Type := mkResourceItem {
  key : Z;
  title : string;
  url : string;
  resource_type : ResourceType;
  difficulty : DifficultyLevel
}.

(** What the list part of the component shows. *)
Inductive Items : Type :=
| NoResourcesMessage (text : string)
| ResourceItems (items : list ResourceItem).

(** The component: its prop and its state. *)
Record Component : Type := mkComponent {
  resources : list Resource.t;
  selectedDifficulty : FilterOption
}.

(** [useState<FilterOption>('All')] *)
Definition mount (resources : list Resource.t) : Component :=
  mkComponent resources All.

Definition filteredResources (c : Component) : list Resource.t :=
  match selectedDifficulty c with
  | All => resources c
  | Level d =>
      filter (fun resource => DifficultyLevel_eqb (Resource.difficulty resource) d)
        (resources c)
  end.

Definition handleFilterChange (value : FilterOption) (c : Component) : Component :=
  mkComponent (resources c) value.

Definition render_item (resource : Resource.t) : ResourceItem :=
  mkResourceItem (Resource.id resource) (Resource.title resource)
    (Resource.url resource) (Resource.resource_type resource)
    (Resource.difficulty resource).

Definition render (c : Component) : Items :=
  match filteredResources c with
  | [] => NoResourcesMessage "No resources available"
  | shown => ResourceItems (map render_item shown)
  end.

End ResourceList.

(** * The seed script ([seed.ts])

    The script runs its statements one after the other through
    [pool.query], outside a transaction; whatever a statement raises is
    caught at the end and the process exits with status 1.  What it prints
    is left out; the connection test at its start is taken to pass. *)
Module Seed.

Record SampleRole : Type := {
  name : string;
  short_description : string;
  long_description : string;
  responsibilities : list string;
  skills : list string
}.

Record SampleResource : Type := {
  role_name : string;
  title : string;
  url : string;
  resource_type : string;
  difficulty : string
}.

Definition SAMPLE_ROLES : list SampleRole :=
  [{| name := "Software Engineer";
      short_description :=
        ("Design, develop, and maintain software applications and " ++
         "systems.");
      long_description :=
        ("Software Engineers are the architects of the digital world. " ++
         "They write code to create applications, websites, and systems " ++
         "that solve real-world problems. This role involves designing " ++
         "software solutions, writing clean and efficient code, " ++
         "debugging issues, and collaborating with teams to bring ideas " ++
         "to life.");
      responsibilities :=
        [("Write clean, maintainable code in various programming " ++
          "languages");
         "Design and implement software features and functionality";
         "Debug and fix software issues";
         "Collaborate with product managers and designers";
         "Participate in code reviews and testing";
         "Document code and technical processes"];
      skills :=
        ["Programming languages (Python, JavaScript, Java, etc.)";
         "Problem-solving and algorithmic thinking";
         "Version control (Git)";
         "Software design patterns";
         "Testing and debugging";
         "Communication and teamwork"] |};
    {| name := "QA Engineer";
      short_description :=
        ("Ensure software quality through testing and quality assurance " ++
         "processes.");
      long_description :=
        ("Quality Assurance Engineers are the guardians of software " ++
         "quality. They design and execute tests to find bugs before " ++
         "users do, ensuring that applications work correctly and " ++
         "provide a great user experience. QA Engineers think " ++
         "critically about how software might fail and create " ++
         "comprehensive test plans to catch issues early.");
      responsibilities :=
        ["Design and execute test plans and test cases";
         "Identify, document, and track software defects";
         "Perform manual and automated testing";
         "Verify bug fixes and feature implementations";
         "Collaborate with developers to improve quality";
         "Maintain testing documentation and reports"];
      skills :=
        ["Testing methodologies and best practices";
         "Test automation tools (Selenium, Cypress)";
         "Attention to detail";
         "Analytical thinking";
         "Bug tracking systems (Jira)";
         "Basic programming knowledge"] |};
    {| name := "Data Scientist";
      short_description :=
        ("Analyze complex data to extract insights and build predictive " ++
         "models.");
      long_description :=
        ("Data Scientists are modern-day detectives who uncover " ++
         "patterns and insights hidden in data. They use statistics, " ++
         "machine learning, and programming to analyze large datasets, " ++
         "build predictive models, and help organizations make " ++
         "data-driven decisions. This role combines mathematics, " ++
         "programming, and business understanding.");
      responsibilities :=
        ["Collect, clean, and analyze large datasets";
         "Build and train machine learning models";
         "Create data visualizations and reports";
         "Communicate findings to stakeholders";
         "Develop data pipelines and workflows";
         "Stay current with ML/AI advancements"];
      skills :=
        ["Python and data science libraries (pandas, scikit-learn)";
         "Statistics and probability";
         "Machine learning algorithms";
         "Data visualization (Matplotlib, Tableau)";
         "SQL and database querying";
         "Critical thinking and communication"] |};
    {| name := "UX/UI Designer";
      short_description :=
        ("Create intuitive and visually appealing user interfaces and " ++
         "experiences.");
      long_description :=
        ("UX/UI Designers are the artists and psychologists of the tech " ++
         "world. They research how users interact with products, design " ++
         "intuitive interfaces, and create beautiful visual designs " ++
         "that make technology accessible and enjoyable. This role " ++
         "requires both creative and analytical thinking to balance " ++
         "aesthetics with usability.");
      responsibilities :=
        ["Conduct user research and usability testing";
         "Create wireframes, mockups, and prototypes";
         "Design user interfaces and visual elements";
         "Develop design systems and style guides";
         "Collaborate with developers and product teams";
         "Iterate designs based on user feedback"];
      skills :=
        ["Design tools (Figma, Sketch, Adobe XD)";
         "User research methodologies";
         "Visual design principles";
         "Prototyping and wireframing";
         "HTML/CSS basics";
         "Empathy and user-centered thinking"] |};
    {| name := "DevOps Engineer";
      short_description :=
        ("Automate and optimize software deployment and infrastructure " ++
         "management.");
      long_description :=
        ("DevOps Engineers are the bridge between development and " ++
         "operations. They automate deployment processes, manage cloud " ++
         "infrastructure, and ensure that applications run reliably and " ++
         "efficiently in production. This role combines software " ++
         "development skills with system administration knowledge to " ++
         "create seamless deployment pipelines.");
      responsibilities :=
        ["Build and maintain CI/CD pipelines";
         "Manage cloud infrastructure (AWS, Azure, GCP)";
         "Automate deployment and scaling processes";
         "Monitor system performance and reliability";
         "Implement security best practices";
         "Troubleshoot production issues"];
      skills :=
        ["Cloud platforms (AWS, Azure, GCP)";
         "Containerization (Docker, Kubernetes)";
         "CI/CD tools (Jenkins, GitHub Actions)";
         "Scripting (Bash, Python)";
         "Infrastructure as Code (Terraform)";
         "System administration and networking"] |}].

Definition SAMPLE_RESOURCES : list SampleResource :=
  [{| role_name := "Software Engineer";
      title := "CS50: Introduction to Computer Science";
      url :=
        "https://cs50.harvard.edu/";
      resource_type := "Course"; difficulty := "Beginner" |};
    {| role_name := "Software Engineer";
      title := "freeCodeCamp: Learn to Code";
      url :=
        "https://www.freecodecamp.org/";
      resource_type := "Course"; difficulty := "Beginner" |};
    {| role_name := "Software Engineer";
      title := "The Odin Project";
      url :=
        "https://www.theodinproject.com/";
      resource_type := "Course"; difficulty := "Intermediate" |};
    {| role_name := "Software Engineer";
      title := "Clean Code by Robert Martin";
      url :=
        "https://www.amazon.com/Clean-Code-Handbook-Software-Craftsmanship/dp/0132350882";
      resource_type := "Article"; difficulty := "Intermediate" |};
    {| role_name := "QA Engineer";
      title := "Software Testing Tutorial";
      url :=
        "https://www.guru99.com/software-testing.html";
      resource_type := "Article"; difficulty := "Beginner" |};
    {| role_name := "QA Engineer";
      title := "Test Automation University";
      url :=
        "https://testautomationu.applitools.com/";
      resource_type := "Course"; difficulty := "Intermediate" |};
    {| role_name := "QA Engineer";
      title := "Introduction to Selenium";
      url :=
        "https://www.selenium.dev/documentation/";
      resource_type := "Article"; difficulty := "Intermediate" |};
    {| role_name := "QA Engineer";
      title := "Cypress Testing Tutorial";
      url :=
        "https://www.youtube.com/watch?v=u8vMu7viCm8";
      resource_type := "Video"; difficulty := "Intermediate" |};
    {| role_name := "Data Scientist";
      title := "Python for Data Science";
      url :=
        "https://www.coursera.org/learn/python-for-applied-data-science-ai";
      resource_type := "Course"; difficulty := "Beginner" |};
    {| role_name := "Data Scientist";
      title := "Introduction to Machine Learning";
      url :=
        "https://www.youtube.com/watch?v=ukzFI9rgwfU";
      resource_type := "Video"; difficulty := "Beginner" |};
    {| role_name := "Data Scientist";
      title := "Kaggle Learn";
      url :=
        "https://www.kaggle.com/learn";
      resource_type := "Course"; difficulty := "Intermediate" |};
    {| role_name := "Data Scientist";
      title := "Deep Learning Specialization";
      url :=
        "https://www.coursera.org/specializations/deep-learning";
      resource_type := "Course"; difficulty := "Advanced" |};
    {| role_name := "UX/UI Designer";
      title := "Google UX Design Certificate";
      url :=
        "https://www.coursera.org/professional-certificates/google-ux-design";
      resource_type := "Course"; difficulty := "Beginner" |};
    {| role_name := "UX/UI Designer";
      title := "Laws of UX";
      url :=
        "https://lawsofux.com/";
      resource_type := "Article"; difficulty := "Beginner" |};
    {| role_name := "UX/UI Designer";
      title := "Figma Tutorial for Beginners";
      url :=
        "https://www.youtube.com/watch?v=FTFaQWZBqQ8";
      resource_type := "Video"; difficulty := "Beginner" |};
    {| role_name := "UX/UI Designer";
      title := "Nielsen Norman Group Articles";
      url :=
        "https://www.nngroup.com/articles/";
      resource_type := "Article"; difficulty := "Intermediate" |};
    {| role_name := "DevOps Engineer";
      title := "Docker Tutorial for Beginners";
      url :=
        "https://www.youtube.com/watch?v=fqMOX6JJhGo";
      resource_type := "Video"; difficulty := "Beginner" |};
    {| role_name := "DevOps Engineer";
      title := "AWS Cloud Practitioner Essentials";
      url :=
        "https://aws.amazon.com/training/digital/aws-cloud-practitioner-essentials/";
      resource_type := "Course"; difficulty := "Beginner" |};
    {| role_name := "DevOps Engineer";
      title := "Kubernetes Documentation";
      url :=
        "https://kubernetes.io/docs/home/";
      resource_type := "Article"; difficulty := "Intermediate" |};
    {| role_name := "DevOps Engineer";
      title := "CI/CD Pipeline Tutorial";
      url :=
        "https://www.youtube.com/watch?v=scEDHsr3APg";
      resource_type := "Video"; difficulty := "Intermediate" |}].

(** What a statement of the script can raise: next to the errors of the
    queries, an INSERT that binds [undefined] to [role_id] violates NOT
    NULL, and one with another type or difficulty violates a CHECK. *)
Inductive Failure : Type :=
| Query (e : DbError)
| NotNullViolation
| CheckViolation.

Definition Script (A : Type) : Type := Db -> (Failure + A) * Db.

Definition query {A} (statement : Pg A) : Script A :=
  fun db =>
    match statement db with
    | (inr a, db') => (inr a, db')
    | (inl e, db') => (inl (Query e), db')
    end.

Definition fail {A} (f : Failure) : Script A := fun db => (inl f, db).

Definition then_ {A B} (m : Script A) (k : A -> Script B) : Script B :=
  fun db =>
    match m db with
    | (inr a, db') => k a db'
    | (inl f, db') => (inl f, db')
    end.

(** [DELETE FROM resources] *)
Definition delete_all_resources : Pg unit :=
  db <- get_db ;;
  put_db (mkDb (roles db) [] (roles_id_seq db) (resources_id_seq db)).

(** [DELETE FROM roles]: ON DELETE RESTRICT refuses while a resource
    references one of the rows. *)
Definition delete_all_roles : Pg unit :=
  db <- get_db ;;
  if existsb (fun r => references db (Role.id r)) (roles db)
  then raise ForeignKeyViolation
  else put_db (mkDb [] (resources db) (roles_id_seq db) (resources_id_seq db)).

(** [ALTER SEQUENCE roles_id_seq RESTART WITH 1] and the same for
    [resources_id_seq] *)
Definition restart_roles_id_seq : Pg unit :=
  db <- get_db ;;
  put_db (mkDb (roles db) (resources db) 1 (resources_id_seq db)).

Definition restart_resources_id_seq : Pg unit :=
  db <- get_db ;;
  put_db (mkDb (roles db) (resources db) (roles_id_seq db) 1).

(** The four statements under [// Clear existing data]. *)
Definition clear : Pg unit :=
  delete_all_resources ;;
  delete_all_roles ;;
  restart_roles_id_seq ;;
  restart_resources_id_seq.

(** [INSERT INTO roles (...) VALUES ($1, ..., $5) RETURNING id]; the script
    passes the five fields as they are. *)
Definition insert_sample_role (role : SampleRole) : Pg Z :=
  name <- text (name role) ;;
  short_description <- text (short_description role) ;;
  long_description <- text (long_description role) ;;
  responsibilities <- text_array (responsibilities role) ;;
  skills <- text_array (skills role) ;;
  name <- varchar 255 name ;;
  id <- nextval_roles_id_seq ;;
  insert_role
    (Role.make id name short_description (Some long_description)
       (Some responsibilities) (Some skills)) ;;
  ret id.

(** [roleIds]: an object from role names to ids; a later assignment to a
    name replaces the earlier one. *)
Definition RoleIds : Type := list (string * Z).

Definition set_role_id (roleIds : RoleIds) (key : string) (id : Z) : RoleIds :=
  (key, id) :: roleIds.

Definition get_role_id (roleIds : RoleIds) (key : string) : option Z :=
  option_map snd (find (fun kv => String.eqb (fst kv) key) roleIds).

(** [for (const role of SAMPLE_ROLES) { ... roleIds[role.name] = ... }] *)
Fixpoint insert_roles (sample : list SampleRole) (roleIds : RoleIds)
    : Script RoleIds :=
  match sample with
  | [] => fun db => (inr roleIds, db)
  | role :: rest =>
      then_ (query (insert_sample_role role)) (fun id =>
      insert_roles rest (set_role_id roleIds (name role) id))
  end.

(** The CHECK constraints of [resources]. *)
Definition check_resource_type (s : string) : option ResourceType :=
  option_map snd
    (find (fun kv => String.eqb (fst kv) s)
       [("Video", Video); ("Article", Article); ("Course", Course)]).

Definition check_difficulty (s : string) : option DifficultyLevel :=
  option_map snd
    (find (fun kv => String.eqb (fst kv) s)
       [("Beginner", Beginner); ("Intermediate", Intermediate);
        ("Advanced", Advanced)]).

(** An INTEGER parameter that may be [undefined], which is sent as NULL. *)
Definition int4_or_null (n : option Z) : Pg (option Z) :=
  match n with
  | Some z => z <- int4 z ;; ret (Some z)
  | None => ret None
  end.

(** [INSERT INTO resources (...) VALUES ($1, ..., $5)] with
    [roleIds[resource.role_name]] for [$1]: the parameters are read, the
    three VARCHAR columns fitted, the id drawn, and then the constraints
    checked, NOT NULL before the CHECKs. *)
Definition insert_sample_resource (roleIds : RoleIds)
    (resource : SampleResource) : Script unit :=
  let roleId := get_role_id roleIds (role_name resource) in
  then_ (query (int4_or_null roleId)) (fun role_id =>
  then_ (query (text (title resource))) (fun title =>
  then_ (query (text (url resource))) (fun url =>
  then_ (query (text (resource_type resource))) (fun type_text =>
  then_ (query (text (difficulty resource))) (fun difficulty_text =>
  then_ (query (varchar 255 title)) (fun title =>
  then_ (query (varchar 50 type_text)) (fun type_text =>
  then_ (query (varchar 50 difficulty_text)) (fun difficulty_text =>
  then_ (query nextval_resources_id_seq) (fun id =>
  match role_id with
  | None => fail NotNullViolation
  | Some role_id =>
      match check_resource_type type_text, check_difficulty difficulty_text with
      | Some resource_type, Some difficulty =>
          query (insert_resource
                   (Resource.make id role_id title url
                      resource_type difficulty))
      | _, _ => fail CheckViolation
      end
  end))))))))).

(** [for (const resource of SAMPLE_RESOURCES) { ...; resourceCount++; }] *)
Fixpoint insert_resources (roleIds : RoleIds) (sample : list SampleResource)
    (resourceCount : Z) : Script Z :=
  match sample with
  | [] => fun db => (inr resourceCount, db)
  | resource :: rest =>
      then_ (insert_sample_resource roleIds resource) (fun _ =>
      insert_resources roleIds rest (resourceCount + 1))
  end.

(** The [try] block of [seed]. *)
Definition script : Script Z :=
  then_ (query clear) (fun _ =>
  then_ (insert_roles SAMPLE_ROLES []) (fun roleIds =>
  insert_resources roleIds SAMPLE_RESOURCES 0)).

(** [seed]: the exit status of the process and the store it leaves. *)
Definition seed : Db -> Z * Db :=
  fun db =>
    match script db with
    | (inr _, db') => (0, db')
    | (inl _, db') => (1, db')
    end.

End Seed.

(** * The property tests of the data access layer

    The two tests call the queries with generated data and clean up with
    DELETE statements of their own.  A run that meets every expectation
    passes; a failed expectation throws, which ends the run before its
    clean-up.  The shrinking that follows a failed run is left out. *)
Module PropertyTests.

Inductive Verdict : Type := Passed | Failed.

Definition expect (holds : bool) (rest : Pg Verdict) : Pg Verdict :=
  if holds then rest else ret Failed.

(** [toBe] on a string or [null]. *)
Definition toBe_text (received expected : option string) : bool :=
  match received, expected with
  | Some a, Some b => String.eqb a b
  | None, None => true
  | _, _ => false
  end.

(** [toEqual] on an array of strings. *)
Fixpoint toEqual_strings (received expected : list string) : bool :=
  match received, expected with
  | [], [] => true
  | a :: received', b :: expected' =>
      String.eqb a b && toEqual_strings received' expected'
  | _, _ => false
  end.

Definition toEqual_array (received : option (list string))
    (expected : list string) : bool :=
  match received with
  | Some l => toEqual_strings l expected
  | None => false
  end.

Definition toBe_resource_type (received expected : ResourceType) : bool :=
  match received, expected with
  | Video, Video | Article, Article | Course, Course => true
  | _, _ => false
  end.

Definition toBe_difficulty (received expected : DifficultyLevel) : bool :=
  match received, expected with
  | Beginner, Beginner | Intermediate, Intermediate | Advanced, Advanced => true
  | _, _ => false
  end.

(** [fc.assert(fc.asyncProperty(arbitrary, property))] on the generated
    values, one run after the other, up to the first that fails. *)
Fixpoint assert_property {A} (property : A -> Pg Verdict) (runs : list A)
    : Pg Verdict :=
  match runs with
  | [] => ret Passed
  | a :: rest =>
      verdict <- property a ;;
      match verdict with
      | Passed => assert_property property rest
      | Failed => ret Failed
      end
  end.

(** Property 10, role creation persistence. *)
Definition role_creation (roleData : CreateRoleInput.t) : Pg Verdict :=
  createdRole <- createRole roleData ;;
  expect (0 <? Role.id createdRole) (
  expect (String.eqb (Role.name createdRole) (CreateRoleInput.name roleData)) (
  expect (String.eqb (Role.short_description createdRole)
            (CreateRoleInput.short_description roleData)) (
  expect (toBe_text (Role.long_description createdRole)
            (or_null (CreateRoleInput.long_description roleData))) (
  expect (toEqual_array (Role.responsibilities createdRole)
            (or_empty (CreateRoleInput.responsibilities roleData))) (
  expect (toEqual_array (Role.skills createdRole)
            (or_empty (CreateRoleInput.skills roleData))) (
  exists_ <- roleExists (Role.id createdRole) ;;
  expect exists_ (
  retrievedRole <- getRoleById (Role.id createdRole) ;;
  match retrievedRole with
  | None => ret Failed
  | Some retrieved =>
      let retrieved := RoleWithResources.role retrieved in
      expect (Role.id retrieved =? Role.id createdRole) (
      expect (String.eqb (Role.name retrieved)
                (CreateRoleInput.name roleData)) (
      expect (String.eqb (Role.short_description retrieved)
                (CreateRoleInput.short_description roleData)) (
      delete_from_roles (Role.id createdRole) ;;
      ret Passed)))
  end))))))).

(** Property 12, resource creation persistence, and its hooks. *)
Definition beforeEach : Pg Z :=
  role <- createRole
            (CreateRoleInput.make "Test Role for Resources"
               "A test role for resource creation tests"
               Undefined Undefined Undefined) ;;
  ret (Role.id role).

Definition afterEach (testRoleId : Z) : Pg unit :=
  delete_from_resources testRoleId ;;
  delete_from_roles testRoleId.

(** [DELETE FROM resources WHERE id = $1] *)
Definition delete_from_resources_by_id (id : Z) : Pg unit :=
  id <- int4 id ;;
  db <- get_db ;;
  put_db (mkDb (roles db)
            (filter (fun r => negb (Resource.id r =? id)) (resources db))
            (roles_id_seq db) (resources_id_seq db)).

Record ResourceData : Type := {
  title : string;
  url : string;
  resource_type : ResourceType;
  difficulty : DifficultyLevel
}.

Definition resource_creation (testRoleId : Z) (resourceData : ResourceData)
    : Pg Verdict :=
  createdResource <- createResource
                       (CreateResourceInput.make testRoleId
                          (title resourceData) (url resourceData)
                          (resource_type resourceData)
                          (difficulty resourceData)) ;;
  expect (0 <? Resource.id createdResource) (
  expect (Resource.role_id createdResource =? testRoleId) (
  expect (String.eqb (Resource.title createdResource) (title resourceData)) (
  expect (String.eqb (Resource.url createdResource) (url resourceData)) (
  expect (toBe_resource_type (Resource.resource_type createdResource)
            (resource_type resourceData)) (
  expect (toBe_difficulty (Resource.difficulty createdResource)
            (difficulty resourceData)) (
  resources <- getResourcesByRoleId testRoleId ;;
  let foundResource :=
    find (fun r => Resource.id r =? Resource.id createdResource) resources in
  match foundResource with
  | None => ret Failed
  | Some found =>
      expect (String.eqb (Resource.title found) (title resourceData)) (
      expect (String.eqb (Resource.url found) (url resourceData)) (
      expect (toBe_resource_type (Resource.resource_type found)
                (resource_type resourceData)) (
      expect (toBe_difficulty (Resource.difficulty found)
                (difficulty resourceData)) (
      delete_from_resources_by_id (Resource.id createdResource) ;;
      ret Passed))))
  end)))))).

End PropertyTests.

(** * The client ([api.ts], [RoleList.tsx], [RoleCard], [RoleDetailPage.tsx])

    The client is modelled over the values of the types of [types.ts], with
    [long_description], [responsibilities] and [skills] nullable as the
    server sends them.  What the browser and the HTTP layer contribute is
    kept apart in [Browser]. *)

Class Browser : Type := {
  (** a JavaScript number, [Number(s)], [isNaN(n)] and the rendering of a
      number in a template literal *)
  JsNumber : Type;
  Number_of : string -> JsNumber;
  isNaN : JsNumber -> bool;
  Number_text : JsNumber -> string;
  (** the message of the [TypeError] for a property read on [null] *)
  TypeError_message : string;
  (** the message [response.json()] rejects with on an empty body *)
  SyntaxError_message : string;
  (** [response.statusText] for a status *)
  statusText_of : Z -> string
}.

(** ** The casts of [types.ts] *)
Module Types.

(** [Role] and [RoleWithResources] as [types.ts] declares them: every
    property is required, and none is null. *)
Module Role.
Record t : Type := make {
  id : Z;
  name : string;
  short_description : string;
  long_description : string;
  responsibilities : list string;
  skills : list string
}.
End Role.

Module RoleWithResources.
Record t : Type := make {
  role : Role.t;
  resources : list Resource.t
}.
End RoleWithResources.

Definition and_then {A B} (o : option A) (f : A -> option B) : option B :=
  match o with
  | Some a => f a
  | None => None
  end.

Definition as_number (v : JsValue) : option Z :=
  match v with
  | JNum q => if isInteger q then Some (toZ q) else None
  | _ => None
  end.

Definition as_string (v : JsValue) : option string :=
  match v with
  | JStr s => Some s
  | _ => None
  end.

Fixpoint as_list {A} (cast : JsValue -> option A) (items : list JsValue)
    : option (list A) :=
  match items with
  | [] => Some []
  | v :: rest =>
      and_then (cast v) (fun a =>
      and_then (as_list cast rest) (fun l => Some (a :: l)))
  end.

Definition as_array {A} (cast : JsValue -> option A) (v : JsValue)
    : option (list A) :=
  match v with
  | JArr items => as_list cast items
  | _ => None
  end.

Definition as_ResourceType (v : JsValue) : option ResourceType :=
  match v with
  | JStr s =>
      if String.eqb s "Video" then Some Video
      else if String.eqb s "Article" then Some Article
      else if String.eqb s "Course" then Some Course
      else None
  | _ => None
  end.

Definition as_DifficultyLevel (v : JsValue) : option DifficultyLevel :=
  match v with
  | JStr s =>
      if String.eqb s "Beginner" then Some Beginner
      else if String.eqb s "Intermediate" then Some Intermediate
      else if String.eqb s "Advanced" then Some Advanced
      else None
  | _ => None
  end.

Definition as_RoleSummary (v : JsValue) : option RoleSummary.t :=
  and_then (as_number (get v "id")) (fun id =>
  and_then (as_string (get v "name")) (fun name =>
  and_then (as_string (get v "short_description")) (fun short_description =>
  Some (RoleSummary.make id name short_description)))).

Definition as_Role (v : JsValue) : option Role.t :=
  and_then (as_number (get v "id")) (fun id =>
  and_then (as_string (get v "name")) (fun name =>
  and_then (as_string (get v "short_description")) (fun short_description =>
  and_then (as_string (get v "long_description")) (fun long_description =>
  and_then (as_array as_string (get v "responsibilities"))
    (fun responsibilities =>
  and_then (as_array as_string (get v "skills")) (fun skills =>
  Some (Role.make id name short_description long_description
          responsibilities skills))))))).

Definition as_Resource (v : JsValue) : option Resource.t :=
  and_then (as_number (get v "id")) (fun id =>
  and_then (as_number (get v "role_id")) (fun role_id =>
  and_then (as_string (get v "title")) (fun title =>
  and_then (as_string (get v "url")) (fun url =>
  and_then (as_ResourceType (get v "resource_type")) (fun resource_type =>
  and_then (as_DifficultyLevel (get v "difficulty")) (fun difficulty =>
  Some (Resource.make id role_id title url resource_type difficulty))))))).

Definition as_RoleWithResources (v : JsValue) : option RoleWithResources.t :=
  and_then (as_Role v) (fun role =>
  and_then (as_array as_Resource (get v "resources")) (fun resources =>
  Some (RoleWithResources.make role resources))).

(** [GetRolesResponse] and [GetRoleByIdResponse], each by its one field. *)
Definition as_GetRolesResponse (v : JsValue) : option (list RoleSummary.t) :=
  as_array as_RoleSummary (get v "roles").

Definition as_GetRoleByIdResponse (v : JsValue) : option RoleWithResources.t :=
  as_RoleWithResources (get v "role").

End Types.

(** ** [api.ts] *)
Module Api.

(** [class ApiError extends Error] *)
Record ApiError : Type := mkApiError {
  status : Z;
  statusText : string;
  details : JsValue
}.

(** What a call rejects with: an [ApiError], or another [Error] with its
    message. *)
Inductive Thrown : Type :=
| Api (e : ApiError)
| Error_ (message : string).

(** [err.message]; for an [ApiError] it is the one its constructor builds. *)
Definition message (err : Thrown) : string :=
  match err with
  | Api e => "API Error " ++ Z_to_string (status e) ++ ": " ++ statusText e
  | Error_ m => m
  end.

(** What [fetch] resolves to, with the body as [response.json()] reads
    it. *)
Record Fetched : Type := mkFetched {
  response_status : Z;
  response_statusText : string;
  data : JsValue
}.

(** [response.ok] *)
Definition ok (response : Fetched) : bool :=
  (200 <=? response_status response) && (response_status response <=? 299).

(** The operand [a || b] evaluates to. *)
Definition truthy (v : JsValue) : bool :=
  match v with
  | JUndefined | JNull => false
  | JBool b => b
  | JNum q => negb (Qeq_bool q 0)
  | JStr s => negb (String.eqb s "")
  | JArr _ | JObj _ => true
  end.

Definition or_else (a b : JsValue) : JsValue := if truthy a then a else b.

Section WithBrowser.
Context {browser : Browser}.

(** [fetchApi<T>], from the point where [fetch] and [response.json()] have
    settled.  [None]: the body is not of the type [T] the cast claims. *)
Definition fetchApi {T} (cast : JsValue -> option T)
    (fetched : Thrown + Fetched) : option (Thrown + T) :=
  match fetched with
  | inl err => Some (inl err)
  | inr response =>
      let data := data response in
      if negb (ok response) then
        match data with
        | JUndefined | JNull => Some (inl (Error_ TypeError_message))
        | _ =>
            Some (inl (Api (mkApiError (response_status response)
                              (response_statusText response)
                              (or_else (get data "details")
                                       (get data "error")))))
        end
      else option_map inr (cast data)
  end.

(** The requests of the two reading functions: [/api/roles] and
    [/api/roles/${id}]. *)
Definition getAllRoles_request : Request :=
  mkRequest GET ["api"; "roles"] JUndefined.

Definition getRoleById_request (id : JsNumber) : Request :=
  mkRequest GET ["api"; "roles"; Number_text id] JUndefined.

Context {platform : Platform}.

(** [fetch] against the server of this repository, and [response.json()]
    on what it answers. *)
Definition fetch (req : Request) (db : Db) : (Thrown + Fetched) * Db :=
  let (response, db') := app req db in
  match Routes.body response with
  | JUndefined => (inl (Error_ SyntaxError_message), db')
  | body =>
      (inr (mkFetched (Routes.status response)
              (statusText_of (Routes.status response)) body), db')
  end.

Definition getAllRoles (db : Db) : option (Thrown + list RoleSummary.t) :=
  fetchApi Types.as_GetRolesResponse (fst (fetch getAllRoles_request db)).

Definition getRoleById (id : JsNumber) (db : Db)
    : option (Thrown + Types.RoleWithResources.t) :=
  fetchApi Types.as_GetRoleByIdResponse
    (fst (fetch (getRoleById_request id) db)).

End WithBrowser.

End Api.

(** ** [RoleCard] *)
Module RoleCard.

Record Props : Type := mkProps {
  id : Z;
  name : string;
  short_description : string
}.



End RoleCard.

(** ** [RoleList.tsx] *)
Module RoleList.

Record State : Type := mkState {
  roles : list RoleSummary.t;
  loading : bool;
  error : option string
}.

Definition mount : State := mkState [] true None.



Inductive View : Type :=
| LoadingIndicator (text : string)
| ErrorMessage (text : string)
| Cards (cards : list RoleCard.Props).

Definition card (role : RoleSummary.t) : RoleCard.Props :=
  RoleCard.mkProps (RoleSummary.id role) (RoleSummary.name role)
    (RoleSummary.short_description role).

(** [if (error)] takes the empty message for no error. *)
Definition render (s : State) : View :=
  if loading s then LoadingIndicator "Loading roles..."
  else
    match error s with
    | Some message =>
        if String.eqb message "" then Cards (map card (roles s))
        else ErrorMessage ("Error: " ++ message)
    | None => Cards (map card (roles s))
    end.


End RoleList.

(** ** [RoleDetailPage.tsx] *)
Module RoleDetailPage.

Record State : Type := mkState {
  role : option Types.RoleWithResources.t;
  loading : bool;
  error : option string
}.

Definition mount : State := mkState None true None.

(** A section of the page: the list, or the text shown in its place. *)
Inductive Listing : Type :=
| Items (items : list string)
| Nothing (text : string).

Definition listing (items : list string) (text : string) : Listing :=
  match items with
  | item :: rest => Items (item :: rest)
  | [] => Nothing text
  end.

Inductive View : Type :=
| LoadingIndicator (text : string)
| ErrorMessage (text : string)
| Details (name : string) (long_description : string)
    (responsibilities skills : Listing) (resources : ResourceList.Component).

Definition render (s : State) : View :=
  if loading s then LoadingIndicator "Loading role details..."
  else
    let no_error :=
      match role s with
      | None => ErrorMessage "Error: Role not found"
      | Some role =>
          let r := Types.RoleWithResources.role role in
          Details (Types.Role.name r) (Types.Role.long_description r)
            (listing (Types.Role.responsibilities r) "No responsibilities listed")
            (listing (Types.Role.skills r) "No skills listed")
            (ResourceList.mount (Types.RoleWithResources.resources role))
      end in
    match error s with
    | Some message =>
        if String.eqb message "" then no_error
        else ErrorMessage ("Error: " ++ message)
    | None => no_error
    end.

Section WithBrowser.
Context {browser : Browser}.

(** [!id || isNaN(Number(id))] *)
Definition invalid (id : string) : bool :=
  String.eqb id "" || isNaN (Number_of id).

(** [fetchRoleDetails]; [getRoleById] is the call it awaits, and what that
    rejects with is always an [Error]. *)
Definition fetchRoleDetails (id : string)
    (getRoleById : JsNumber -> Api.Thrown + Types.RoleWithResources.t) (s : State)
    : State :=
  if invalid id then mkState (role s) false (Some "Invalid role ID")
  else
    match getRoleById (Number_of id) with
    | inr response_role => mkState (Some response_role) false None
    | inl err => mkState (role s) false (Some (Api.message err))
    end.

End WithBrowser.

End RoleDetailPage.

(** * The vocabulary of the statements *)

(** ** Rows and results *)

(** The rows that [createRole] and [createResource] insert under a given
    id, for a name or title that fits its column. *)
Definition role_row (id : Z) (data : CreateRoleInput.t) : Role.t :=
  Role.make id (CreateRoleInput.name data)
    (CreateRoleInput.short_description data)
    (or_null (CreateRoleInput.long_description data))
    (Some (or_empty (CreateRoleInput.responsibilities data)))
    (Some (or_empty (CreateRoleInput.skills data))).

Definition resource_row (id : Z) (data : CreateResourceInput.t) : Resource.t :=
  Resource.make id (CreateResourceInput.role_id data)
    (CreateResourceInput.title data) (CreateResourceInput.url data)
    (CreateResourceInput.resource_type data)
    (CreateResourceInput.difficulty data).

(** The input as its VARCHAR(255) column takes it: a name or title that
    is longer only by spaces is stored without them. *)
Definition stored (n : nat) (s : string) : string :=
  match fitted n s with
  | Some kept => kept
  | None => s
  end.

Definition stored_role (data : CreateRoleInput.t) : CreateRoleInput.t :=
  CreateRoleInput.make (stored 255 (CreateRoleInput.name data))
    (CreateRoleInput.short_description data)
    (CreateRoleInput.long_description data)
    (CreateRoleInput.responsibilities data)
    (CreateRoleInput.skills data).

Definition stored_resource (data : CreateResourceInput.t)
    : CreateResourceInput.t :=
  CreateResourceInput.make (CreateResourceInput.role_id data)
    (stored 255 (CreateResourceInput.title data))
    (CreateResourceInput.url data)
    (CreateResourceInput.resource_type data)
    (CreateResourceInput.difficulty data).

(** The texts that [createRole] and [createResource] bind to their
    parameters, and what makes them storable: none holds U+0000. *)
Definition role_texts (data : CreateRoleInput.t) : list string :=
  ([CreateRoleInput.name data; CreateRoleInput.short_description data] ++
   match or_null (CreateRoleInput.long_description data) with
   | Some long_description => [long_description]
   | None => []
   end ++
   or_empty (CreateRoleInput.responsibilities data) ++
   or_empty (CreateRoleInput.skills data))%list.

Definition resource_texts (data : CreateResourceInput.t) : list string :=
  [CreateResourceInput.title data; CreateResourceInput.url data].

Definition storable (texts : list string) : Prop :=
  Forall (fun s => has_nul s = false) texts.

(** The JSON the API sends for a stored row, property by property: a
    column that is NULL is sent as [null]. *)
Definition role_properties (r : Role.t) : list (string * JsValue) :=
  [("id", of_Z (Role.id r));
   ("name", JStr (Role.name r));
   ("short_description", JStr (Role.short_description r));
   ("long_description",
    match Role.long_description r with Some s => JStr s | None => JNull end);
   ("responsibilities",
    match Role.responsibilities r with
    | Some l => JArr (map JStr l)
    | None => JNull
    end);
   ("skills",
    match Role.skills r with Some l => JArr (map JStr l) | None => JNull end)].

Definition resource_object (r : Resource.t) : JsValue :=
  JObj [("id", of_Z (Resource.id r));
        ("role_id", of_Z (Resource.role_id r));
        ("title", JStr (Resource.title r));
        ("url", JStr (Resource.url r));
        ("resource_type",
         JStr match Resource.resource_type r with
              | Video => "Video" | Article => "Article" | Course => "Course"
              end);
        ("difficulty",
         JStr match Resource.difficulty r with
              | Beginner => "Beginner"
              | Intermediate => "Intermediate"
              | Advanced => "Advanced"
              end)].

(** A list in ascending order of an integer key. *)
Definition ascending {A} (key : A -> Z) (l : list A) : Prop :=
  Sorted Z.le (map key l).

(** [Selection P l shown]: [shown] keeps the elements of [l] that satisfy
    [P], each as often as it occurs and in the order of [l], and nothing
    else. *)
Inductive Selection {A} (P : A -> Prop) : list A -> list A -> Prop :=
| select_nil : Selection P [] []
| select_keep x l shown :
    P x -> Selection P l shown -> Selection P (x :: l) (x :: shown)
| select_drop x l shown :
    ~ P x -> Selection P l shown -> Selection P (x :: l) shown.

(** A database failure: the statement raises an error. *)
Definition raises {A} (m : Pg A) (db : Db) : Prop :=
  exists e, fst (m db) = inl e.

(** ** Bodies *)

(** An error body carries an [error] field. *)
Definition has_error (b : JsValue) : Prop := exists e, get b "error" = JStr e.

Definition is_object (b : JsValue) : Prop := exists fields, b = JObj fields.

(** The values of the two enumerations, as a body carries them. *)
Definition allowed_resource_type (v : JsValue) : Prop :=
  v = JStr "Video" \/ v = JStr "Article" \/ v = JStr "Course".

Definition allowed_difficulty (v : JsValue) : Prop :=
  v = JStr "Beginner" \/ v = JStr "Intermediate" \/ v = JStr "Advanced".

(** A property that the body leaves out or sets to [null]. *)
Definition omitted (v : JsValue) : Prop := v = JUndefined \/ v = JNull.

(** ** What a request does *)

Section Outcomes.
Context {platform : Platform}.

(** The four ways POST /api/resources can go. *)
Inductive post_resources_outcome (req_body : JsValue) (db : Db)
    : Response * Db -> Prop :=
| rejected messages :
    safeParse CreateResourceSchema req_body = Failure messages ->
    post_resources_outcome req_body db
      (json 400 (error_json "Validation failed" (join ", " messages)), db)
| role_missing data :
    safeParse CreateResourceSchema req_body = Success data ->
    fst (roleExists (CreateResourceInput.role_id data) db) = inr false ->
    post_resources_outcome req_body db
      (json 404 (error_json "Role not found"
         ("No role found with ID " ++
          Z_to_string (CreateResourceInput.role_id data))), db)
| created data row db' :
    safeParse CreateResourceSchema req_body = Success data ->
    fst (roleExists (CreateResourceInput.role_id data) db) = inr true ->
    createResource data db = (inr row, db') ->
    post_resources_outcome req_body db
      (json 201 (JObj [("resource", json_of_resource row)]), db')
| failed data e db' :
    safeParse CreateResourceSchema req_body = Success data ->
    roles db' = roles db ->
    resources db' = resources db ->
    post_resources_outcome req_body db
      (json 500 (error_json "Failed to create resource" (pg_message e)), db').

End Outcomes.

(** What a request does to the store: it keeps both tables (a sequence may
    have moved on), or it has run [createRole] or [createResource] to its
    end. *)
Inductive app_effect (req : Request) (db db' : Db) : Prop :=
| keeps_tables :
    roles db' = roles db -> resources db' = resources db ->
    roles_id_seq db <= roles_id_seq db' <=
      Z.max (roles_id_seq db) (INT4_MAX + 1) ->
    resources_id_seq db <= resources_id_seq db' <=
      Z.max (resources_id_seq db) (INT4_MAX + 1) ->
    app_effect req db db'
| inserts_role data row :
    router req = PostRoles ->
    safeParse CreateRoleSchema (Server.body req) = Success data ->
    createRole data db = (inr row, db') ->
    app_effect req db db'
| inserts_resource data row :
    router req = PostResources ->
    createResource data db = (inr row, db') ->
    app_effect req db db'.

(** ** The store the schema keeps

    The ids handed out come from the sequences, so every stored id lies
    below its sequence and is stored once; a sequence stops one past the
    largest INTEGER; the foreign key of [resources] holds. *)

(** The foreign key of [resources]: every row references a stored role. *)
Definition references_existing (db : Db) : Prop :=
  forall r, In r (resources db) -> has_role db (Resource.role_id r) = true.

Record consistent (db : Db) : Prop := {
  roles_id_below : forall r, In r (roles db) -> 1 <= Role.id r < roles_id_seq db;
  resources_id_below :
    forall r, In r (resources db) -> 1 <= Resource.id r < resources_id_seq db;
  roles_pkey : NoDup (map Role.id (roles db));
  resources_pkey : NoDup (map Resource.id (resources db));
  roles_id_seq_range : 1 <= roles_id_seq db <= INT4_MAX + 1;
  resources_id_seq_range : 1 <= resources_id_seq db <= INT4_MAX + 1;
  resources_role_id_fkey : references_existing db
}.

(** The arrays of a stored role. *)
Definition arrays_not_null (role : Role.t) : Prop :=
  Role.responsibilities role <> None /\ Role.skills role <> None.

(** ** The resource list *)

(** The component after a series of filter changes. *)
Definition changes (values : list ResourceList.FilterOption)
    (c : ResourceList.Component) : ResourceList.Component :=
  fold_left (fun c value => ResourceList.handleFilterChange value c) values c.

(** ** Worked examples *)

(** A platform: URLs are the strings with an http or https scheme. *)
Definition sample_platform : Platform := {|
  URL_parses := fun s => String.prefix "http://" s || String.prefix "https://" s;
  pg_message := fun e =>
    match e with
    | NumericValueOutOfRange => "value is out of range for type integer"
    | InvalidTextRepresentation => "invalid input syntax for type integer"
    | CharacterNotInRepertoire => "invalid byte sequence for encoding UTF8: 0x00"
    | StringDataRightTruncation => "value too long for type character varying(255)"
    | UniqueViolation => "duplicate key value violates unique constraint"
    | ForeignKeyViolation => "violates foreign key constraint"
    | SequenceLimitExceeded => "nextval: reached maximum value of sequence"
    end
|}.

(** A store with one role and one resource of it. *)
Definition sample_role : Role.t :=
  Role.make 1 "QA Engineer" "Ensure software quality" None (Some []) (Some []).

Definition sample_resource : Resource.t :=
  Resource.make 1 1 "Testing basics" "https://example.com/testing" Video Beginner.

Definition sample_db : Db := mkDb [sample_role] [sample_resource] 2 2.

(** Request bodies. *)
Definition resource_body (role_id : Z) (resource_type : string) : JsValue :=
  JObj [("role_id", of_Z role_id);
        ("title", JStr "Testing basics");
        ("url", JStr "https://example.com/testing");
        ("resource_type", JStr resource_type);
        ("difficulty", JStr "Beginner")].

Definition role_body : JsValue :=
  JObj [("name", JStr "Data Analyst");
        ("short_description", JStr "Turn data into decisions");
        ("skills", JArr [JStr "SQL"; JStr "Statistics"])].

Definition role_input : CreateRoleInput.t :=
  CreateRoleInput.make "Data Analyst" "Turn data into decisions"
    Undefined Undefined (Val ["SQL"; "Statistics"]).

(** A name of 255 letters followed by a space. *)
Definition padded_input : CreateRoleInput.t :=
  CreateRoleInput.make
    (string_of_list_ascii (repeat "a"%char 255) ++ " ")
    "Ensure software quality" Undefined Undefined Undefined.

(** ** Bodies that validation accepts *)

(** A name or title: a string of 1 to 255 characters, not all white space. *)
Definition valid_name (v : JsValue) : Prop :=
  exists s, v = JStr s /\ (1 <= String.length s <= 255)%nat /\
            not_only_whitespace s = true.

Definition valid_short_description (v : JsValue) : Prop :=
  exists s, v = JStr s /\ (1 <= String.length s)%nat /\
            not_only_whitespace s = true.

(** An optional string, and an optional array of strings. *)
Definition optional_string (v : JsValue) : Prop :=
  v = JUndefined \/ v = JNull \/ exists s, v = JStr s.

Definition optional_strings (v : JsValue) : Prop :=
  v = JUndefined \/ v = JNull \/ exists l, v = JArr (map JStr l).

(** A positive integer. *)
Definition positive_integer (v : JsValue) : Prop :=
  exists q, v = JNum q /\ isInteger q = true /\ 0 < Qnum q.

Definition valid_url {platform : Platform} (v : JsValue) : Prop :=
  exists s, v = JStr s /\ URL_parses s = true.

(** The value of a decimal numeral read from the left, as [Number] reads the
    digits of a string. *)
Fixpoint uint_value (acc : Z) (d : Decimal.uint) : Z :=
  match d with
  | Decimal.Nil => acc
  | Decimal.D0 d => uint_value (10 * acc) d
  | Decimal.D1 d => uint_value (10 * acc + 1) d
  | Decimal.D2 d => uint_value (10 * acc + 2) d
  | Decimal.D3 d => uint_value (10 * acc + 3) d
  | Decimal.D4 d => uint_value (10 * acc + 4) d
  | Decimal.D5 d => uint_value (10 * acc + 5) d
  | Decimal.D6 d => uint_value (10 * acc + 6) d
  | Decimal.D7 d => uint_value (10 * acc + 7) d
  | Decimal.D8 d => uint_value (10 * acc + 8) d
  | Decimal.D9 d => uint_value (10 * acc + 9) d
  end.


(** What the answers of the handlers have in common: a success carries no
    [error], a failure is [{ error, details }] and leaves the tables alone,
    and only a 201 or a 500 can leave a changed store. *)
Definition handled (req : Request) (db : Db) (result : Response * Db) : Prop :=
  let response := fst result in
  let db' := snd result in
  In (status response) [200; 201; 204; 400; 404; 500] /\
  (400 <= status response ->
     exists error details,
       Routes.body response = error_json error details /\ error <> "") /\
  (status response < 400 ->
     get (Routes.body response) "error" = JUndefined) /\
  (status response = 201 -> method req = POST) /\
  (status response <> 201 ->
     roles db' = roles db /\ resources db' = resources db) /\
  (status response <> 201 -> status response <> 500 -> db' = db).

(** What the answers of the application have in common: the same, but
    that the answer to a HEAD request has no body. *)
Definition answers (req : Request) (db : Db) (result : Response * Db) : Prop :=
  let response := fst result in
  let db' := snd result in
  In (status response) [200; 201; 204; 400; 404; 500] /\
  (method req = HEAD -> Routes.body response = JUndefined) /\
  (method req <> HEAD -> 400 <= status response ->
     exists error details,
       Routes.body response = error_json error details /\ error <> "") /\
  (status response < 400 ->
     get (Routes.body response) "error" = JUndefined) /\
  (status response = 201 -> method req = POST) /\
  (status response <> 201 ->
     roles db' = roles db /\ resources db' = resources db) /\
  (status response <> 201 -> status response <> 500 -> db' = db).


(** A parse is explained when it carries a message whenever it has no
    value, and none of its messages is empty. *)
Definition explained {A} (r : Parse A) : Prop :=
  (value r = None -> errors r <> []) /\
  Forall (fun message => message <> "") (errors r).

(** ** The seeded store *)

(** The rows of a list with the ids a sequence at [n] hands out. *)
Fixpoint numbered {A} (n : Z) (l : list A) : list (Z * A) :=
  match l with
  | [] => []
  | a :: rest => (n, a) :: numbered (n + 1) rest
  end.

Definition sample_role_row (numbered_role : Z * Seed.SampleRole) : Role.t :=
  let (id, role) := numbered_role in
  Role.make id (Seed.name role) (Seed.short_description role)
    (Some (Seed.long_description role))
    (Some (Seed.responsibilities role)) (Some (Seed.skills role)).

(** The name of the stored role with an id. *)
Definition role_name_of (db : Db) (id : Z) : option string :=
  option_map Role.name (find (fun r => Role.id r =? id) (roles db)).

(** A stored resource is the sample resource, numbered, under the role of
    the name the sample gives. *)
Definition sample_resource_row (db : Db)
    (numbered_resource : Z * Seed.SampleResource) (row : Resource.t) : Prop :=
  let (id, resource) := numbered_resource in
  Resource.id row = id /\
  role_name_of db (Resource.role_id row) = Some (Seed.role_name resource) /\
  Resource.title row = Seed.title resource /\
  Resource.url row = Seed.url resource /\
  ResourceType_text (Resource.resource_type row) = Seed.resource_type resource /\
  DifficultyLevel_text (Resource.difficulty row) = Seed.difficulty resource.

(** The resources stored for a role. *)
Definition resources_of (db : Db) (role : Role.t) : list Resource.t :=
  filter (fun r => Resource.role_id r =? Role.id role) (resources db).

(** ** The browser *)

(** On the decimal numeral of a safe integer, [Number] gives a number that
    is not [NaN] and that a template literal renders as the same
    numeral. *)
Definition decimal_numbers (browser : Browser) : Prop :=
  forall n, 0 <= n <= 9007199254740991 ->
    isNaN (Number_of (Z_to_string n)) = false /\
    Number_text (Number_of (Z_to_string n)) = Z_to_string n.

(** A browser whose numbers are those that [Number] makes of decimal
    digits, and [NaN]. *)
Definition sample_browser : Browser := {|
  JsNumber := option Num;
  Number_of := fun s => if decimal_digits s then Some (Number s) else None;
  isNaN := fun n => match n with Some _ => false | None => true end;
  Number_text := fun n => match n with Some z => Num_to_string z | None => "NaN" end;
  TypeError_message := "Cannot read properties of null";
  SyntaxError_message := "Unexpected end of JSON input";
  statusText_of := fun status =>
    if status =? 200 then "OK"
    else if status =? 201 then "Created"
    else if status =? 400 then "Bad Request"
    else if status =? 404 then "Not Found"
    else if status =? 500 then "Internal Server Error"
    else ""
|}.

(** A role read from the store as the frontend types it.  [types.ts]
    declares every property of a [Role] required and not null, so the type
    holds of the row when none of its nullable columns is NULL. *)
Definition typed_role (role : RoleWithResources.t)
    : option Types.RoleWithResources.t :=
  let r := RoleWithResources.role role in
  match Role.long_description r, Role.responsibilities r, Role.skills r with
  | Some long_description, Some responsibilities, Some skills =>
      Some (Types.RoleWithResources.make
              (Types.Role.make (Role.id r) (Role.name r)
                 (Role.short_description r) long_description
                 responsibilities skills)
              (RoleWithResources.resources role))
  | _, _, _ => None
  end.

(** A store whose role has every column filled. *)
Definition described_role : Role.t :=
  Role.make 1 "QA Engineer" "Ensure software quality"
    (Some "Plans and runs the tests of a product.")
    (Some ["Write test plans"; "Report defects"]) (Some []).

Definition described_db : Db := mkDb [described_role] [sample_resource] 2 2.

(** The [ApiError] the client makes of an error answer of the server. *)
Definition rejects_with {browser : Browser} (status : Z) (error details : string)
    : Api.Thrown :=
  Api.Api (Api.mkApiError status (statusText_of status)
             (Api.or_else (JStr details) (JStr error))).

(** The role page for an [id] of the route, once its request has settled. *)
Definition role_page {browser : Browser} (id : string)
    (getRoleById : JsNumber -> Api.Thrown + Types.RoleWithResources.t)
    : RoleDetailPage.View :=
  RoleDetailPage.render
    (RoleDetailPage.fetchRoleDetails id getRoleById RoleDetailPage.mount).

(** ** The inputs the property tests generate

    [fc.string] draws printable ASCII characters, within the bounds given
    for the length; [fc.webUrl] writes a URL with such characters;
    [fc.option] with [nil: undefined] gives the value or [undefined]. *)
Definition printable (s : string) : bool :=
  forallb (fun c => (32 <=? nat_of_ascii c)%nat && (nat_of_ascii c <=? 126)%nat)
    (list_ascii_of_string s).

Definition fc_string (minLength maxLength : nat) (s : string) : Prop :=
  (minLength <= String.length s <= maxLength)%nat /\ printable s = true.

Definition fc_option {A} (arbitrary : A -> Prop) (v : Nullish A) : Prop :=
  match v with
  | Undefined => True
  | Null => False
  | Val a => arbitrary a
  end.

Definition fc_array {A} (arbitrary : A -> Prop) (maxLength : nat)
    (l : list A) : Prop :=
  (List.length l <= maxLength)%nat /\ Forall arbitrary l.

Definition generated_role (roleData : CreateRoleInput.t) : Prop :=
  fc_string 1 255 (CreateRoleInput.name roleData) /\
  fc_string 1 1000 (CreateRoleInput.short_description roleData) /\
  fc_option (fc_string 0 5000) (CreateRoleInput.long_description roleData) /\
  fc_option (fc_array (fc_string 0 500) 20)
    (CreateRoleInput.responsibilities roleData) /\
  fc_option (fc_array (fc_string 0 200) 30) (CreateRoleInput.skills roleData).

Definition generated_resource (resourceData : PropertyTests.ResourceData)
    : Prop :=
  fc_string 1 255 (PropertyTests.title resourceData) /\
  printable (PropertyTests.url resourceData) = true.

(** Inputs of the data access functions and of the property tests. *)
Definition resource_input (role_id : Z) : CreateResourceInput.t :=
  CreateResourceInput.make role_id "Testing basics"
    "https://example.com/testing" Video Beginner.

Definition resource_data : PropertyTests.ResourceData :=
  {| PropertyTests.title := "Testing basics";
     PropertyTests.url := "https://example.com/testing";
     PropertyTests.resource_type := Video;
     PropertyTests.difficulty := Beginner |}.

(** * Properties *)

(** ** ORDER BY *)

Section OrderBy.
Context {A : Type} (key : A -> Z).

Lemma insert_by_perm x l : Permutation (x :: l) (insert_by key x l).
Proof.
  induction l as [|y l IH]; simpl.
  - apply Permutation_refl.
  - destruct (key x <=? key y).
    + apply Permutation_refl.
    + eapply perm_trans; [apply perm_swap|]. now apply perm_skip.
Qed.

Lemma order_by_perm l : Permutation l (order_by key l).
Proof.
  induction l as [|x l IH]; simpl.
  - constructor.
  - eapply perm_trans; [|apply insert_by_perm]. now apply perm_skip.
Qed.

Lemma insert_by_ascending x l :
  ascending key l -> ascending key (insert_by key x l).
Proof.
  unfold ascending. induction l as [|y l IH]; simpl; intros Hs.
  - repeat constructor.
  - destruct (Z.leb_spec (key x) (key y)) as [Hle|Hgt]; simpl.
    + constructor; [exact Hs|]. constructor. exact Hle.
    + inversion Hs as [|? ? Hs' Hhd]; subst.
      constructor; [now apply IH|].
      destruct l as [|z l]; simpl.
      * constructor. lia.
      * destruct (Z.leb_spec (key x) (key z)); simpl; constructor.
        -- lia.
        -- now inversion Hhd.
Qed.

Lemma order_by_ascending l : ascending key (order_by key l).
Proof.
  induction l as [|x l IH]; simpl.
  - constructor.
  - now apply insert_by_ascending.
Qed.

Lemma order_by_In x l : In x (order_by key l) <-> In x l.
Proof.
  split; intros H.
  - eapply Permutation_in; [apply Permutation_sym, order_by_perm|exact H].
  - eapply Permutation_in; [apply order_by_perm|exact H].
Qed.

End OrderBy.

(** ** The statements and the queries, run *)

Ltac run_pg :=
  unfold bind, ret, raise, get_db, put_db in *; simpl in *.

Lemma filter_length_existsb {A} (p : A -> bool) (l : list A) :
  (0 <? List.length (filter p l))%nat = existsb p l.
Proof.
  induction l as [|x l IH]; simpl; [reflexivity|].
  destruct (p x); simpl; [reflexivity|exact IH].
Qed.

Lemma existsb_filter_nil {A} (p : A -> bool) (l : list A) :
  existsb p l = false <-> filter p l = [].
Proof.
  induction l as [|x l IH]; simpl; [tauto|].
  destruct (p x); simpl; [split; discriminate|exact IH].
Qed.

Lemma int4_run (n : Z) db :
  int4 n db = if int4_in_range n then (inr n, db)
              else (inl (int4_error n), db).
Proof. unfold int4, int4_value. now destruct (int4_in_range n). Qed.

Lemma fitted_short n s :
  (String.length s <= n)%nat -> fitted n s = Some s.
Proof. intros H. unfold fitted. apply Nat.leb_le in H. now rewrite H. Qed.

Lemma storable_existsb texts :
  storable texts <-> existsb has_nul texts = false.
Proof.
  unfold storable. induction texts as [|s texts IH]; cbn [existsb].
  - split; [reflexivity|constructor].
  - rewrite orb_false_iff, <- IH. split.
    + intros H. inversion H; subst. now split.
    + intros [H1 H2]. now constructor.
Qed.

Lemma int4_in_range_iff n :
  int4_in_range n = true <-> INT4_MIN <= n <= INT4_MAX.
Proof. unfold int4_in_range. rewrite andb_true_iff, !Z.leb_le. tauto. Qed.

Lemma roleExists_run id db :
  roleExists id db =
  if int4_in_range id then (inr (has_role db id), db)
  else (inl (int4_error id), db).
Proof.
  unfold roleExists, bind. rewrite int4_run.
  destruct (int4_in_range id); [|reflexivity].
  run_pg. now rewrite filter_length_existsb.
Qed.

Lemma getRoleById_run (id : Num) db :
  getRoleById id db =
  match int4_value id with
  | Some id =>
      match filter (fun r => Role.id r =? id) (roles db) with
      | [] => (inr None, db)
      | role :: _ =>
          (inr (Some (RoleWithResources.make role
                        (order_by Resource.id
                           (filter (fun r => Resource.role_id r =? id)
                              (resources db))))), db)
      end
  | None => (inl (int4_error id), db)
  end.
Proof.
  unfold getRoleById, bind, int4.
  destruct (int4_value id) as [z|]; [|reflexivity].
  unfold ret, get_db. cbv beta iota.
  now destruct (filter _ (roles db)).
Qed.

Lemma getRoleById_run_Z (id : Z) db :
  getRoleById id db =
  if int4_in_range id then
    match filter (fun r => Role.id r =? id) (roles db) with
    | [] => (inr None, db)
    | role :: _ =>
        (inr (Some (RoleWithResources.make role
                      (order_by Resource.id
                         (filter (fun r => Resource.role_id r =? id)
                            (resources db))))), db)
    end
  else (inl (int4_error id), db).
Proof.
  rewrite getRoleById_run. cbn [int4_value].
  now destruct (int4_in_range id).
Qed.

Lemma createRole_run data db :
  createRole data db =
  if existsb has_nul (role_texts data) then (inl CharacterNotInRepertoire, db)
  else
    match fitted 255 (CreateRoleInput.name data) with
    | None => (inl StringDataRightTruncation, db)
    | Some name =>
        let id := roles_id_seq db in
        let db1 := mkDb (roles db) (resources db) (id + 1) (resources_id_seq db) in
        let row :=
          Role.make id name (CreateRoleInput.short_description data)
            (or_null (CreateRoleInput.long_description data))
            (Some (or_empty (CreateRoleInput.responsibilities data)))
            (Some (or_empty (CreateRoleInput.skills data))) in
        if negb (id <=? INT4_MAX) then (inl SequenceLimitExceeded, db)
        else if has_role db id then (inl UniqueViolation, db1)
        else (inr row,
              mkDb (roles db ++ [row])%list (resources db) (id + 1)
                (resources_id_seq db))
    end.
Proof.
  unfold createRole, role_texts, bind, text_or_null, text_array, text, varchar.
  cbn [List.app existsb]. rewrite !existsb_app.
  destruct (has_nul (CreateRoleInput.name data)); [reflexivity|].
  destruct (has_nul (CreateRoleInput.short_description data)); [reflexivity|].
  destruct (or_null (CreateRoleInput.long_description data)) as [l|];
    cbn [existsb orb ret bind];
    [unfold bind, ret; destruct (has_nul l); [reflexivity|]|];
    cbn [orb];
    (destruct (existsb has_nul (or_empty (CreateRoleInput.responsibilities data)));
       [reflexivity|]);
    (destruct (existsb has_nul (or_empty (CreateRoleInput.skills data)));
       [reflexivity|]);
    cbn [orb ret];
    (destruct (fitted 255 _); [|reflexivity]);
    unfold nextval_roles_id_seq, ret; cbv zeta;
    (destruct (roles_id_seq db <=? INT4_MAX); simpl; [|reflexivity]);
    unfold insert_role; run_pg; unfold has_role; simpl;
    now destruct (existsb _ (roles db)).
Qed.

(** [createRole] and [createResource] on texts that PostgreSQL stores as
    they are. *)
Lemma createRole_storable_run data db :
  storable (role_texts data) ->
  (String.length (CreateRoleInput.name data) <= 255)%nat ->
  createRole data db =
  let id := roles_id_seq db in
  let db1 := mkDb (roles db) (resources db) (id + 1) (resources_id_seq db) in
  if negb (id <=? INT4_MAX) then (inl SequenceLimitExceeded, db)
  else if has_role db id then (inl UniqueViolation, db1)
  else (inr (role_row id data),
        mkDb (roles db ++ [role_row id data])%list (resources db) (id + 1)
          (resources_id_seq db)).
Proof.
  intros Hs Hlen. rewrite createRole_run.
  apply storable_existsb in Hs. rewrite Hs.
  now rewrite fitted_short.
Qed.

Lemma createResource_run data db :
  createResource data db =
  if negb (int4_in_range (CreateResourceInput.role_id data))
  then (inl (int4_error (CreateResourceInput.role_id data)), db)
  else if existsb has_nul (resource_texts data)
  then (inl CharacterNotInRepertoire, db)
  else
    match fitted 255 (CreateResourceInput.title data) with
    | None => (inl StringDataRightTruncation, db)
    | Some title =>
        let id := resources_id_seq db in
        let db1 := mkDb (roles db) (resources db) (roles_id_seq db) (id + 1) in
        let row :=
          Resource.make id (CreateResourceInput.role_id data) title
            (CreateResourceInput.url data)
            (CreateResourceInput.resource_type data)
            (CreateResourceInput.difficulty data) in
        if negb (id <=? INT4_MAX) then (inl SequenceLimitExceeded, db)
        else if has_resource db id then (inl UniqueViolation, db1)
        else if negb (has_role db (CreateResourceInput.role_id data))
             then (inl ForeignKeyViolation, db1)
        else (inr row,
              mkDb (roles db) (resources db ++ [row])%list
                (roles_id_seq db) (id + 1))
    end.
Proof.
  unfold createResource, resource_texts, bind. rewrite int4_run.
  destruct (int4_in_range _); cbn [negb existsb]; [|reflexivity].
  unfold text.
  destruct (has_nul (CreateResourceInput.title data)); [reflexivity|].
  destruct (has_nul (CreateResourceInput.url data)); [reflexivity|].
  cbn [orb ret]. unfold varchar.
  destruct (fitted 255 _); [|reflexivity].
  unfold nextval_resources_id_seq, ret. cbv zeta.
  destruct (resources_id_seq db <=? INT4_MAX); simpl; [|reflexivity].
  unfold insert_resource. run_pg. unfold has_resource, has_role. simpl.
  destruct (existsb _ (resources db)); [reflexivity|].
  now destruct (existsb _ (roles db)).
Qed.

Lemma createResource_storable_run data db :
  storable (resource_texts data) ->
  (String.length (CreateResourceInput.title data) <= 255)%nat ->
  createResource data db =
  let id := resources_id_seq db in
  let db1 := mkDb (roles db) (resources db) (roles_id_seq db) (id + 1) in
  if negb (int4_in_range (CreateResourceInput.role_id data))
  then (inl (int4_error (CreateResourceInput.role_id data)), db)
  else if negb (id <=? INT4_MAX) then (inl SequenceLimitExceeded, db)
  else if has_resource db id then (inl UniqueViolation, db1)
  else if negb (has_role db (CreateResourceInput.role_id data))
       then (inl ForeignKeyViolation, db1)
  else (inr (resource_row id data),
        mkDb (roles db) (resources db ++ [resource_row id data])%list
          (roles_id_seq db) (id + 1)).
Proof.
  intros Hs Hlen. rewrite createResource_run.
  apply storable_existsb in Hs. rewrite Hs.
  now rewrite fitted_short.
Qed.

(** ** The handlers, case by case *)

Lemma error_json_has_error error details : has_error (error_json error details).
Proof. now exists error. Qed.

Lemma error_json_is_object error details : is_object (error_json error details).
Proof. unfold is_object, error_json. eauto. Qed.

Create HintDb api.
#[local] Hint Resolve error_json_has_error error_json_is_object : api.

Section Handlers.
Context {platform : Platform}.

Lemma get_role_by_id_run id_param db :
  get_role_by_id id_param db =
  match safeParse RoleIdParamSchema (JObj [("id", JStr id_param)]) with
  | Failure messages =>
      (json 400 (error_json "Invalid ID format" (hd "" messages)), db)
  | Success id =>
      match fst (getRoleById id db) with
      | inl e => (json 500 (error_json "Failed to fetch role" (pg_message e)), db)
      | inr None =>
          (json 404 (error_json "Role not found"
                       ("No role found with ID " ++ Num_to_string id)), db)
      | inr (Some role) =>
          (json 200 (JObj [("role", json_of_role_with_resources role)]), db)
      end
  end.
Proof.
  unfold get_role_by_id, try_catch.
  destruct (safeParse RoleIdParamSchema _) as [id|messages]; [|reflexivity].
  unfold bind. rewrite getRoleById_run.
  destruct (int4_value id); [|reflexivity].
  destruct (filter _ (roles db)); reflexivity.
Qed.

Lemma post_roles_run req_body db :
  post_roles req_body db =
  match safeParse CreateRoleSchema req_body with
  | Failure messages =>
      (json 400 (error_json "Validation failed" (join ", " messages)), db)
  | Success roleData =>
      match createRole roleData db with
      | (inr createdRole, db') =>
          (json 201 (JObj [("role", json_of_role createdRole)]), db')
      | (inl e, db') =>
          (json 500 (error_json "Failed to create role" (pg_message e)), db')
      end
  end.
Proof.
  unfold post_roles, try_catch.
  destruct (safeParse CreateRoleSchema _) as [data|messages]; [|reflexivity].
  unfold bind. destruct (createRole data db) as [[e|row] db']; reflexivity.
Qed.

Lemma post_resources_run req_body db :
  post_resources req_body db =
  match safeParse CreateResourceSchema req_body with
  | Failure messages =>
      (json 400 (error_json "Validation failed" (join ", " messages)), db)
  | Success resourceData =>
      match fst (roleExists (CreateResourceInput.role_id resourceData) db) with
      | inl e =>
          (json 500 (error_json "Failed to create resource" (pg_message e)), db)
      | inr false =>
          (json 404 (error_json "Role not found"
                       ("No role found with ID " ++
                        Z_to_string (CreateResourceInput.role_id resourceData))), db)
      | inr true =>
          match createResource resourceData db with
          | (inr createdResource, db') =>
              (json 201 (JObj [("resource", json_of_resource createdResource)]), db')
          | (inl e, db') =>
              (json 500 (error_json "Failed to create resource" (pg_message e)), db')
          end
      end
  end.
Proof.
  unfold post_resources, try_catch.
  destruct (safeParse CreateResourceSchema _) as [data|messages]; [|reflexivity].
  unfold bind. rewrite roleExists_run.
  destruct (int4_in_range _); [|reflexivity]. simpl.
  destruct (has_role db _); simpl; [|reflexivity].
  destruct (createResource data db) as [[e|row] db']; reflexivity.
Qed.

End Handlers.

(** ** The path parameter of GET /api/roles/:id *)

Lemma RoleIdParamSchema_run id_param :
  safeParse RoleIdParamSchema (JObj [("id", JStr id_param)]) =
  if decimal_digits id_param then Success (Number id_param)
  else Failure ["ID must be a valid number"].
Proof.
  unfold safeParse, RoleIdParamSchema, z_object, transform, z_string,
    run_checks, regex_digits, decimal_digits. simpl.
  destruct (negb (String.eqb id_param "") && all_digits id_param); reflexivity.
Qed.

Lemma Number_from_nonneg s : forall acc, 0 <= acc -> 0 <= Number_from acc s.
Proof.
  induction s as [|c s IH]; cbn [Number_from]; intros acc Hacc; [exact Hacc|].
  apply IH. lia.
Qed.

Lemma Number_digits_nonneg s : 0 <= Number_from 0 s.
Proof. now apply Number_from_nonneg. Qed.

(** [Number] is exact on the safe integers, and past them it stays past
    them. *)
Lemma to_double_exact n : 0 <= n < 2 ^ 53 -> to_double n = Finite n.
Proof.
  intros [H0 H]. unfold to_double. cbv zeta.
  destruct (Z.eq_dec n 0) as [->|Hn]; [reflexivity|].
  assert (Z.log2 n < 53) by (apply Z.log2_lt_pow2; lia).
  destruct (Z.leb_spec (Z.log2 n + 1) 53); [reflexivity|lia].
Qed.

Lemma to_double_lower n v :
  2 ^ 53 <= n -> to_double n = Finite v -> 2 ^ Z.log2 n <= v < 2 ^ 1024.
Proof.
  intros Hn. unfold to_double. cbv zeta.
  assert (Hlog : 53 <= Z.log2 n) by (apply Z.log2_le_pow2; lia).
  destruct (Z.leb_spec (Z.log2 n + 1) 53) as [|_]; [lia|].
  remember (Z.log2 n + 1 - 53) as shift eqn:Hshift.
  assert (Hs : 1 <= shift) by lia.
  assert (Hsig : 2 ^ 52 <= Z.shiftr n shift).
  { rewrite Z.shiftr_div_pow2 by lia.
    apply Z.div_le_lower_bound; [apply Z.pow_pos_nonneg; lia|].
    rewrite <- Z.pow_add_r by lia.
    replace (shift + 52) with (Z.log2 n) by lia.
    apply Z.log2_spec. lia. }
  remember (Z.shiftr n shift) as significand eqn:Hsignificand.
  match goal with
  | |- (if ?value <? _ then _ else _) = _ -> _ =>
      assert (Hv : 2 ^ Z.log2 n <= value)
  end.
  { rewrite Z.shiftl_mul_pow2 by lia.
    match goal with
    | |- _ <= ?rounded * _ => assert (Hr : 2 ^ 52 <= rounded)
    end.
    { destruct (_ <? _); [lia|]. destruct (_ <? _); [lia|].
      destruct (Z.even _); lia. }
    replace (Z.log2 n) with (52 + shift) by lia.
    rewrite Z.pow_add_r by lia.
    apply Z.mul_le_mono_nonneg_r; [apply Z.pow_nonneg; lia|exact Hr]. }
  match goal with
  | |- (if ?value <? ?bound then _ else _) = _ -> _ =>
      destruct (Z.ltb_spec value bound) as [Hlt|_]; [|discriminate]
  end.
  intros [= <-]. split; [exact Hv|exact Hlt].
Qed.

Lemma to_double_large n v :
  2 ^ 53 <= n -> to_double n = Finite v -> 2 ^ 53 <= v.
Proof.
  intros Hn Hd. apply to_double_lower in Hd; [|exact Hn].
  assert (Hlog : 53 <= Z.log2 n) by (apply Z.log2_le_pow2; lia).
  assert (2 ^ 53 <= 2 ^ Z.log2 n) by (apply Z.pow_le_mono_r; lia).
  lia.
Qed.

Lemma to_double_Infinity n : 2 ^ 1024 <= n -> to_double n = Infinity.
Proof.
  intros Hn. destruct (to_double n) as [v|] eqn:Hd; [exfalso|reflexivity].
  assert (Hlog : 1024 <= Z.log2 n) by (apply Z.log2_le_pow2; lia).
  assert (H53 : (2 ^ 53 <= 2 ^ 1024)) by (apply Z.pow_le_mono_r; lia).
  apply to_double_lower in Hd; [|lia].
  assert (2 ^ 1024 <= 2 ^ Z.log2 n) by (apply Z.pow_le_mono_r; lia).
  lia.
Qed.

(** A string of digits is an INTEGER parameter exactly up to the largest
    INTEGER. *)
Lemma int4_value_Number s :
  match int4_value (Number s) with
  | Some id => Number s = Finite id /\ 0 <= id <= INT4_MAX
  | None => forall id, Number s = Finite id -> INT4_MAX < id
  end.
Proof.
  unfold Number. pose proof (Number_digits_nonneg s) as H0.
  remember (Number_from 0 s) as n eqn:Hn. clear Hn.
  destruct (Z.ltb_spec n (2 ^ 53)) as [Hlt|Hge].
  - rewrite to_double_exact by lia. cbn [int4_value].
    destruct (int4_in_range n) eqn:Hr.
    + apply int4_in_range_iff in Hr. split; [reflexivity|]. lia.
    + intros id [= <-].
      destruct (Z.leb_spec n INT4_MAX) as [Hle|Hgt]; [|exact Hgt].
      assert (int4_in_range n = true)
        by (apply int4_in_range_iff; unfold INT4_MIN; lia).
      congruence.
  - destruct (to_double n) as [v|] eqn:Hd; cbn [int4_value].
    + apply to_double_large in Hd; [|exact Hge].
      assert (Hr : int4_in_range v = false).
      { destruct (int4_in_range v) eqn:Hr; [|reflexivity].
        apply int4_in_range_iff in Hr. unfold INT4_MAX in Hr. lia. }
      rewrite Hr. intros id [= <-]. unfold INT4_MAX. lia.
    + discriminate.
Qed.

(** ** GET /api/roles *)

(** C7. GET /api/roles answers 200 with the whole catalog, for every store:
    the [roles] array of the body holds, for each stored role exactly once
    (the roles listed are a permutation of the table, so none is missing
    and none is extra), the object of its id, its name and its
    short_description and of nothing else, in ascending order of id; the
    store is left as it was.  (The SELECT takes no parameter and cannot
    raise while the connection is up.) *)
Theorem get_roles_whole_catalog {platform : Platform} (db : Db) :
  exists listed : list Role.t,
    get_roles db =
      (mkResponse 200
         (JObj [("roles",
                 JArr (map (fun role =>
                              JObj [("id", of_Z (Role.id role));
                                    ("name", JStr (Role.name role));
                                    ("short_description",
                                     JStr (Role.short_description role))])
                         listed))]), db) /\
    Permutation listed (roles db) /\
    Sorted Z.le (map Role.id listed).
Proof.
  exists (order_by Role.id (roles db)).
  split; [|split].
  - unfold get_roles, try_catch, getAllRoles. run_pg. unfold json.
    now rewrite map_map.
  - apply Permutation_sym, order_by_perm.
  - apply (order_by_ascending Role.id).
Qed.

(** ** GET /api/roles/:id *)

Lemma filter_head {A} (p : A -> bool) (l : list A) x rest :
  filter p l = x :: rest -> In x l /\ p x = true.
Proof.
  intros H. apply filter_In. rewrite H. now left.
Qed.

Lemma json_of_resource_object r : json_of_resource r = resource_object r.
Proof.
  unfold json_of_resource, resource_object.
  now destruct (Resource.resource_type r), (Resource.difficulty r).
Qed.

Lemma json_of_role_with_resources_properties role resources :
  json_of_role_with_resources (RoleWithResources.make role resources) =
  JObj (role_properties role ++
        [("resources", JArr (map resource_object resources))])%list.
Proof.
  unfold json_of_role_with_resources, fields_of_role, role_properties.
  cbn [RoleWithResources.role RoleWithResources.resources].
  assert (Hmap : map json_of_resource resources = map resource_object resources)
    by (apply map_ext; intros r; apply json_of_resource_object).
  now rewrite Hmap.
Qed.

(** X18. GET /api/roles/:id validates, then queries.  An id that is not a
    non-empty string of decimal digits is answered 400.  For a string of
    digits the lookup runs with the number it reads.  A database failure,
    the lookup raising an error, is answered 500.  For a number up to the
    largest INTEGER, the answer is 404 when no role has it as id, and when
    a role has it the answer is 200 with the six properties of that role
    and, under [resources], the object of each resource whose role_id is
    the id, each once, in ascending order of id.  Every body is a JSON
    object, an error body carries an [error] field, and the store is left
    as it was. *)
Theorem get_role_by_id_taxonomy {platform : Platform}
    (id_param : string) (db : Db) :
  let response := fst (get_role_by_id id_param db) in
  snd (get_role_by_id id_param db) = db /\
  is_object (Routes.body response) /\
  (decimal_digits id_param = false ->
     status response = 400 /\ has_error (Routes.body response)) /\
  (decimal_digits id_param = true ->
     (raises (getRoleById (Number id_param)) db ->
        status response = 500 /\ has_error (Routes.body response)) /\
     (forall id, Number id_param = Finite id -> id <= INT4_MAX ->
        has_role db id = false ->
        status response = 404 /\ has_error (Routes.body response)) /\
     (forall id, Number id_param = Finite id -> id <= INT4_MAX ->
        has_role db id = true ->
        exists role resources,
          response =
            mkResponse 200
              (JObj [("role",
                      JObj (role_properties role ++
                            [("resources",
                              JArr (map resource_object resources))])%list)]) /\
          In role (roles db) /\ Role.id role = id /\
          Permutation resources
            (filter (fun r => Resource.role_id r =? id) (Pg.resources db)) /\
          Sorted Z.le (map Resource.id resources))).
Proof.
  intros response. subst response. unfold raises.
  rewrite get_role_by_id_run, RoleIdParamSchema_run.
  destruct (decimal_digits id_param) eqn:Hd.
  2:{ simpl. split; [reflexivity|]. split; [auto with api|].
      split; [auto with api|discriminate]. }
  rewrite getRoleById_run.
  pose proof (int4_value_Number id_param) as Hn.
  destruct (int4_value (Number id_param)) as [n|] eqn:Hv.
  - destruct Hn as (Hn & H0 & Hmax).
    assert (Huniq : forall id, Number id_param = Finite id -> id = n)
      by (intros id Hid; congruence).
    destruct (filter (fun r => Role.id r =? n) (roles db))
      as [|role rest] eqn:Hf; unfold json; cbn [fst snd Routes.body status].
    + apply existsb_filter_nil in Hf. fold (has_role db n) in Hf.
      split; [reflexivity|]. split; [auto with api|].
      split; [discriminate|]. intros _.
      split; [intros [e He]; discriminate|].
      split; [auto with api|].
      intros id Hid _ Hhas. apply Huniq in Hid. congruence.
    + apply filter_head in Hf. destruct Hf as [Hin Hid].
      apply Z.eqb_eq in Hid.
      assert (Hhas : has_role db n = true).
      { apply existsb_exists. exists role. split; [exact Hin|now apply Z.eqb_eq]. }
      split; [reflexivity|]. split; [unfold is_object; cbn; eauto|].
      split; [discriminate|]. intros _.
      split; [intros [e He]; discriminate|].
      split; [intros id Hid' _ Hno; apply Huniq in Hid'; congruence|].
      intros id Hid' _ _. apply Huniq in Hid'. subst id.
      eexists. eexists. split.
      { rewrite json_of_role_with_resources_properties. reflexivity. }
      split; [exact Hin|]. split; [exact Hid|]. split.
      * apply Permutation_sym, order_by_perm.
      * apply (order_by_ascending Resource.id).
  - unfold json; cbn [fst snd Routes.body status].
    split; [reflexivity|]. split; [auto with api|].
    split; [discriminate|]. intros _.
    split; [auto with api|].
    split; intros id Hid Hle; specialize (Hn id Hid); lia.
Qed.

(** C5. GET /api/roles/:id does not answer 404 for every id that is all
    digits and that no role has.  The handler passes the number it reads
    to [getRoleById], which binds it to an INTEGER parameter; past
    2147483647 PostgreSQL refuses the parameter, the lookup raises, and the
    [catch] block answers 500 with the message of the error, the store
    left as it was.  So it is for the id 99999999999 on the sample store,
    where no role has that id, and for every string of digits that writes
    a number past 2147483647, on every store.  The claim says 404 there,
    and so does the route in its own documentation, which keeps 500 for a
    database connection failure. *)
Theorem get_role_by_id_above_integer_range {platform : Platform} :
  (decimal_digits "99999999999" = true /\
   (forall role, In role (roles sample_db) ->
      Finite (Role.id role) <> Number "99999999999") /\
   get_role_by_id "99999999999" sample_db =
     (mkResponse 500
        (JObj [("error", JStr "Failed to fetch role");
               ("details", JStr (pg_message NumericValueOutOfRange))]),
      sample_db)) /\
  (forall id_param db,
     decimal_digits id_param = true ->
     (forall id, Number id_param = Finite id -> INT4_MAX < id) ->
     get_role_by_id id_param db =
       (mkResponse 500
          (JObj [("error", JStr "Failed to fetch role");
                 ("details",
                  JStr (pg_message (int4_error (Number id_param))))]),
        db)).
Proof.
  split.
  - split; [reflexivity|]. split; [|reflexivity].
    intros role [<-|[]]. discriminate.
  - intros id_param db Hd Hhigh.
    rewrite get_role_by_id_run, RoleIdParamSchema_run, Hd, getRoleById_run.
    pose proof (int4_value_Number id_param) as Hn.
    destruct (int4_value (Number id_param)) as [n|]; [|reflexivity].
    destruct Hn as (Hn & _ & Hmax). specialize (Hhigh n Hn). lia.
Qed.

(** ** What a successful parse says about the body *)

Lemma safeParse_success {A} (schema : Schema A) v data :
  safeParse schema v = Success data <->
  errors (schema v) = [] /\ value (schema v) = Some data.
Proof.
  unfold safeParse.
  destruct (errors (schema v)) as [|m ms]; destruct (value (schema v)) as [a|];
    split; try discriminate; try (intros [H1 H2]; discriminate).
  - intros H. injection H as ->. now split.
  - intros [_ H]. now injection H as ->.
Qed.

Lemma ap_value {A B} (f : Parse (A -> B)) (a : Parse A) b :
  value (ap f a) = Some b ->
  exists g x, value f = Some g /\ value a = Some x /\ b = g x.
Proof.
  unfold ap. simpl.
  destruct (value f) as [g|]; destruct (value a) as [x|]; try discriminate.
  intros H. injection H as <-. eauto.
Qed.

Lemma ap_errors {A B} (f : Parse (A -> B)) (a : Parse A) :
  errors (ap f a) = [] <-> errors f = [] /\ errors a = [].
Proof. unfold ap. simpl. split; [apply app_eq_nil|intros [-> ->]; reflexivity]. Qed.

Lemma z_string_ok checks v :
  errors (z_string checks v) = [] ->
  exists s, v = JStr s /\ value (z_string checks v) = Some s /\
            run_checks checks s = [].
Proof.
  destruct v; simpl; try discriminate. intros H. eauto.
Qed.

Lemma run_checks_cons {A} (c : Check A) checks a :
  run_checks (c :: checks) a = [] <->
  fst c a = true /\ run_checks checks a = [].
Proof.
  unfold run_checks. simpl. destruct (fst c a); simpl.
  - tauto.
  - split; [discriminate|intros [H _]; discriminate].
Qed.

Lemma refine_ok {A} (test : A -> bool) message (inner : Schema A) v :
  errors (refine test message inner v) = [] ->
  errors (inner v) = [] /\
  value (refine test message inner v) = value (inner v) /\
  forall a, value (inner v) = Some a -> test a = true.
Proof.
  unfold refine. destruct (value (inner v)) as [a|] eqn:Hv; simpl.
  - intros H. apply app_eq_nil in H. destruct H as [H1 H2].
    split; [exact H1|]. split; [reflexivity|].
    intros a' Ha. injection Ha as <-. now destruct (test a).
  - intros H. split; [exact H|]. split; [exact Hv|]. discriminate.
Qed.

Lemma ResourceTypeSchema_ok v :
  errors (ResourceTypeSchema v) = [] <-> allowed_resource_type v.
Proof.
  unfold allowed_resource_type, ResourceTypeSchema, z_enum.
  destruct v; cbn -[String.eqb];
    try (split; [discriminate|intros [H|[H|H]]; discriminate]).
  destruct (String.eqb_spec "Video" s) as [<-|H1]; cbn -[String.eqb]; [tauto|].
  destruct (String.eqb_spec "Article" s) as [<-|H2]; cbn -[String.eqb]; [tauto|].
  destruct (String.eqb_spec "Course" s) as [<-|H3]; cbn -[String.eqb]; [tauto|].
  split; [discriminate|]. intros [H|[H|H]]; congruence.
Qed.

Lemma DifficultyLevelSchema_ok v :
  errors (DifficultyLevelSchema v) = [] <-> allowed_difficulty v.
Proof.
  unfold allowed_difficulty, DifficultyLevelSchema, z_enum.
  destruct v; cbn -[String.eqb];
    try (split; [discriminate|intros [H|[H|H]]; discriminate]).
  destruct (String.eqb_spec "Beginner" s) as [<-|H1]; cbn -[String.eqb]; [tauto|].
  destruct (String.eqb_spec "Intermediate" s) as [<-|H2]; cbn -[String.eqb]; [tauto|].
  destruct (String.eqb_spec "Advanced" s) as [<-|H3]; cbn -[String.eqb]; [tauto|].
  split; [discriminate|]. intros [H|[H|H]]; congruence.
Qed.

Lemma ResourceTypeSchema_value v t :
  value (ResourceTypeSchema v) = Some t -> v = JStr (ResourceType_text t).
Proof.
  unfold ResourceTypeSchema, z_enum. destruct v; cbn -[String.eqb]; try discriminate.
  destruct (String.eqb_spec "Video" s) as [<-|H1]; cbn -[String.eqb];
    [intros H; now injection H as <-|].
  destruct (String.eqb_spec "Article" s) as [<-|H2]; cbn -[String.eqb];
    [intros H; now injection H as <-|].
  destruct (String.eqb_spec "Course" s) as [<-|H3]; cbn -[String.eqb];
    [intros H; now injection H as <-|discriminate].
Qed.

Lemma DifficultyLevelSchema_value v d :
  value (DifficultyLevelSchema v) = Some d -> v = JStr (DifficultyLevel_text d).
Proof.
  unfold DifficultyLevelSchema, z_enum. destruct v; cbn -[String.eqb]; try discriminate.
  destruct (String.eqb_spec "Beginner" s) as [<-|H1]; cbn -[String.eqb];
    [intros H; now injection H as <-|].
  destruct (String.eqb_spec "Intermediate" s) as [<-|H2]; cbn -[String.eqb];
    [intros H; now injection H as <-|].
  destruct (String.eqb_spec "Advanced" s) as [<-|H3]; cbn -[String.eqb];
    [intros H; now injection H as <-|discriminate].
Qed.

Section ResourceBody.
Context {platform : Platform}.

(** The issues of a resource body are those of its five properties. *)
Lemma CreateResourceSchema_errors body :
  errors (CreateResourceSchema body) = [] ->
  errors (ResourceTypeSchema (get body "resource_type")) = [] /\
  errors (DifficultyLevelSchema (get body "difficulty")) = [].
Proof.
  unfold CreateResourceSchema, z_object.
  destruct body; try discriminate.
  intros H. repeat (apply ap_errors in H; destruct H as [H ?]). now split.
Qed.

Lemma CreateResourceSchema_value body data :
  value (CreateResourceSchema body) = Some data ->
  get body "resource_type" =
    JStr (ResourceType_text (CreateResourceInput.resource_type data)) /\
  get body "difficulty" =
    JStr (DifficultyLevel_text (CreateResourceInput.difficulty data)).
Proof.
  unfold CreateResourceSchema, z_object.
  destruct body; try discriminate.
  intros H.
  apply ap_value in H. destruct H as (g5 & d & H & Hd & ->).
  apply ap_value in H. destruct H as (g4 & t & H & Ht & ->).
  apply ap_value in H. destruct H as (g3 & u & H & Hu & ->).
  apply ap_value in H. destruct H as (g2 & ti & H & Hti & ->).
  apply ap_value in H. destruct H as (g1 & r & H & Hr & ->).
  injection H as <-. simpl.
  split; [now apply ResourceTypeSchema_value|now apply DifficultyLevelSchema_value].
Qed.

End ResourceBody.

(** ** What a statement does to the two tables *)

Ltac tables :=
  unfold INT4_MAX in *; repeat split; try reflexivity; try assumption; try lia.

Lemma createRole_effect data db :
  match createRole data db with
  | (inr row, db') =>
      row = role_row (roles_id_seq db) (stored_role data) /\
      roles db' = (roles db ++ [row])%list /\
      resources db' = resources db /\
      has_role db (Role.id row) = false /\
      roles_id_seq db <= INT4_MAX /\
      roles_id_seq db' = roles_id_seq db + 1 /\
      resources_id_seq db' = resources_id_seq db
  | (inl _, db') =>
      roles db' = roles db /\ resources db' = resources db /\
      roles_id_seq db <= roles_id_seq db' <= roles_id_seq db + 1 /\
      roles_id_seq db' <= Z.max (roles_id_seq db) (INT4_MAX + 1) /\
      resources_id_seq db' = resources_id_seq db
  end.
Proof.
  rewrite createRole_run. cbv zeta.
  destruct (existsb has_nul _); [tables|].
  unfold role_row, stored_role, stored. cbn [CreateRoleInput.name
    CreateRoleInput.short_description CreateRoleInput.long_description
    CreateRoleInput.responsibilities CreateRoleInput.skills].
  destruct (fitted 255 _); [|tables].
  destruct (Z.leb_spec (roles_id_seq db) INT4_MAX); simpl; [|tables].
  destruct (has_role db (roles_id_seq db)) eqn:Hh; simpl; tables.
Qed.

Lemma createResource_effect data db :
  match createResource data db with
  | (inr row, db') =>
      row = resource_row (resources_id_seq db) (stored_resource data) /\
      roles db' = roles db /\
      resources db' = (resources db ++ [row])%list /\
      has_resource db (Resource.id row) = false /\
      has_role db (Resource.role_id row) = true /\
      resources_id_seq db <= INT4_MAX /\
      resources_id_seq db' = resources_id_seq db + 1 /\
      roles_id_seq db' = roles_id_seq db
  | (inl _, db') =>
      roles db' = roles db /\ resources db' = resources db /\
      resources_id_seq db <= resources_id_seq db' <= resources_id_seq db + 1 /\
      resources_id_seq db' <= Z.max (resources_id_seq db) (INT4_MAX + 1) /\
      roles_id_seq db' = roles_id_seq db
  end.
Proof.
  rewrite createResource_run. cbv zeta.
  destruct (int4_in_range _); cbn [negb]; [|tables].
  destruct (existsb has_nul _); [tables|].
  unfold resource_row, stored_resource, stored. cbn [CreateResourceInput.role_id
    CreateResourceInput.title CreateResourceInput.url
    CreateResourceInput.resource_type CreateResourceInput.difficulty].
  destruct (fitted 255 _); [|tables].
  destruct (Z.leb_spec (resources_id_seq db) INT4_MAX); simpl; [|tables].
  destruct (has_resource db (resources_id_seq db)) eqn:Hh; simpl; [tables|].
  destruct (has_role db _) eqn:Hr; simpl; tables.
Qed.

(** ** POST /api/resources *)

Section PostResources.
Context {platform : Platform}.

Lemma post_resources_outcomes req_body db :
  post_resources_outcome req_body db (post_resources req_body db).
Proof.
  rewrite post_resources_run.
  destruct (safeParse CreateResourceSchema req_body) as [data|messages] eqn:Hp.
  - destruct (fst (roleExists _ db)) as [e|[|]] eqn:He.
    + now apply failed with (data := data).
    + pose proof (createResource_effect data db) as Hc.
      destruct (createResource data db) as [[e|row] db'] eqn:Hcr.
      * destruct Hc as (? & ? & _). now apply failed with (data := data).
      * now apply created with (data := data).
    + now apply role_missing.
  - now apply rejected.
Qed.

End PostResources.

(** ** The schemas, characterized *)

Lemma ap_ok {A B} (f : Parse (A -> B)) (a : Parse A) g x :
  f = mkParse (Some g) [] -> a = mkParse (Some x) [] ->
  ap f a = mkParse (Some (g x)) [].
Proof. intros -> ->. reflexivity. Qed.

Lemma not_only_whitespace_length s :
  not_only_whitespace s = true -> (1 <= String.length s)%nat.
Proof.
  destruct s; [discriminate|]. simpl. lia.
Qed.

Lemma name_schema_accepts v message1 message2 message3 :
  errors (refine not_only_whitespace message3
            (z_string [min 1 message1; max 255 message2]) v) = [] <->
  valid_name v.
Proof.
  unfold valid_name. split.
  - intros H. apply refine_ok in H. destruct H as (He & _ & Ht).
    apply z_string_ok in He. destruct He as (s & -> & Hv & Hck).
    apply run_checks_cons in Hck. destruct Hck as [Hmin Hck].
    apply run_checks_cons in Hck. destruct Hck as [Hmax _].
    cbn -[Nat.leb String.length] in Hmin, Hmax. apply Nat.leb_le in Hmin, Hmax.
    exists s. split; [reflexivity|]. split; [lia|]. now apply Ht.
  - intros (s & -> & [Hmin Hmax] & Ht). unfold refine, z_string, run_checks.
    cbn -[Nat.leb not_only_whitespace].
    apply Nat.leb_le in Hmin, Hmax. rewrite Hmin, Hmax, Ht. reflexivity.
Qed.

Lemma name_schema_value v message1 message2 message3 s :
  v = JStr s ->
  value (refine not_only_whitespace message3
           (z_string [min 1 message1; max 255 message2]) v) = Some s.
Proof. intros ->. reflexivity. Qed.

Lemma short_description_schema_accepts v message1 message3 :
  errors (refine not_only_whitespace message3
            (z_string [min 1 message1]) v) = [] <->
  valid_short_description v.
Proof.
  unfold valid_short_description. split.
  - intros H. apply refine_ok in H. destruct H as (He & _ & Ht).
    apply z_string_ok in He. destruct He as (s & -> & Hv & Hck).
    apply run_checks_cons in Hck. destruct Hck as [Hmin _].
    cbn -[Nat.leb String.length] in Hmin. apply Nat.leb_le in Hmin.
    exists s. split; [reflexivity|]. split; [lia|]. now apply Ht.
  - intros (s & -> & Hmin & Ht). unfold refine, z_string, run_checks.
    cbn -[Nat.leb not_only_whitespace].
    apply Nat.leb_le in Hmin. rewrite Hmin, Ht. reflexivity.
Qed.

Lemma optional_string_accepts v :
  errors (nullable (optional (z_string [])) v) = [] <-> optional_string v.
Proof.
  unfold optional_string.
  destruct v; simpl; split; intros H; auto; try discriminate;
    try (destruct H as [H|[H|[s' H]]]; discriminate).
  right. right. eauto.
Qed.

Lemma parse_strings_accepts items :
  errors (parse_items (z_string []) items) = [] <->
  exists l, items = map JStr l.
Proof.
  induction items as [|item items IH]; simpl.
  - split; [exists []; reflexivity|reflexivity].
  - split.
    + intros H. apply app_eq_nil in H. destruct H as [H1 H2].
      apply IH in H2. destruct H2 as (l & ->).
      destruct item; try discriminate. exists (s :: l). reflexivity.
    + intros (l & Hl). destruct l as [|s l]; [discriminate|].
      simpl in Hl. injection Hl as -> ->. simpl.
      apply IH. eauto.
Qed.

Lemma parse_strings_value l :
  parse_items (z_string []) (map JStr l) = mkParse (Some l) [].
Proof.
  induction l as [|s l IH]; [reflexivity|]. simpl. rewrite IH. reflexivity.
Qed.

Lemma optional_strings_accepts v :
  errors (nullable (optional (z_array (z_string []))) v) = [] <->
  optional_strings v.
Proof.
  unfold optional_strings.
  destruct v; simpl; split; intros H; auto; try discriminate;
    try (destruct H as [H|[H|[s' H]]]; discriminate).
  - right. right. apply parse_strings_accepts in H. destruct H as (l & ->). eauto.
  - destruct H as [H|[H|[l H]]]; try discriminate. injection H as ->.
    apply parse_strings_accepts. eauto.
Qed.

Lemma name_schema_run v message1 message2 message3 :
  valid_name v ->
  exists s, refine not_only_whitespace message3
              (z_string [min 1 message1; max 255 message2]) v =
            mkParse (Some s) [] /\ v = JStr s.
Proof.
  intros (s & -> & [Hmin Hmax] & Ht). exists s. split; [|reflexivity].
  unfold refine, z_string, run_checks. cbn -[Nat.leb not_only_whitespace].
  apply Nat.leb_le in Hmin, Hmax. rewrite Hmin, Hmax, Ht. reflexivity.
Qed.

Lemma short_description_schema_run v message1 message3 :
  valid_short_description v ->
  exists s, refine not_only_whitespace message3 (z_string [min 1 message1]) v =
            mkParse (Some s) [] /\ v = JStr s.
Proof.
  intros (s & -> & Hmin & Ht). exists s. split; [|reflexivity].
  unfold refine, z_string, run_checks. cbn -[Nat.leb not_only_whitespace].
  apply Nat.leb_le in Hmin. rewrite Hmin, Ht. reflexivity.
Qed.

Lemma optional_string_run v :
  optional_string v ->
  exists x, nullable (optional (z_string [])) v = mkParse (Some x) [].
Proof. intros [->|[->|[s ->]]]; eexists; reflexivity. Qed.

Lemma optional_strings_run v :
  optional_strings v ->
  exists x, nullable (optional (z_array (z_string []))) v = mkParse (Some x) [].
Proof.
  intros [->|[->|[l ->]]]; try (eexists; reflexivity).
  exists (Val l). unfold nullable, optional, z_array, map_value.
  now rewrite parse_strings_value.
Qed.

Lemma success_Success {A} (r : SafeParse A) :
  success r = true <-> exists data, r = Success data.
Proof.
  destruct r; simpl; split; eauto; try discriminate.
  intros [data H]. discriminate.
Qed.

(** X1. [CreateRoleSchema] accepts a body exactly when it is an object whose
    name is a string of 1 to 255 characters that is not all white space,
    whose short_description is a non-empty string that is not all white
    space, and whose long_description, responsibilities and skills are each
    absent, null, or a string (an array of strings for the last two). *)
Theorem CreateRoleSchema_accepts (req_body : JsValue) :
  success (safeParse CreateRoleSchema req_body) = true <->
  is_object req_body /\
  valid_name (get req_body "name") /\
  valid_short_description (get req_body "short_description") /\
  optional_string (get req_body "long_description") /\
  optional_strings (get req_body "responsibilities") /\
  optional_strings (get req_body "skills").
Proof.
  rewrite success_Success. split.
  - intros [data H]. apply safeParse_success in H. destruct H as [He _].
    unfold CreateRoleSchema, z_object in He.
    destruct req_body; try discriminate.
    apply ap_errors in He. destruct He as [He Hsk].
    apply ap_errors in He. destruct He as [He Hrs].
    apply ap_errors in He. destruct He as [He Hld].
    apply ap_errors in He. destruct He as [He Hsd].
    apply ap_errors in He. destruct He as [_ Hn].
    split; [unfold is_object; eauto|].
    split; [now apply name_schema_accepts in Hn|].
    split; [now apply short_description_schema_accepts in Hsd|].
    split; [now apply optional_string_accepts|].
    split; now apply optional_strings_accepts.
  - intros ([fields ->] & Hn & Hsd & Hld & Hrs & Hsk).
    unfold safeParse, CreateRoleSchema, z_object.
    eapply name_schema_run in Hn. destruct Hn as (n & Hn & _).
    eapply short_description_schema_run in Hsd. destruct Hsd as (sd & Hsd & _).
    apply optional_string_run in Hld. destruct Hld as (ld & Hld).
    apply optional_strings_run in Hrs. destruct Hrs as (rs & Hrs).
    apply optional_strings_run in Hsk. destruct Hsk as (sk & Hsk).
    rewrite Hn, Hsd, Hld, Hrs, Hsk. cbn. eauto.
Qed.

Lemma role_id_schema_accepts v message :
  errors (map_value toZ (z_number [int; positive message] v)) = [] <->
  positive_integer v.
Proof.
  unfold positive_integer, map_value, z_number. destruct v; simpl;
    try (split; [discriminate|intros (q' & H & _); discriminate]).
  unfold run_checks. cbn -[isInteger Z.ltb].
  split.
  - intros H. apply app_eq_nil in H. destruct H as [H1 H2].
    apply app_eq_nil in H2. destruct H2 as [H2 _].
    exists q. split; [reflexivity|]. split.
    + now destruct (isInteger q).
    + apply Z.ltb_lt. now destruct (0 <? Qnum q).
  - intros (q' & H & Hi & Hp). injection H as <-.
    apply Z.ltb_lt in Hp. rewrite Hi, Hp. reflexivity.
Qed.

Lemma role_id_schema_run v message :
  positive_integer v ->
  exists q, v = JNum q /\
    map_value toZ (z_number [int; positive message] v) = mkParse (Some (toZ q)) [].
Proof.
  intros (q & -> & Hi & Hp). exists q. split; [reflexivity|].
  unfold map_value, z_number, run_checks. cbn -[isInteger Z.ltb toZ].
  apply Z.ltb_lt in Hp. rewrite Hi, Hp. reflexivity.
Qed.

Section ResourceSchema.
Context {platform : Platform}.

Lemma url_schema_accepts v message :
  errors (z_string [url message] v) = [] <-> valid_url v.
Proof.
  unfold valid_url. split.
  - intros H. apply z_string_ok in H. destruct H as (s & -> & _ & Hck).
    apply run_checks_cons in Hck. destruct Hck as [Hu _]. eauto.
  - intros (s & -> & Hu). unfold z_string, run_checks. simpl.
    rewrite Hu. reflexivity.
Qed.

Lemma url_schema_run v message :
  valid_url v -> exists s, z_string [url message] v = mkParse (Some s) [].
Proof.
  intros (s & -> & Hu). exists s. unfold z_string, run_checks. simpl.
  rewrite Hu. reflexivity.
Qed.

Lemma ResourceTypeSchema_run v :
  allowed_resource_type v -> exists t, ResourceTypeSchema v = mkParse (Some t) [].
Proof. intros [-> | [-> | -> ]]; eexists; reflexivity. Qed.

Lemma DifficultyLevelSchema_run v :
  allowed_difficulty v -> exists d, DifficultyLevelSchema v = mkParse (Some d) [].
Proof. intros [-> | [-> | -> ]]; eexists; reflexivity. Qed.

Lemma CreateResourceSchema_accepts_exactly (req_body : JsValue) :
  success (safeParse CreateResourceSchema req_body) = true <->
  is_object req_body /\
  positive_integer (get req_body "role_id") /\
  valid_name (get req_body "title") /\
  valid_url (get req_body "url") /\
  allowed_resource_type (get req_body "resource_type") /\
  allowed_difficulty (get req_body "difficulty").
Proof.
  rewrite success_Success. split.
  - intros [data H]. apply safeParse_success in H. destruct H as [He _].
    unfold CreateResourceSchema, z_object in He.
    destruct req_body; try discriminate.
    apply ap_errors in He. destruct He as [He Hd].
    apply ap_errors in He. destruct He as [He Ht].
    apply ap_errors in He. destruct He as [He Hu].
    apply ap_errors in He. destruct He as [He Hti].
    apply ap_errors in He. destruct He as [_ Hr].
    split; [unfold is_object; eauto|].
    split; [now apply role_id_schema_accepts in Hr|].
    split; [now apply name_schema_accepts in Hti|].
    split; [now apply url_schema_accepts in Hu|].
    split; [now apply ResourceTypeSchema_ok|now apply DifficultyLevelSchema_ok].
  - intros ([fields ->] & Hr & Hti & Hu & Ht & Hd).
    unfold safeParse, CreateResourceSchema, z_object.
    eapply role_id_schema_run in Hr. destruct Hr as (q & _ & Hr).
    eapply name_schema_run in Hti. destruct Hti as (ti & Hti & _).
    eapply url_schema_run in Hu. destruct Hu as (u & Hu).
    apply ResourceTypeSchema_run in Ht. destruct Ht as (t & Ht).
    apply DifficultyLevelSchema_run in Hd. destruct Hd as (d & Hd).
    rewrite Hr, Hti, Hu, Ht, Hd. cbn. eauto.
Qed.

(** X2. [CreateResourceSchema] accepts a body exactly when it is an object
    whose role_id is a positive integer, whose title is a string of 1 to 255
    characters that is not all white space, whose url is a string the URL
    parser accepts, and whose resource_type and difficulty are values of
    the two enumerations; the parsed role_id is then the integer given. *)
Theorem CreateResourceSchema_accepts (req_body : JsValue) :
  (success (safeParse CreateResourceSchema req_body) = true <->
   is_object req_body /\
   positive_integer (get req_body "role_id") /\
   valid_name (get req_body "title") /\
   valid_url (get req_body "url") /\
   allowed_resource_type (get req_body "resource_type") /\
   allowed_difficulty (get req_body "difficulty")) /\
  (forall data n,
     safeParse CreateResourceSchema req_body = Success data ->
     get req_body "role_id" = of_Z n ->
     CreateResourceInput.role_id data = n /\ 0 < n).
Proof.
  split; [apply CreateResourceSchema_accepts_exactly|].
  intros data n H Hn. apply safeParse_success in H. destruct H as [He Hv].
    unfold CreateResourceSchema, z_object in He, Hv.
    destruct req_body; try discriminate.
    apply ap_errors in He. destruct He as [He _].
    apply ap_errors in He. destruct He as [He _].
    apply ap_errors in He. destruct He as [He _].
    apply ap_errors in He. destruct He as [He _].
    apply ap_errors in He. destruct He as [_ Hr].
    apply ap_value in Hv. destruct Hv as (g5 & d & Hv & _ & ->).
    apply ap_value in Hv. destruct Hv as (g4 & t & Hv & _ & ->).
    apply ap_value in Hv. destruct Hv as (g3 & u & Hv & _ & ->).
    apply ap_value in Hv. destruct Hv as (g2 & ti & Hv & _ & ->).
    apply ap_value in Hv. destruct Hv as (g1 & r & Hv & Hrv & ->).
    injection Hv as <-. cbn [CreateResourceInput.role_id].
    apply role_id_schema_accepts in Hr. destruct Hr as (q & Hq & _ & Hp).
    rewrite Hn in Hrv, Hq. unfold of_Z in Hrv, Hq. injection Hq as <-.
    cbn in Hrv, Hp. injection Hrv as <-. split; [|exact Hp].
    unfold toZ, inject_Z. cbn [Qnum Qden]. apply Z.div_1_r.
Qed.

End ResourceSchema.

Lemma z_enum_success {A} (values : list (string * A)) message v :
  success (safeParse (z_enum values message) v) = true <->
  errors (z_enum values message v) = [].
Proof.
  unfold safeParse, z_enum.
  destruct v; cbn -[String.eqb]; try (split; discriminate).
  destruct (find _ values); cbn; split; (reflexivity || discriminate).
Qed.

(** C2. The two enumerations are fixed sets of three values.  The schema of
    resource_type accepts a value exactly when it is one of the strings
    'Video', 'Article', 'Course', and the schema of difficulty exactly when
    it is one of 'Beginner', 'Intermediate', 'Advanced'.  Validation of a
    body whose other three properties are valid (an object with a positive
    integer role_id, a title of 1 to 255 characters that is not all white
    space, and a url that parses) accepts it exactly when its resource_type
    and its difficulty are both in these sets; every body that validation
    accepts has both properties in these sets, and the parsed values are
    the ones the body names.  For every body whose resource_type or
    difficulty is any other value (a missing property included) POST
    /api/resources answers 400 and leaves the store as it was, so no
    resource is created. *)
Theorem resource_enumerations_fixed {platform : Platform} :
  (forall v, success (safeParse ResourceTypeSchema v) = true <->
             allowed_resource_type v) /\
  (forall v, success (safeParse DifficultyLevelSchema v) = true <->
             allowed_difficulty v) /\
  (forall req_body,
     is_object req_body ->
     positive_integer (get req_body "role_id") ->
     valid_name (get req_body "title") ->
     valid_url (get req_body "url") ->
     (success (safeParse CreateResourceSchema req_body) = true <->
      allowed_resource_type (get req_body "resource_type") /\
      allowed_difficulty (get req_body "difficulty"))) /\
  (forall req_body data,
     safeParse CreateResourceSchema req_body = Success data ->
     allowed_resource_type (get req_body "resource_type") /\
     allowed_difficulty (get req_body "difficulty")) /\
  (forall req_body data,
     safeParse CreateResourceSchema req_body = Success data ->
     get req_body "resource_type" =
       JStr match CreateResourceInput.resource_type data with
            | Video => "Video" | Article => "Article" | Course => "Course"
            end /\
     get req_body "difficulty" =
       JStr match CreateResourceInput.difficulty data with
            | Beginner => "Beginner"
            | Intermediate => "Intermediate"
            | Advanced => "Advanced"
            end) /\
  (forall req_body db,
     ~ allowed_resource_type (get req_body "resource_type") \/
     ~ allowed_difficulty (get req_body "difficulty") ->
     status (fst (post_resources req_body db)) = 400 /\
     snd (post_resources req_body db) = db).
Proof.
  assert (Hbody : forall req_body data,
     safeParse CreateResourceSchema req_body = Success data ->
     allowed_resource_type (get req_body "resource_type") /\
     allowed_difficulty (get req_body "difficulty")).
  { intros req_body data H. apply safeParse_success in H. destruct H as [He _].
    apply CreateResourceSchema_errors in He. destruct He as [Ht Hd].
    split; [now apply ResourceTypeSchema_ok|now apply DifficultyLevelSchema_ok]. }
  split; [|split; [|split; [|split; [exact Hbody|split]]]].
  - intros v. unfold ResourceTypeSchema at 1. rewrite z_enum_success.
    apply ResourceTypeSchema_ok.
  - intros v. unfold DifficultyLevelSchema at 1. rewrite z_enum_success.
    apply DifficultyLevelSchema_ok.
  - intros req_body Hobj Hid Htitle Hurl.
    rewrite CreateResourceSchema_accepts_exactly. tauto.
  - intros req_body data H. apply safeParse_success in H. destruct H as [_ Hv].
    apply CreateResourceSchema_value in Hv. destruct Hv as [-> ->].
    now destruct (CreateResourceInput.resource_type data),
      (CreateResourceInput.difficulty data).
  - intros req_body db Hbad.
    destruct (post_resources_outcomes req_body db)
      as [messages Hp|data Hp _|data row db' Hp _ _|data e db' Hp _ _];
      try (destruct (Hbody _ _ Hp); tauto).
    now split.
Qed.

(** C8. POST /api/resources is atomic on error.  It answers 400, 404, 201 or
    500.  It answers 400 exactly when validation of the body fails, and 404
    only when validation has passed and the role-existence check has found
    no role; in both cases the store is exactly as it was before the
    request.  A resource is inserted only with 201, after validation and the
    role-existence check have both succeeded.  So on every answer other than
    201 and 500 the resources table is unchanged. *)
Theorem post_resources_atomic_on_error {platform : Platform}
    (req_body : JsValue) (db : Db) :
  let response := fst (post_resources req_body db) in
  let db' := snd (post_resources req_body db) in
  (status response = 400 \/ status response = 404 \/
   status response = 201 \/ status response = 500) /\
  (status response = 400 <->
     success (safeParse CreateResourceSchema req_body) = false) /\
  (status response = 404 ->
     exists data,
       safeParse CreateResourceSchema req_body = Success data /\
       fst (roleExists (CreateResourceInput.role_id data) db) = inr false) /\
  (status response = 400 \/ status response = 404 -> db' = db) /\
  (status response = 201 ->
     exists data row,
       safeParse CreateResourceSchema req_body = Success data /\
       fst (roleExists (CreateResourceInput.role_id data) db) = inr true /\
       createResource data db = (inr row, db') /\
       resources db' = (resources db ++ [row])%list) /\
  (status response <> 201 -> status response <> 500 ->
     resources db' = resources db).
Proof.
  cbv zeta.
  destruct (post_resources_outcomes req_body db)
    as [messages Hp|data Hp He|data row db' Hp He Hc|data e db' Hp Hr Hs];
    rewrite Hp; simpl.
  - split; [tauto|]. split; [tauto|]. split; [discriminate|].
    split; [reflexivity|]. split; [discriminate|reflexivity].
  - split; [tauto|]. split; [split; discriminate|]. split; [eauto|].
    split; [reflexivity|]. split; [discriminate|reflexivity].
  - pose proof (createResource_effect data db) as Hf. rewrite Hc in Hf.
    destruct Hf as (_ & _ & Hres & _).
    split; [tauto|]. split; [split; discriminate|]. split; [discriminate|].
    split; [intros [H|H]; discriminate|]. split; [eauto 6|congruence].
  - split; [tauto|]. split; [split; discriminate|]. split; [discriminate|].
    split; [intros [H|H]; discriminate|]. split; [discriminate|congruence].
Qed.

(** ** The application, request by request *)

Lemma router_PostRoles req :
  router req = PostRoles <->
  method req = POST /\ path_eqb (path req) ["api"; "roles"] = true.
Proof.
  unfold router. split.
  - destruct (method req); try discriminate.
    + destruct (path_eqb (path req) ["api"; "roles"]); [discriminate|].
      destruct (role_id_param (path req)); [discriminate|].
      destruct (path_eqb (path req) ["health"]); [discriminate|].
      destruct (path_eqb (path req) []); discriminate.
    + destruct (path_eqb (path req) ["api"; "roles"]); [discriminate|].
      destruct (role_id_param (path req)); [discriminate|].
      destruct (path_eqb (path req) ["health"]); [discriminate|].
      destruct (path_eqb (path req) []); discriminate.
    + destruct (path_eqb (path req) ["api"; "roles"]); [now split|].
      destruct (path_eqb (path req) ["api"; "resources"]); discriminate.
  - intros [-> ->]. reflexivity.
Qed.

Lemma router_PostResources req :
  router req = PostResources <->
  method req = POST /\ path_eqb (path req) ["api"; "roles"] = false /\
  path_eqb (path req) ["api"; "resources"] = true.
Proof.
  unfold router. split.
  - destruct (method req); try discriminate.
    + destruct (path_eqb (path req) ["api"; "roles"]); [discriminate|].
      destruct (role_id_param (path req)); [discriminate|].
      destruct (path_eqb (path req) ["health"]); [discriminate|].
      destruct (path_eqb (path req) []); discriminate.
    + destruct (path_eqb (path req) ["api"; "roles"]); [discriminate|].
      destruct (role_id_param (path req)); [discriminate|].
      destruct (path_eqb (path req) ["health"]); [discriminate|].
      destruct (path_eqb (path req) []); discriminate.
    + destruct (path_eqb (path req) ["api"; "roles"]); [discriminate|].
      destruct (path_eqb (path req) ["api"; "resources"]); [now split|discriminate].
  - intros (-> & -> & ->). reflexivity.
Qed.

Section App.
Context {platform : Platform}.

Lemma get_role_by_id_reads id_param db : snd (get_role_by_id id_param db) = db.
Proof.
  rewrite get_role_by_id_run.
  destruct (safeParse RoleIdParamSchema _); [|reflexivity].
  destruct (fst (getRoleById _ db)) as [e|[role|]]; reflexivity.
Qed.

(** The answer to a request, and the store it leaves, from the route. *)
Lemma app_snd req db : snd (app req db) = snd (handle req db).
Proof.
  unfold app. destruct (handle req db) as [response db'].
  now destruct (method req).
Qed.

Lemma app_status req db :
  status (fst (app req db)) = status (fst (handle req db)).
Proof.
  unfold app. destruct (handle req db) as [response db'].
  now destruct (method req).
Qed.

Lemma app_not_HEAD req db : method req <> HEAD -> app req db = handle req db.
Proof.
  unfold app. intros H. destruct (handle req db) as [response db'].
  now destruct (method req).
Qed.

Lemma app_effects req db : app_effect req db (snd (app req db)).
Proof.
  rewrite app_snd.
  unfold handle. destruct (router req) eqn:Hr;
    try solve [apply keeps_tables; simpl; tables].
  - rewrite get_role_by_id_reads. apply keeps_tables; tables.
  - rewrite post_roles_run.
    destruct (safeParse CreateRoleSchema _) as [data|messages] eqn:Hv;
      [|apply keeps_tables; simpl; tables].
    pose proof (createRole_effect data db) as He.
    destruct (createRole data db) as [[e|row] db'] eqn:Hc; simpl.
    + destruct He as (? & ? & ? & ? & ?). apply keeps_tables; tables.
    + now apply inserts_role with (data := data) (row := row).
  - rewrite post_resources_run.
    destruct (safeParse CreateResourceSchema _) as [data|messages];
      [|apply keeps_tables; simpl; tables].
    destruct (fst (roleExists _ db)) as [e|[|]];
      try solve [apply keeps_tables; simpl; tables].
    pose proof (createResource_effect data db) as He.
    destruct (createResource data db) as [[e|row] db'] eqn:Hc; simpl.
    + destruct He as (? & ? & ? & ? & ?). apply keeps_tables; tables.
    + now apply inserts_resource with (data := data) (row := row).
Qed.

(** A GET or HEAD request reads. *)
Lemma app_reads req db :
  method req = GET \/ method req = HEAD -> snd (app req db) = db.
Proof.
  intros Hm. rewrite app_snd. unfold handle, router.
  destruct Hm as [-> | ->];
    (destruct (path_eqb (path req) ["api"; "roles"]); [reflexivity|];
     destruct (role_id_param (path req)); [apply get_role_by_id_reads|];
     destruct (path_eqb (path req) ["health"]); [reflexivity|];
     destruct (path_eqb (path req) []); reflexivity).
Qed.

(** The tables after a request, in the three cases. *)
Lemma app_tables req db :
  let db' := snd (app req db) in
  (roles db' = roles db /\ resources db' = resources db) \/
  (method req = POST /\ path_eqb (path req) ["api"; "roles"] = true /\
   resources db' = resources db /\
   exists row, roles db' = (roles db ++ [row])%list /\
               has_role db (Role.id row) = false) \/
  (method req = POST /\ path_eqb (path req) ["api"; "resources"] = true /\
   roles db' = roles db /\
   exists row, resources db' = (resources db ++ [row])%list /\
               has_resource db (Resource.id row) = false /\
               has_role db (Resource.role_id row) = true).
Proof.
  cbv zeta.
  destruct (app_effects req db) as [H1 H2 _ _|data row Hr _ Hc|data row Hr Hc].
  - left. now split.
  - apply router_PostRoles in Hr. destruct Hr as [Hm Hp].
    pose proof (createRole_effect data db) as He. rewrite Hc in He.
    destruct He as (_ & ? & ? & ? & _). right. left. eauto 8.
  - apply router_PostResources in Hr. destruct Hr as (Hm & _ & Hp).
    pose proof (createResource_effect data db) as He. rewrite Hc in He.
    destruct He as (_ & ? & ? & ? & ? & _). right. right. eauto 10.
Qed.

(** The rows a store holds stay, where they are, after any requests. *)
Lemma serve_extends reqs : forall db,
  exists new_roles new_resources,
    roles (snd (serve reqs db)) = (roles db ++ new_roles)%list /\
    resources (snd (serve reqs db)) = (resources db ++ new_resources)%list.
Proof.
  induction reqs as [|req reqs IH]; intros db; simpl.
  - exists [], []. now rewrite !app_nil_r.
  - pose proof (app_tables req db) as He.
    destruct (app req db) as [response db1]. simpl in He.
    destruct (IH db1) as (nr & ns & Hr & Hs).
    destruct (serve reqs db1) as [responses db2]. simpl in *.
    destruct He as [[H1 H2]|[(_ & _ & H2 & row & H1 & _)|(_ & _ & H1 & row & H2 & _)]];
      rewrite Hr, Hs, H1, H2.
    + eauto.
    + exists (row :: nr), ns. now rewrite <- app_assoc.
    + exists nr, (row :: ns). now rewrite <- app_assoc.
Qed.

End App.

(** ** Referential integrity *)

Lemma has_role_In db id :
  has_role db id = true <-> exists role, In role (roles db) /\ Role.id role = id.
Proof.
  unfold has_role. rewrite existsb_exists.
  split; intros (role & Hin & Hid); exists role; split; auto;
    now apply Z.eqb_eq.
Qed.

Lemma references_In db id :
  references db id = true <->
  exists r, In r (resources db) /\ Resource.role_id r = id.
Proof.
  unfold references. rewrite existsb_exists.
  split; intros (r & Hin & Hid); exists r; split; auto; now apply Z.eqb_eq.
Qed.

Lemma app_references {platform : Platform} req db :
  references_existing db -> references_existing (snd (app req db)).
Proof.
  unfold references_existing, has_role. intros Hfk r.
  destruct (app_tables req db)
    as [[H1 H2]|[(_ & _ & H2 & row & H1 & _)|(_ & _ & H1 & row & H2 & _ & Hrole)]];
    rewrite H1, H2; intros Hin.
  - now apply Hfk.
  - rewrite existsb_app. apply orb_true_iff. left. now apply Hfk.
  - apply in_app_or in Hin. destruct Hin as [Hin|[<-|[]]].
    + now apply Hfk.
    + exact Hrole.
Qed.

Lemma reachable_references {platform : Platform} db :
  reachable db -> references_existing db.
Proof.
  induction 1 as [|req db _ IH].
  - intros r [].
  - now apply app_references.
Qed.

(** C1, as stated, fails: a request that names a role_id for which no role
    exists is not always answered 404.  Validation runs first, so a body
    with such a role_id and a resource_type outside the enumeration is
    answered 400. *)
Lemma post_resources_missing_role_not_always_404 :
  ~ (forall (platform : Platform) (req_body : JsValue) (db : Db) (n : Z),
       get req_body "role_id" = of_Z n ->
       has_role db n = false ->
       status (fst (post_resources req_body db)) = 404).
Proof.
  intros H.
  specialize (H sample_platform (resource_body 999999 "Podcast") sample_db
                999999 eq_refl eq_refl).
  vm_compute in H. discriminate H.
Qed.

(** C1, amended.  POST /api/resources inserts a resource only after
    validation and the role-existence check have succeeded for the role_id
    of the body: whenever the resources table changes, exactly one row was
    appended, its role_id is the validated role_id, and a role with that id
    is stored.  When the body passes validation and the role-existence
    check finds no role with that id, the handler answers 404 and leaves the
    store as it was.  Hence a request keeps the property that each
    resource's role_id is the id of a stored role, and the property holds in
    every store reachable through the API from the migrated one. *)
Theorem post_resources_references_existing_role {platform : Platform} :
  (forall req_body db,
     let db' := snd (post_resources req_body db) in
     resources db' <> resources db ->
     exists data row,
       safeParse CreateResourceSchema req_body = Success data /\
       fst (roleExists (CreateResourceInput.role_id data) db) = inr true /\
       resources db' = (resources db ++ [row])%list /\
       Resource.role_id row = CreateResourceInput.role_id data /\
       exists role, In role (roles db) /\ Role.id role = Resource.role_id row) /\
  (forall req_body db data,
     safeParse CreateResourceSchema req_body = Success data ->
     fst (roleExists (CreateResourceInput.role_id data) db) = inr false ->
     status (fst (post_resources req_body db)) = 404 /\
     snd (post_resources req_body db) = db) /\
  (forall req db,
     (forall r, In r (resources db) ->
        exists role, In role (roles db) /\ Role.id role = Resource.role_id r) ->
     forall r, In r (resources (snd (app req db))) ->
     exists role, In role (roles (snd (app req db))) /\
                  Role.id role = Resource.role_id r) /\
  (forall db,
     reachable db ->
     forall r, In r (resources db) ->
     exists role, In role (roles db) /\ Role.id role = Resource.role_id r).
Proof.
  split; [|split; [|split]].
  - intros req_body db db' Hch. subst db'.
    destruct (post_resources_outcomes req_body db)
      as [messages _|data _ _|data row db' Hp He Hc|data e db' _ _ Hs];
      simpl in Hch; try congruence.
    pose proof (createResource_effect data db) as Hf. rewrite Hc in Hf.
    destruct Hf as (-> & _ & Hres & _ & Hrole & _).
    exists data, (resource_row (resources_id_seq db) (stored_resource data)).
    repeat split; auto. now apply has_role_In.
  - intros req_body db data Hp He. rewrite post_resources_run, Hp, He.
    now split.
  - intros req db Hfk r Hin. apply has_role_In.
    apply (app_references req db); [|exact Hin].
    intros r' Hin'. apply has_role_In. now apply Hfk.
  - intros db Hr r Hin. apply has_role_In.
    now apply (reachable_references db Hr).
Qed.

(** C3. The lifecycle is create-then-read.  A request leaves both tables as
    they were, unless it is a POST that Express matches to /api/roles
    (whatever the case of the letters, and with or without a slash at the
    end), which may append one row with a new id to [roles], or a POST that
    it matches to /api/resources, which may append one row with a new id to
    [resources]; every GET request, GET /api/roles and GET /api/roles/:id
    among them, leaves the whole store as it was.  So after any sequence of
    requests the rows that were stored are still there, unchanged and in
    place, followed by the rows inserted since: none was updated or
    deleted. *)
Theorem api_creates_then_reads {platform : Platform} :
  (forall req db,
     let db' := snd (app req db) in
     (roles db' = roles db /\ resources db' = resources db) \/
     (method req = POST /\ path_eqb (path req) ["api"; "roles"] = true /\
      resources db' = resources db /\
      exists row, roles db' = (roles db ++ [row])%list /\
                  has_role db (Role.id row) = false) \/
     (method req = POST /\ path_eqb (path req) ["api"; "resources"] = true /\
      roles db' = roles db /\
      exists row, resources db' = (resources db ++ [row])%list /\
                  has_resource db (Resource.id row) = false)) /\
  (forall req db, method req = GET -> snd (app req db) = db) /\
  (forall req_body db,
     snd (app (mkRequest GET ["api"; "roles"] req_body) db) = db) /\
  (forall id req_body db,
     snd (app (mkRequest GET ["api"; "roles"; id] req_body) db) = db) /\
  (forall reqs db,
     exists new_roles new_resources,
       roles (snd (serve reqs db)) = (roles db ++ new_roles)%list /\
       resources (snd (serve reqs db)) = (resources db ++ new_resources)%list).
Proof.
  split; [|split; [|split; [|split]]].
  - intros req db db'. subst db'.
    destruct (app_tables req db)
      as [H|[H|(Hm & Hp & H1 & row & H2 & Hn & _)]]; [tauto|tauto|].
    right. right. eauto 8.
  - intros req db Hm. apply app_reads. now left.
  - intros req_body db. apply app_reads. now left.
  - intros id req_body db. apply app_reads. now left.
  - intros reqs db. apply serve_extends.
Qed.

(** C4. A role cannot be deleted while resources reference it.  The API has
    no operation that deletes a role: a DELETE request, whatever its path,
    is answered 404 by the fallback handler and leaves the store as it was,
    and a stored role is still stored after any request and after any
    sequence of requests.  And the DELETE statement run against the schema,
    with its ON DELETE RESTRICT reference, fails for a role that a resource
    still references and leaves the store, both tables included, as it was;
    once nothing references the role the same statement removes it. *)
Theorem role_delete_restrict {platform : Platform} :
  (forall segments req_body db,
     status (fst (app (mkRequest DELETE segments req_body) db)) = 404 /\
     snd (app (mkRequest DELETE segments req_body) db) = db) /\
  (forall req db role,
     In role (roles db) -> In role (roles (snd (app req db)))) /\
  (forall reqs db role,
     In role (roles db) -> In role (roles (snd (serve reqs db)))) /\
  (forall db role resource,
     In role (roles db) -> In resource (resources db) ->
     Resource.role_id resource = Role.id role ->
     exists e, delete_from_roles (Role.id role) db = (inl e, db)) /\
  (forall db role,
     In role (roles db) -> int4_in_range (Role.id role) = true ->
     references db (Role.id role) = false ->
     exists db',
       delete_from_roles (Role.id role) db = (inr tt, db') /\
       has_role db' (Role.id role) = false /\
       resources db' = resources db).
Proof.
  split; [|split; [|split; [|split]]].
  - intros segments req_body db. split; reflexivity.
  - intros req db role Hin.
    destruct (app_tables req db)
      as [[H1 _]|[(_ & _ & _ & row & H1 & _)|(_ & _ & H1 & _)]];
      rewrite H1; auto. apply in_or_app. now left.
  - intros reqs db role Hin.
    destruct (serve_extends reqs db) as (nr & ns & Hr & _).
    rewrite Hr. apply in_or_app. now left.
  - intros db role resource Hrole Hres Hid.
    unfold delete_from_roles, bind. rewrite int4_run.
    destruct (int4_in_range (Role.id role)); [|eauto].
    run_pg.
    assert (H1 : has_role db (Role.id role) = true)
      by (apply has_role_In; eauto).
    assert (H2 : references db (Role.id role) = true)
      by (apply references_In; eauto).
    rewrite H1, H2. simpl. eauto.
  - intros db role Hrole Hrange Href.
    unfold delete_from_roles, bind. rewrite int4_run, Hrange.
    run_pg. rewrite Href, andb_false_r.
    eexists. split; [reflexivity|]. split; [|reflexivity].
    unfold has_role. simpl.
    apply not_true_is_false. intros H. apply existsb_exists in H.
    destruct H as (x & Hx & Hid). apply filter_In in Hx.
    destruct Hx as [_ Hx]. rewrite Hid in Hx. discriminate.
Qed.

(** ** Every request keeps the store consistent *)

Lemma consistent_migrated : consistent migrated.
Proof.
  split; simpl; try (intros r []); try constructor; unfold INT4_MAX; try lia.
Qed.

Lemma NoDup_snoc {A} (l : list A) (x : A) :
  NoDup l -> ~ In x l -> NoDup (l ++ [x]).
Proof.
  intros Hl Hx. apply NoDup_rev in Hl.
  rewrite <- (rev_involutive (l ++ [x])). apply NoDup_rev.
  rewrite rev_app_distr. simpl. constructor; [|exact Hl].
  now rewrite <- in_rev.
Qed.

Lemma has_role_false db id :
  has_role db id = false -> ~ In id (map Role.id (roles db)).
Proof.
  intros H Hin. apply in_map_iff in Hin. destruct Hin as (r & Hid & Hr).
  assert (has_role db id = true) by (apply has_role_In; eauto). congruence.
Qed.

Lemma has_resource_false db id :
  has_resource db id = false -> ~ In id (map Resource.id (resources db)).
Proof.
  intros H Hin. apply in_map_iff in Hin. destruct Hin as (r & Hid & Hr).
  assert (has_resource db id = true).
  { apply existsb_exists. exists r. split; [exact Hr|now apply Z.eqb_eq]. }
  congruence.
Qed.

Lemma app_consistent {platform : Platform} req db :
  consistent db -> consistent (snd (app req db)).
Proof.
  intros Hc. pose proof (app_references req db (resources_role_id_fkey db Hc)) as Hfk.
  destruct Hc as [Hr Hs Pr Ps Sr Ss _].
  destruct (app_effects req db) as [H1 H2 H3 H4|data row _ _ Hc|data row _ Hc].
  - split; rewrite ?H1, ?H2; auto; try lia.
    + intros r Hin. specialize (Hr r Hin). lia.
    + intros r Hin. specialize (Hs r Hin). lia.
  - pose proof (createRole_effect data db) as He. rewrite Hc in He.
    destruct He as (-> & H1 & H2 & Hn & Hm & H3 & H4).
    split; rewrite ?H1, ?H2, ?H3, ?H4; auto; try lia.
    + intros r Hin. apply in_app_or in Hin. destruct Hin as [Hin|[<-|[]]].
      * specialize (Hr r Hin). lia.
      * simpl. lia.
    + rewrite map_app. apply NoDup_snoc; [exact Pr|]. now apply has_role_false.
  - pose proof (createResource_effect data db) as He. rewrite Hc in He.
    destruct He as (-> & H1 & H2 & Hn & _ & Hm & H3 & H4).
    split; rewrite ?H1, ?H2, ?H3, ?H4; auto; try lia.
    + intros r Hin. apply in_app_or in Hin. destruct Hin as [Hin|[<-|[]]].
      * specialize (Hs r Hin). lia.
      * simpl. lia.
    + rewrite map_app. apply NoDup_snoc; [exact Ps|]. now apply has_resource_false.
Qed.

Lemma reachable_consistent {platform : Platform} db :
  reachable db -> consistent db.
Proof.
  induction 1 as [|req db _ IH].
  - apply consistent_migrated.
  - now apply app_consistent.
Qed.

Lemma consistent_fresh db :
  consistent db -> has_role db (roles_id_seq db) = false.
Proof.
  intros Hc. apply not_true_is_false. intros H.
  apply has_role_In in H. destruct H as (r & Hin & Hid).
  pose proof (roles_id_below db Hc r Hin). lia.
Qed.

(** ** Role creation *)

(** What validation has checked of a role body, and how the parsed data
    reads the optional properties. *)
Lemma CreateRoleSchema_success req_body data :
  safeParse CreateRoleSchema req_body = Success data ->
  get req_body "name" = JStr (CreateRoleInput.name data) /\
  (String.length (CreateRoleInput.name data) <= 255)%nat /\
  get req_body "short_description" = JStr (CreateRoleInput.short_description data) /\
  value (nullable (optional (z_string [])) (get req_body "long_description")) =
    Some (CreateRoleInput.long_description data) /\
  value (nullable (optional (z_array (z_string [])))
           (get req_body "responsibilities")) =
    Some (CreateRoleInput.responsibilities data) /\
  value (nullable (optional (z_array (z_string []))) (get req_body "skills")) =
    Some (CreateRoleInput.skills data).
Proof.
  intros H. apply safeParse_success in H. destruct H as [He Hv].
  unfold CreateRoleSchema, z_object in He, Hv.
  destruct req_body; try discriminate.
  apply ap_errors in He. destruct He as [He _].
  apply ap_errors in He. destruct He as [He _].
  apply ap_errors in He. destruct He as [He _].
  apply ap_errors in He. destruct He as [He Hsd].
  apply ap_errors in He. destruct He as [_ Hn].
  apply ap_value in Hv. destruct Hv as (g5 & sk & Hv & Hsk & ->).
  apply ap_value in Hv. destruct Hv as (g4 & rs & Hv & Hrs & ->).
  apply ap_value in Hv. destruct Hv as (g3 & ld & Hv & Hld & ->).
  apply ap_value in Hv. destruct Hv as (g2 & sd & Hv & Hsdv & ->).
  apply ap_value in Hv. destruct Hv as (g1 & n & Hv & Hnv & ->).
  injection Hv as <-. cbn [CreateRoleInput.name CreateRoleInput.short_description
    CreateRoleInput.long_description CreateRoleInput.responsibilities
    CreateRoleInput.skills].
  apply refine_ok in Hn. destruct Hn as (Hn & Hnr & _). rewrite Hnr in Hnv.
  apply z_string_ok in Hn. destruct Hn as (s & Hs & Hsv & Hck).
  rewrite Hsv in Hnv. injection Hnv as ->.
  apply run_checks_cons in Hck. destruct Hck as [_ Hck].
  apply run_checks_cons in Hck. destruct Hck as [Hmax _].
  apply refine_ok in Hsd. destruct Hsd as (Hsd & Hsdr & _). rewrite Hsdr in Hsdv.
  apply z_string_ok in Hsd. destruct Hsd as (s' & Hs' & Hsv' & _).
  rewrite Hsv' in Hsdv. injection Hsdv as ->.
  repeat split; auto.
  simpl in Hmax. now apply Nat.leb_le.
Qed.

Lemma createRole_succeeds data db :
  consistent db -> roles_id_seq db <= INT4_MAX ->
  (String.length (CreateRoleInput.name data) <= 255)%nat ->
  storable (role_texts data) ->
  createRole data db =
    (inr (role_row (roles_id_seq db) data),
     mkDb (roles db ++ [role_row (roles_id_seq db) data])%list (resources db)
       (roles_id_seq db + 1) (resources_id_seq db)).
Proof.
  intros Hc Hseq Hlen Hs. rewrite createRole_storable_run by assumption.
  cbv zeta. apply Z.leb_le in Hseq.
  rewrite Hseq, (consistent_fresh db Hc). reflexivity.
Qed.

Lemma filter_none {A} (p : A -> bool) (l : list A) :
  (forall x, In x l -> p x = false) -> filter p l = [].
Proof.
  intros H. induction l as [|x l IH]; [reflexivity|]. simpl.
  rewrite (H x (or_introl eq_refl)). apply IH. intros y Hy. apply H. now right.
Qed.

(** C6, as stated, fails: the long description read back is not always the
    given one.  [createRole] stores [long_description || null], so a valid
    input whose long description is the empty string is read back with a
    null long description. *)
Lemma createRole_long_description_not_always_given :
  ~ (forall (req_body : JsValue) (data : CreateRoleInput.t) (db db' : Db)
            (created : Role.t) (found : RoleWithResources.t),
       safeParse CreateRoleSchema req_body = Success data ->
       createRole data db = (inr created, db') ->
       fst (getRoleById (Role.id created) db') = inr (Some found) ->
       Role.long_description (RoleWithResources.role found) =
         match CreateRoleInput.long_description data with
         | Val s => Some s
         | _ => None
         end).
Proof.
  intros H.
  pose (req_body := JObj [("name", JStr "QA Engineer");
                          ("short_description", JStr "Ensure software quality");
                          ("long_description", JStr "")]).
  pose (data := CreateRoleInput.make "QA Engineer" "Ensure software quality"
                  (Val "") Undefined Undefined).
  specialize (H req_body data migrated
                (mkDb [role_row 1 data] [] 2 1) (role_row 1 data)
                (RoleWithResources.make (role_row 1 data) [])
                eq_refl eq_refl eq_refl).
  discriminate H.
Qed.

(** C6, amended.  Role creation round-trips through the store.  For every
    input that validation accepts and whose texts hold no U+0000, which
    PostgreSQL does not store, on a store that satisfies the schema and
    whose roles sequence is not exhausted, [createRole] returns a role and
    [getRoleById] with the returned id then yields that role: with the same
    name and short description; with the given long description when that is
    a non-empty string, and null when it is omitted, null or the empty
    string; with responsibilities and skills equal to the given lists,
    element for element in the same order (the empty list when omitted or
    null); and with an empty resources list. *)
Theorem createRole_then_getRoleById
    (req_body : JsValue) (data : CreateRoleInput.t) (db : Db) :
  safeParse CreateRoleSchema req_body = Success data ->
  storable (role_texts data) ->
  consistent db ->
  roles_id_seq db <= INT4_MAX ->
  exists created db',
    createRole data db = (inr created, db') /\
    getRoleById (Role.id created) db' =
      (inr (Some (RoleWithResources.make created [])), db') /\
    Role.name created = CreateRoleInput.name data /\
    Role.short_description created = CreateRoleInput.short_description data /\
    Role.long_description created =
      match CreateRoleInput.long_description data with
      | Val s => if String.eqb s "" then None else Some s
      | _ => None
      end /\
    Role.responsibilities created =
      Some match CreateRoleInput.responsibilities data with
           | Val l => l
           | _ => []
           end /\
    Role.skills created =
      Some match CreateRoleInput.skills data with
           | Val l => l
           | _ => []
           end.
Proof.
  intros Hp Hs Hc Hseq.
  apply CreateRoleSchema_success in Hp. destruct Hp as (_ & Hlen & _).
  eexists. eexists. split; [now apply createRole_succeeds|].
  split; [|repeat split].
  rewrite getRoleById_run_Z. cbn [Role.id role_row roles resources].
  assert (Hr : int4_in_range (roles_id_seq db) = true).
  { apply int4_in_range_iff. pose proof (roles_id_seq_range db Hc).
    unfold INT4_MIN, INT4_MAX in *. lia. }
  rewrite Hr, filter_app.
  rewrite (filter_none _ (roles db)).
  2:{ intros x Hx. apply Z.eqb_neq. pose proof (roles_id_below db Hc x Hx). lia. }
  cbn [filter app Role.id]. rewrite Z.eqb_refl.
  rewrite (filter_none _ (resources db)); [reflexivity|].
  intros x Hx. apply Z.eqb_neq. intros Hid.
  pose proof (resources_role_id_fkey db Hc x Hx) as Hfk.
  apply has_role_In in Hfk. destruct Hfk as (role & Hin & Hrid).
  pose proof (roles_id_below db Hc role Hin). lia.
Qed.

Lemma createRole_arrays data db created db' :
  createRole data db = (inr created, db') -> arrays_not_null created.
Proof.
  intros Hc. pose proof (createRole_effect data db) as He. rewrite Hc in He.
  destruct He as (-> & _). split; discriminate.
Qed.

Lemma reachable_arrays {platform : Platform} db :
  reachable db -> forall role, In role (roles db) -> arrays_not_null role.
Proof.
  induction 1 as [|req db _ IH]; intros role Hin.
  - destruct Hin.
  - destruct (app_effects req db) as [H1 _ _ _|data row _ _ Hc|data row _ Hc].
    + rewrite H1 in Hin. now apply IH.
    + pose proof (createRole_effect data db) as He. rewrite Hc in He.
      destruct He as (_ & H1 & _). rewrite H1 in Hin.
      apply in_app_or in Hin. destruct Hin as [Hin|[<-|[]]].
      * now apply IH.
      * eapply createRole_arrays. exact Hc.
    + pose proof (createResource_effect data db) as He. rewrite Hc in He.
      destruct He as (_ & H1 & _). rewrite H1 in Hin. now apply IH.
Qed.

(** C9. POST /api/roles normalizes the optional properties.  For every body
    that validation accepts, the role that [createRole] returns, which the
    handler sends back with 201 under [role], property by property, has a
    null long description when long_description is omitted or null, empty
    responsibilities when responsibilities is omitted or null, and empty
    skills when skills is omitted or null; on a store that satisfies the
    schema and whose roles sequence is not exhausted the role is created,
    provided no text of the body holds U+0000, which PostgreSQL does not
    store.  The responsibilities and skills of a created role are never
    null, nor are those of any role in a store reached through the API. *)
Theorem post_roles_normalizes_omitted {platform : Platform}
    (req_body : JsValue) (data : CreateRoleInput.t) (db : Db) :
  safeParse CreateRoleSchema req_body = Success data ->
  (forall created db',
     createRole data db = (inr created, db') ->
     post_roles req_body db =
       (mkResponse 201 (JObj [("role", JObj (role_properties created))]), db') /\
     (omitted (get req_body "long_description") ->
        Role.long_description created = None) /\
     (omitted (get req_body "responsibilities") ->
        Role.responsibilities created = Some []) /\
     (omitted (get req_body "skills") -> Role.skills created = Some []) /\
     Role.responsibilities created <> None /\
     Role.skills created <> None) /\
  (storable (role_texts data) -> consistent db -> roles_id_seq db <= INT4_MAX ->
     exists created db',
       createRole data db = (inr created, db') /\
       status (fst (post_roles req_body db)) = 201 /\
       In created (roles (snd (post_roles req_body db)))) /\
  (forall db0, reachable db0 ->
     forall role, In role (roles db0) ->
     Role.responsibilities role <> None /\ Role.skills role <> None).
Proof.
  intros Hp. pose proof (CreateRoleSchema_success _ _ Hp)
    as (_ & Hlen & _ & Hld & Hrs & Hsk).
  split; [|split].
  - intros created db' Hc.
    pose proof (createRole_arrays _ _ _ _ Hc) as [Ha1 Ha2].
    pose proof (createRole_effect data db) as He. rewrite Hc in He.
    destruct He as (-> & _).
    split; [rewrite post_roles_run, Hp, Hc; reflexivity|].
    unfold stored_role.
    cbn [role_row Role.long_description Role.responsibilities Role.skills
         CreateRoleInput.long_description CreateRoleInput.responsibilities
         CreateRoleInput.skills].
    split; [|split; [|split; [|split; discriminate]]].
    + intros [H|H]; rewrite H in Hld; injection Hld as <-; reflexivity.
    + intros [H|H]; rewrite H in Hrs; injection Hrs as <-; reflexivity.
    + intros [H|H]; rewrite H in Hsk; injection Hsk as <-; reflexivity.
  - intros Hs Hc Hseq.
    pose proof (createRole_succeeds data db Hc Hseq Hlen Hs) as Hcr.
    eexists. eexists. split; [exact Hcr|].
    rewrite post_roles_run, Hp, Hcr. simpl. split; [reflexivity|].
    apply in_or_app. right. now left.
  - intros db0 Hr role Hin. now apply (reachable_arrays db0 Hr).
Qed.

(** ** The difficulty filter of the resource list *)

Lemma DifficultyLevel_eqb_eq a b :
  ResourceList.DifficultyLevel_eqb a b = true <-> a = b.
Proof. destruct a, b; simpl; split; (reflexivity || discriminate). Qed.

Lemma filter_Selection (d : DifficultyLevel) (l : list Resource.t) :
  Selection (fun r => Resource.difficulty r = d) l
    (filter (fun r => ResourceList.DifficultyLevel_eqb (Resource.difficulty r) d) l).
Proof.
  induction l as [|x l IH]; simpl; [constructor|].
  destruct (ResourceList.DifficultyLevel_eqb (Resource.difficulty x) d) eqn:H.
  - apply select_keep; [now apply DifficultyLevel_eqb_eq|exact IH].
  - apply select_drop; [|exact IH].
    intros Heq. apply DifficultyLevel_eqb_eq in Heq. congruence.
Qed.

Lemma changes_resources values : forall c,
  ResourceList.resources (changes values c) = ResourceList.resources c.
Proof.
  induction values as [|v values IH]; intros c; simpl; [reflexivity|].
  unfold changes in IH. now rewrite IH.
Qed.

(** C10. The difficulty filter of ResourceList is a pure selection.  With
    'All' selected, as on mount, the list shown is the resource list itself,
    every resource rendered in order.  With a difficulty D selected the list
    shown holds exactly the resources whose difficulty is D, in their
    original order.  A filter change sets the selection and leaves the
    resource list as it was, after any series of changes.  An empty
    filtered list is rendered as the message 'No resources available', any
    other as one item per resource shown, in the same order, each with the
    id of its resource for key and with its title, url, resource type and
    difficulty. *)
Theorem filter_is_pure_selection (resources : list Resource.t) :
  ResourceList.filteredResources (ResourceList.mount resources) = resources /\
  (forall c,
     ResourceList.selectedDifficulty c = ResourceList.All ->
     ResourceList.filteredResources c = ResourceList.resources c) /\
  (forall d,
     Selection (fun r => Resource.difficulty r = d) resources
       (ResourceList.filteredResources
          (ResourceList.mkComponent resources (ResourceList.Level d)))) /\
  (forall value c,
     ResourceList.resources (ResourceList.handleFilterChange value c) =
       ResourceList.resources c /\
     ResourceList.selectedDifficulty (ResourceList.handleFilterChange value c) =
       value) /\
  (forall values,
     ResourceList.resources (changes values (ResourceList.mount resources)) =
       resources) /\
  (forall c,
     ResourceList.filteredResources c = [] ->
     ResourceList.render c =
       ResourceList.NoResourcesMessage "No resources available") /\
  (forall c,
     ResourceList.filteredResources c <> [] ->
     exists items,
       ResourceList.render c = ResourceList.ResourceItems items /\
       Forall2
         (fun resource item =>
            ResourceList.key item = Resource.id resource /\
            ResourceList.title item = Resource.title resource /\
            ResourceList.url item = Resource.url resource /\
            ResourceList.resource_type item = Resource.resource_type resource /\
            ResourceList.difficulty item = Resource.difficulty resource)
         (ResourceList.filteredResources c) items).
Proof.
  split; [reflexivity|]. split.
  { intros c H. unfold ResourceList.filteredResources. now rewrite H. }
  split; [intros d; apply filter_Selection|].
  split; [intros value c; split; reflexivity|].
  split; [intros values; apply changes_resources|].
  split.
  - intros c H. unfold ResourceList.render. now rewrite H.
  - intros c H. unfold ResourceList.render.
    destruct (ResourceList.filteredResources c) as [|r shown]; [congruence|].
    eexists. split; [reflexivity|].
    generalize (r :: shown). intros l.
    induction l as [|x l IH]; cbn [map]; constructor; [|exact IH].
    repeat split.
Qed.

(** * The endpoint tests of the repository, run on the model

    The cases of [routes/__tests__] and [__tests__/server.test.ts], against
    the sample store. *)

Section EndpointTests.
#[local] Existing Instance sample_platform.

Let answer (m : Method) (segments : list string) (req_body : JsValue)
    : Response :=
  fst (app (mkRequest m segments req_body) sample_db).

Example test_get_roles :
  answer GET ["api"; "roles"] JUndefined =
  json 200 (JObj [("roles",
    JArr [JObj [("id", of_Z 1); ("name", JStr "QA Engineer");
                ("short_description", JStr "Ensure software quality")]])]).
Proof. reflexivity. Qed.

Example test_get_role_not_found :
  answer GET ["api"; "roles"; "999999"] JUndefined =
  json 404 (error_json "Role not found" "No role found with ID 999999").
Proof. reflexivity. Qed.

Example test_get_role_invalid_id :
  answer GET ["api"; "roles"; "invalid"] JUndefined =
  json 400 (error_json "Invalid ID format" "ID must be a valid number").
Proof. reflexivity. Qed.

Example test_post_role_required_only :
  answer POST ["api"; "roles"]
    (JObj [("name", JStr "Minimal Role");
           ("short_description", JStr "Minimal description")]) =
  json 201 (JObj [("role",
    JObj [("id", of_Z 2); ("name", JStr "Minimal Role");
          ("short_description", JStr "Minimal description");
          ("long_description", JNull);
          ("responsibilities", JArr []); ("skills", JArr [])])]).
Proof. reflexivity. Qed.

Example test_post_role_missing_name :
  answer POST ["api"; "roles"]
    (JObj [("short_description", JStr "Description without name")]) =
  json 400 (error_json "Validation failed" "Required").
Proof. reflexivity. Qed.

Example test_post_resource :
  answer POST ["api"; "resources"] (resource_body 1 "Video") =
  json 201 (JObj [("resource",
    JObj [("id", of_Z 2); ("role_id", of_Z 1);
          ("title", JStr "Testing basics");
          ("url", JStr "https://example.com/testing");
          ("resource_type", JStr "Video"); ("difficulty", JStr "Beginner")])]).
Proof. reflexivity. Qed.

Example test_post_resource_role_not_found :
  answer POST ["api"; "resources"] (resource_body 999999 "Article") =
  json 404 (error_json "Role not found" "No role found with ID 999999").
Proof. reflexivity. Qed.

Example test_post_resource_invalid_type :
  answer POST ["api"; "resources"] (resource_body 1 "InvalidType") =
  json 400 (error_json "Validation failed"
              "Resource type must be one of: Video, Article, Course").
Proof. reflexivity. Qed.

Example test_post_resource_missing_fields :
  status (answer POST ["api"; "resources"]
            (JObj [("role_id", of_Z 1); ("title", JStr "Incomplete Resource")]))
  = 400.
Proof. reflexivity. Qed.

Example test_health :
  answer GET ["health"] JUndefined =
  json 200 (JObj [("status", JStr "ok"); ("message", JStr "Server is running")]).
Proof. reflexivity. Qed.

Example test_undefined_route :
  answer GET ["api"; "nonexistent"] JUndefined =
  json 404 (error_json "Not Found" "Route GET /api/nonexistent does not exist").
Proof. reflexivity. Qed.

End EndpointTests.

(** * The theorems at the worked examples *)

(** C1 at the sample store: a valid body for the missing role 999999 is
    answered 404 and changes nothing; a valid body for role 1 appends a row
    that references it; the store after one role creation keeps the
    foreign key. *)
Lemma post_resources_references_existing_role_witness :
  (status (fst (@post_resources sample_platform
                  (resource_body 999999 "Video") sample_db)) = 404 /\
   snd (@post_resources sample_platform
          (resource_body 999999 "Video") sample_db) = sample_db) /\
  (exists data row,
     safeParse (@CreateResourceSchema sample_platform)
       (resource_body 1 "Video") = Success data /\
     fst (roleExists (CreateResourceInput.role_id data) sample_db) = inr true /\
     resources (snd (@post_resources sample_platform
                       (resource_body 1 "Video") sample_db)) =
       (resources sample_db ++ [row])%list /\
     Resource.role_id row = CreateResourceInput.role_id data /\
     exists role, In role (roles sample_db) /\
                  Role.id role = Resource.role_id row) /\
  (forall r,
     In r (resources (snd (@app sample_platform
                             (mkRequest POST ["api"; "roles"] role_body)
                             migrated))) ->
     exists role,
       In role (roles (snd (@app sample_platform
                              (mkRequest POST ["api"; "roles"] role_body)
                              migrated))) /\
       Role.id role = Resource.role_id r).
Proof.
  destruct (@post_resources_references_existing_role sample_platform)
    as (Hinsert & Hmissing & _ & Hreach).
  split; [|split].
  - apply (Hmissing (resource_body 999999 "Video") sample_db
             (CreateResourceInput.make 999999 "Testing basics"
                "https://example.com/testing" Video Beginner));
      reflexivity.
  - apply (Hinsert (resource_body 1 "Video") sample_db).
    vm_compute. discriminate.
  - apply Hreach. apply reachable_request. apply reachable_migrated.
Defined.

(** C2 at two bodies that differ in their resource_type: 'Video' is
    accepted, 'Podcast' is answered 400. *)
Lemma resource_enumerations_fixed_witness :
  success (safeParse (@CreateResourceSchema sample_platform)
             (resource_body 1 "Video")) = true /\
  status (fst (@post_resources sample_platform
                 (resource_body 1 "Podcast") sample_db)) = 400 /\
  snd (@post_resources sample_platform
         (resource_body 1 "Podcast") sample_db) = sample_db.
Proof.
  destruct (@resource_enumerations_fixed sample_platform)
    as (_ & _ & Haccepts & _ & _ & Hrejects).
  split.
  - apply (Haccepts (resource_body 1 "Video")).
    + eexists. reflexivity.
    + exists (inject_Z 1). repeat split.
    + exists "Testing basics". repeat split; cbn; lia.
    + exists "https://example.com/testing". split; reflexivity.
    + split; [left; reflexivity|left; reflexivity].
  - apply Hrejects. left. intros [H|[H|H]]; discriminate H.
Defined.

(** C4 at the sample store: role 1 is referenced and cannot be deleted. *)
Lemma role_delete_restrict_witness :
  exists e, delete_from_roles 1 sample_db = (inl e, sample_db).
Proof.
  destruct (@role_delete_restrict sample_platform)
    as (_ & _ & _ & Hrestrict & _).
  apply (Hrestrict sample_db sample_role sample_resource).
  - now left.
  - now left.
  - reflexivity.
Defined.

(** X18 at the sample store: the four answers. *)
Lemma get_role_by_id_taxonomy_witness :
  status (fst (@get_role_by_id sample_platform "abc" sample_db)) = 400 /\
  status (fst (@get_role_by_id sample_platform "99999999999" sample_db)) = 500 /\
  status (fst (@get_role_by_id sample_platform "7" sample_db)) = 404 /\
  status (fst (@get_role_by_id sample_platform "1" sample_db)) = 200.
Proof.
  split; [|split; [|split]].
  - destruct (@get_role_by_id_taxonomy sample_platform "abc" sample_db)
      as (_ & _ & H & _).
    apply H. reflexivity.
  - destruct (@get_role_by_id_taxonomy sample_platform "99999999999" sample_db)
      as (_ & _ & _ & H).
    destruct (H eq_refl) as (H500 & _).
    apply H500. exists NumericValueOutOfRange. reflexivity.
  - destruct (@get_role_by_id_taxonomy sample_platform "7" sample_db)
      as (_ & _ & _ & H).
    destruct (H eq_refl) as (_ & H404 & _).
    apply (H404 7); [reflexivity|unfold INT4_MAX; lia|reflexivity].
  - destruct (@get_role_by_id_taxonomy sample_platform "1" sample_db)
      as (_ & _ & _ & H).
    destruct (H eq_refl) as (_ & _ & H200).
    destruct (H200 1) as (role & resources & Hresp & _);
      [reflexivity|unfold INT4_MAX; lia|reflexivity|].
    rewrite Hresp. reflexivity.
Defined.

(** The sample store is consistent. *)
Lemma consistent_sample_db : consistent sample_db.
Proof.
  split; simpl.
  - intros r [<-|[]]. simpl. lia.
  - intros r [<-|[]]. simpl. lia.
  - repeat constructor. intros [].
  - repeat constructor. intros [].
  - unfold INT4_MAX. lia.
  - unfold INT4_MAX. lia.
  - intros r [<-|[]]. reflexivity.
Defined.

(** C6 at the sample store: a role created with only its skills given. *)
Lemma createRole_then_getRoleById_witness :
  exists created db',
    createRole role_input sample_db = (inr created, db') /\
    getRoleById (Role.id created) db' =
      (inr (Some (RoleWithResources.make created [])), db') /\
    Role.name created = "Data Analyst" /\
    Role.short_description created = "Turn data into decisions" /\
    Role.long_description created = None /\
    Role.responsibilities created = Some [] /\
    Role.skills created = Some ["SQL"; "Statistics"].
Proof.
  apply (createRole_then_getRoleById role_body role_input sample_db).
  - reflexivity.
  - apply storable_existsb. reflexivity.
  - exact consistent_sample_db.
  - vm_compute. discriminate.
Defined.

(** C8 at the sample store: the 404 answer leaves the store as it was. *)
Lemma post_resources_atomic_on_error_witness :
  snd (@post_resources sample_platform
         (resource_body 999999 "Video") sample_db) = sample_db.
Proof.
  destruct (@post_resources_atomic_on_error sample_platform
              (resource_body 999999 "Video") sample_db)
    as (_ & _ & _ & H & _).
  apply H. right. reflexivity.
Defined.

(** C9 at the sample store: the role is created and answered 201. *)
Lemma post_roles_normalizes_omitted_witness :
  exists created db',
    createRole role_input sample_db = (inr created, db') /\
    status (fst (@post_roles sample_platform role_body sample_db)) = 201 /\
    In created (roles (snd (@post_roles sample_platform role_body sample_db))).
Proof.
  destruct (@post_roles_normalizes_omitted sample_platform role_body role_input
              sample_db eq_refl) as (_ & H & _).
  apply H.
  - apply storable_existsb. reflexivity.
  - exact consistent_sample_db.
  - vm_compute. discriminate.
Defined.

(** C10 at a list with one beginner resource: with 'Advanced' selected
    the message is shown, and on mount the resource is. *)
Lemma filter_is_pure_selection_witness :
  ResourceList.render
    (ResourceList.mkComponent [sample_resource] (ResourceList.Level Advanced)) =
  ResourceList.NoResourcesMessage "No resources available" /\
  exists item,
    ResourceList.render (ResourceList.mount [sample_resource]) =
      ResourceList.ResourceItems [item] /\
    ResourceList.key item = 1 /\
    ResourceList.title item = "Testing basics" /\
    ResourceList.url item = "https://example.com/testing" /\
    ResourceList.resource_type item = Video /\
    ResourceList.difficulty item = Beginner.
Proof.
  destruct (filter_is_pure_selection [sample_resource])
    as (_ & _ & _ & _ & _ & Hnone & Hsome).
  split; [apply Hnone; reflexivity|].
  destruct (Hsome (ResourceList.mount [sample_resource]))
    as (items & Hrender & Hitems); [discriminate|].
  inversion Hitems as [|resource item shown rest Hitem Hrest]; subst.
  inversion Hrest; subst.
  exists item. split; [exact Hrender|exact Hitem].
Defined.

(** * Further properties *)

(** ** Decimal ids *)

Lemma Number_from_string_of_uint d : forall acc,
  Number_from acc (NilEmpty.string_of_uint d) = uint_value acc d.
Proof.
  induction d; intros acc; cbn [NilEmpty.string_of_uint Number_from uint_value];
    try reflexivity; rewrite IHd; f_equal; cbn; lia.
Qed.

Lemma all_digits_string_of_uint d :
  all_digits (NilEmpty.string_of_uint d) = true.
Proof. induction d; simpl; auto. Qed.

Lemma uint_value_acc d : forall acc,
  uint_value (Zpos acc) d = Zpos (Pos.of_uint_acc d acc).
Proof.
  induction d; intros acc; cbn [uint_value Pos.of_uint_acc]; try reflexivity;
    rewrite <- IHd; f_equal; lia.
Qed.

Lemma uint_value_0 d : uint_value 0 d = Z.of_N (Pos.of_uint d).
Proof.
  induction d; cbn [uint_value Pos.of_uint]; try reflexivity;
    try exact IHd; cbn [Z.mul Z.add]; apply uint_value_acc.
Qed.

Lemma Z_to_string_pos p :
  Z_to_string (Zpos p) = NilEmpty.string_of_uint (Pos.to_uint p).
Proof.
  unfold Z_to_string. cbn [Z.to_int NilZero.string_of_int].
  unfold NilZero.string_of_uint.
  pose proof (DecimalPos.Unsigned.to_uint_nonnil p).
  destruct (Pos.to_uint p); congruence.
Qed.

Lemma Number_from_Z_to_string n : 0 <= n -> Number_from 0 (Z_to_string n) = n.
Proof.
  intros Hn. destruct n as [|p|p]; [reflexivity| |lia].
  rewrite Z_to_string_pos.
  rewrite Number_from_string_of_uint, uint_value_0.
  now rewrite DecimalPos.Unsigned.of_to.
Qed.

Lemma Number_Z_to_string n :
  0 <= n <= 9007199254740991 -> Number (Z_to_string n) = Finite n.
Proof.
  intros Hn. unfold Number. rewrite Number_from_Z_to_string by lia.
  apply to_double_exact. change (2 ^ 53) with 9007199254740992. lia.
Qed.

Lemma decimal_digits_Z_to_string n :
  decimal_digits (Z_to_string n) = (0 <=? n).
Proof.
  destruct n as [|p|p]; [reflexivity| |reflexivity].
  rewrite Z_to_string_pos. unfold decimal_digits.
  rewrite all_digits_string_of_uint, andb_true_r.
  pose proof (DecimalPos.Unsigned.to_uint_nonnil p).
  destruct (Pos.to_uint p); try congruence; reflexivity.
Qed.

(** X3. The id parameter schema accepts exactly the non-empty strings of
    decimal digits, and parses them to the number that [Number] reads: a
    non-negative integer or Infinity.  On the safe integers, up to
    9007199254740991, it inverts the decimal rendering: the rendering of
    such an integer is accepted and parsed back to that integer.  Past
    them the number is the nearest double, so that 9007199254740993 is
    parsed to 9007199254740992 and 9007199254740995 to 9007199254740996,
    and from 2^1024 on it is Infinity.  The rendering of a negative integer
    is rejected. *)
Theorem RoleIdParamSchema_decimal :
  (forall s,
     success (safeParse RoleIdParamSchema (JObj [("id", JStr s)])) = true <->
     decimal_digits s = true) /\
  (forall s id,
     safeParse RoleIdParamSchema (JObj [("id", JStr s)]) = Success id ->
     id = Infinity \/ exists n, id = Finite n /\ 0 <= n) /\
  (forall n,
     0 <= n <= 9007199254740991 ->
     safeParse RoleIdParamSchema (JObj [("id", JStr (Z_to_string n))]) =
       Success (Finite n)) /\
  safeParse RoleIdParamSchema (JObj [("id", JStr "9007199254740993")]) =
    Success (Finite 9007199254740992) /\
  safeParse RoleIdParamSchema (JObj [("id", JStr "9007199254740995")]) =
    Success (Finite 9007199254740996) /\
  (forall n,
     2 ^ 1024 <= n ->
     safeParse RoleIdParamSchema (JObj [("id", JStr (Z_to_string n))]) =
       Success Infinity) /\
  (forall n,
     n < 0 ->
     safeParse RoleIdParamSchema (JObj [("id", JStr (Z_to_string n))]) =
       Failure ["ID must be a valid number"]).
Proof.
  split; [|split; [|split; [|split; [|split; [|split]]]]].
  - intros s. rewrite RoleIdParamSchema_run.
    destruct (decimal_digits s); simpl; split; auto; discriminate.
  - intros s id. rewrite RoleIdParamSchema_run.
    destruct (decimal_digits s); [|discriminate].
    intros H. injection H as <-.
    pose proof (Number_digits_nonneg s) as H0. unfold Number.
    destruct (Z.ltb_spec (Number_from 0 s) (2 ^ 53)) as [Hlt|Hge].
    + right. exists (Number_from 0 s). split; [|exact H0].
      apply to_double_exact. lia.
    + destruct (to_double (Number_from 0 s)) as [v|] eqn:Hd; [|now left].
      right. exists v. split; [reflexivity|].
      apply to_double_large in Hd; [|exact Hge]. lia.
  - intros n Hn. rewrite RoleIdParamSchema_run, decimal_digits_Z_to_string.
    destruct Hn as [H0 Hmax]. apply Z.leb_le in H0. rewrite H0.
    apply Z.leb_le in H0. now rewrite Number_Z_to_string by lia.
  - reflexivity.
  - reflexivity.
  - intros n Hn. rewrite RoleIdParamSchema_run, decimal_digits_Z_to_string.
    assert (H0 : 0 <= n).
    { assert (0 < 2 ^ 1024) by (apply Z.pow_pos_nonneg; lia). lia. }
    apply Z.leb_le in H0. rewrite H0. apply Z.leb_le in H0.
    unfold Number. rewrite Number_from_Z_to_string by exact H0.
    now rewrite to_double_Infinity.
  - intros n Hn. rewrite RoleIdParamSchema_run, decimal_digits_Z_to_string.
    apply Z.leb_gt in Hn. now rewrite Hn.
Qed.

(** ** The data access functions, composed *)

Lemma insert_by_snoc {A} (key : A -> Z) a x s :
  key a <= key x -> insert_by key a (s ++ [x]) = (insert_by key a s ++ [x])%list.
Proof.
  intros Hle. induction s as [|y s IH]; simpl.
  - apply Z.leb_le in Hle. now rewrite Hle.
  - destruct (key a <=? key y); [reflexivity|]. now rewrite IH.
Qed.

Lemma order_by_snoc {A} (key : A -> Z) l x :
  (forall y, In y l -> key y <= key x) ->
  order_by key (l ++ [x]) = (order_by key l ++ [x])%list.
Proof.
  induction l as [|a l IH]; intros Hle; [reflexivity|].
  simpl. rewrite IH by (intros y Hy; apply Hle; now right).
  apply insert_by_snoc. apply Hle. now left.
Qed.

Lemma consistent_role_in_range db id :
  consistent db -> has_role db id = true -> int4_in_range id = true.
Proof.
  intros Hc H. apply has_role_In in H. destruct H as (r & Hin & <-).
  pose proof (roles_id_below db Hc r Hin).
  pose proof (roles_id_seq_range db Hc).
  apply int4_in_range_iff. unfold INT4_MIN, INT4_MAX in *. lia.
Qed.

Lemma getResourcesByRoleId_run roleId db :
  getResourcesByRoleId roleId db =
  if int4_in_range roleId
  then (inr (order_by Resource.id
               (filter (fun r => Resource.role_id r =? roleId) (resources db))),
        db)
  else (inl (int4_error roleId), db).
Proof.
  unfold getResourcesByRoleId, bind. rewrite int4_run.
  now destruct (int4_in_range roleId).
Qed.

Lemma createResource_succeeds data db :
  consistent db -> resources_id_seq db <= INT4_MAX ->
  (String.length (CreateResourceInput.title data) <= 255)%nat ->
  storable (resource_texts data) ->
  has_role db (CreateResourceInput.role_id data) = true ->
  createResource data db =
    (inr (resource_row (resources_id_seq db) data),
     mkDb (roles db)
       (resources db ++ [resource_row (resources_id_seq db) data])%list
       (roles_id_seq db) (resources_id_seq db + 1)).
Proof.
  intros Hc Hseq Hlen Hs Hrole.
  rewrite createResource_storable_run by assumption. cbv zeta.
  rewrite (consistent_role_in_range db _ Hc Hrole), Hrole.
  apply Z.leb_le in Hseq. rewrite Hseq.
  assert (Hf : has_resource db (resources_id_seq db) = false).
  { apply not_true_is_false. intros H. apply existsb_exists in H.
    destruct H as (r & Hin & Hid). apply Z.eqb_eq in Hid.
    pose proof (resources_id_below db Hc r Hin). lia. }
  rewrite Hf. reflexivity.
Qed.

(** X4. [createResource] and [getResourcesByRoleId] round-trip.  On a store
    that satisfies the schema and whose resources sequence is not exhausted,
    creating a resource with a title of at most 255 characters for a stored
    role, with no U+0000 in its title or url, returns a row with a new
    positive id that carries the given role_id, title, url, type and
    difficulty, and [getResourcesByRoleId] for that role then returns the
    resources it returned before followed by the new one.  A title or url
    that holds U+0000 makes [createResource] raise, for a role_id in the
    INTEGER range with the error of the encoding, and leaves the store as
    it was.  For a role that is not stored [createResource] raises and
    leaves both tables as they were. *)
Theorem createResource_then_getResourcesByRoleId
    (data : CreateResourceInput.t) (db : Db) :
  (consistent db ->
   resources_id_seq db <= INT4_MAX ->
   (String.length (CreateResourceInput.title data) <= 255)%nat ->
   storable (resource_texts data) ->
   has_role db (CreateResourceInput.role_id data) = true ->
   exists created db' before,
     createResource data db = (inr created, db') /\
     0 < Resource.id created /\
     has_resource db (Resource.id created) = false /\
     Resource.role_id created = CreateResourceInput.role_id data /\
     Resource.title created = CreateResourceInput.title data /\
     Resource.url created = CreateResourceInput.url data /\
     Resource.resource_type created = CreateResourceInput.resource_type data /\
     Resource.difficulty created = CreateResourceInput.difficulty data /\
     getResourcesByRoleId (CreateResourceInput.role_id data) db =
       (inr before, db) /\
     getResourcesByRoleId (CreateResourceInput.role_id data) db' =
       (inr (before ++ [created])%list, db')) /\
  (has_nul (CreateResourceInput.title data) = true \/
   has_nul (CreateResourceInput.url data) = true ->
   (exists e, createResource data db = (inl e, db)) /\
   (int4_in_range (CreateResourceInput.role_id data) = true ->
    createResource data db = (inl CharacterNotInRepertoire, db))) /\
  (has_role db (CreateResourceInput.role_id data) = false ->
   exists e db',
     createResource data db = (inl e, db') /\
     roles db' = roles db /\ resources db' = resources db).
Proof.
  split; [|split].
  - intros Hc Hseq Hlen Hs Hrole.
    pose proof (consistent_role_in_range db _ Hc Hrole) as Hr.
    eexists. eexists. eexists.
    split; [now apply createResource_succeeds|].
    rewrite !getResourcesByRoleId_run, Hr.
    cbn [resource_row Resource.id Resource.role_id Resource.title Resource.url
         Resource.resource_type Resource.difficulty resources].
    pose proof (resources_id_seq_range db Hc).
    split; [lia|]. split.
    { apply not_true_is_false. intros H'. apply existsb_exists in H'.
      destruct H' as (r & Hin & Hid). apply Z.eqb_eq in Hid.
      pose proof (resources_id_below db Hc r Hin). lia. }
    repeat (split; [reflexivity|]).
    rewrite filter_app. cbn [filter Resource.role_id]. rewrite Z.eqb_refl.
    rewrite order_by_snoc; [reflexivity|].
    intros y Hy. apply filter_In in Hy. destruct Hy as [Hy _].
    pose proof (resources_id_below db Hc y Hy). simpl. lia.
  - intros Hnul. rewrite createResource_run.
    assert (Hn : existsb has_nul (resource_texts data) = true).
    { unfold resource_texts. cbn [existsb].
      destruct Hnul as [-> | ->]; [reflexivity|].
      now rewrite orb_true_r. }
    rewrite Hn.
    destruct (int4_in_range _); cbn [negb]; split; eauto; discriminate.
  - intros Hrole. pose proof (createResource_effect data db) as He.
    destruct (createResource data db) as [[e|row] db'] eqn:Hcr.
    + destruct He as (? & ? & _). eauto.
    + destruct He as (-> & _ & _ & _ & Hr & _). simpl in Hr. congruence.
Qed.

Lemma createRole_consistent data db :
  consistent db -> consistent (snd (createRole data db)).
Proof.
  intros Hc. pose proof (createRole_effect data db) as He.
  destruct Hc as [Hr Hs Pr Ps Sr Ss Hfk].
  destruct (createRole data db) as [[e|row] db']; simpl.
  - destruct He as (H1 & H2 & H3 & H4 & H5).
    split; rewrite ?H1, ?H2, ?H5; auto; try lia.
    + intros r Hin. specialize (Hr r Hin). lia.
    + unfold references_existing, has_role in *. now rewrite H1, H2.
  - destruct He as (-> & H1 & H2 & Hn & Hm & H3 & H4).
    split; rewrite ?H1, ?H2, ?H3, ?H4; auto; try lia.
    + intros r Hin. apply in_app_or in Hin. destruct Hin as [Hin|[<-|[]]].
      * specialize (Hr r Hin). lia.
      * simpl. lia.
    + rewrite map_app. apply NoDup_snoc; [exact Pr|]. now apply has_role_false.
    + unfold references_existing, has_role in *. rewrite H1, H2.
      intros r Hin. rewrite existsb_app. apply orb_true_iff. left. now apply Hfk.
Qed.

Lemma createResource_consistent data db :
  consistent db -> consistent (snd (createResource data db)).
Proof.
  intros Hc. pose proof (createResource_effect data db) as He.
  destruct Hc as [Hr Hs Pr Ps Sr Ss Hfk].
  destruct (createResource data db) as [[e|row] db']; simpl.
  - destruct He as (H1 & H2 & H3 & H4 & H5).
    split; rewrite ?H1, ?H2, ?H5; auto; try lia.
    + intros r Hin. specialize (Hs r Hin). lia.
    + unfold references_existing, has_role in *. now rewrite H1, H2.
  - destruct He as (-> & H1 & H2 & Hn & Hrole & Hm & H3 & H4).
    split; rewrite ?H1, ?H2, ?H3, ?H4; auto; try lia.
    + intros r Hin. apply in_app_or in Hin. destruct Hin as [Hin|[<-|[]]].
      * specialize (Hs r Hin). lia.
      * simpl. lia.
    + rewrite map_app. apply NoDup_snoc; [exact Ps|]. now apply has_resource_false.
    + unfold references_existing, has_role in *. rewrite H1, H2.
      intros r Hin. apply in_app_or in Hin. destruct Hin as [Hin|[<-|[]]].
      * now apply Hfk.
      * exact Hrole.
Qed.

(** X5. [createRole] assigns a new id.  On a store that satisfies the schema
    and whose roles sequence is not exhausted, creating a role with a name
    of at most 255 characters and with no U+0000 in its texts returns a
    role whose id is positive and larger than every stored id;
    [roleExists] answers false for that id before and true after; the store
    still satisfies the schema; and the next role created gets the next
    id.  A text that holds U+0000 makes [createRole] raise.  A name of more
    than 255 characters is cut to 255 when the characters past them are all
    spaces, and the role is created under the name so cut; when one of them
    is not a space [createRole] raises.  Where it raises for a text or for
    the name, the store is left as it was, the sequence included. *)
Theorem createRole_assigns_new_id (data : CreateRoleInput.t) (db : Db) :
  (consistent db ->
   roles_id_seq db <= INT4_MAX ->
   (String.length (CreateRoleInput.name data) <= 255)%nat ->
   storable (role_texts data) ->
   exists created db',
     createRole data db = (inr created, db') /\
     0 < Role.id created /\
     (forall r, In r (roles db) -> Role.id r < Role.id created) /\
     roleExists (Role.id created) db = (inr false, db) /\
     roleExists (Role.id created) db' = (inr true, db') /\
     consistent db' /\
     forall data' created' db'',
       createRole data' db' = (inr created', db'') ->
       Role.id created' = Role.id created + 1) /\
  (~ storable (role_texts data) ->
   createRole data db = (inl CharacterNotInRepertoire, db)) /\
  (storable (role_texts data) ->
   (255 < String.length (CreateRoleInput.name data))%nat ->
   let rest :=
     substring 255 (String.length (CreateRoleInput.name data) - 255)
       (CreateRoleInput.name data) in
   (all_spaces rest = false ->
    createRole data db = (inl StringDataRightTruncation, db)) /\
   (all_spaces rest = true ->
    consistent db -> roles_id_seq db <= INT4_MAX ->
    exists created db',
      createRole data db = (inr created, db') /\
      Role.id created = roles_id_seq db /\
      Role.name created = substring 0 255 (CreateRoleInput.name data) /\
      roles db' = (roles db ++ [created])%list)).
Proof.
  split; [|split].
  - intros Hc Hseq Hlen Hs.
    pose proof (createRole_succeeds data db Hc Hseq Hlen Hs) as Hcr.
    pose proof (createRole_consistent data db Hc) as Hc'. rewrite Hcr in Hc'.
    simpl in Hc'.
    eexists. eexists. split; [exact Hcr|].
    cbn [role_row Role.id].
    pose proof (roles_id_seq_range db Hc) as Hrange.
    assert (Hin : int4_in_range (roles_id_seq db) = true).
    { apply int4_in_range_iff. unfold INT4_MIN, INT4_MAX in *. lia. }
    split; [lia|]. split.
    { intros r Hr. pose proof (roles_id_below db Hc r Hr). lia. }
    rewrite !roleExists_run, Hin, (consistent_fresh db Hc).
    split; [reflexivity|]. split.
    { f_equal. f_equal. unfold has_role. simpl. rewrite existsb_app. simpl.
      rewrite Z.eqb_refl. apply orb_true_iff. right. reflexivity. }
    split; [exact Hc'|].
    intros data' created' db'' H.
    match type of H with createRole _ ?d = _ =>
      pose proof (createRole_effect data' d) as He end.
    rewrite H in He. destruct He as (-> & _). reflexivity.
  - intros Hs. rewrite createRole_run.
    destruct (existsb has_nul (role_texts data)) eqn:Hn; [reflexivity|].
    exfalso. apply Hs. now apply storable_existsb.
  - intros Hs Hlong rest. subst rest. rewrite createRole_run.
    apply storable_existsb in Hs. rewrite Hs. unfold fitted.
    assert (Hl : (String.length (CreateRoleInput.name data) <=? 255)%nat = false)
      by (apply Nat.leb_gt; exact Hlong).
    rewrite Hl. split; intros Hrest; rewrite Hrest; [reflexivity|].
    intros Hc Hseq. cbv zeta.
    apply Z.leb_le in Hseq. rewrite Hseq, (consistent_fresh db Hc).
    cbn [negb]. eexists. eexists. split; [reflexivity|].
    cbn [Role.id Role.name roles]. repeat split.
Qed.


(** ** The handlers, composed *)

Section Served.
Context {platform : Platform}.

Lemma CreateResourceSchema_success req_body data :
  safeParse CreateResourceSchema req_body = Success data ->
  (String.length (CreateResourceInput.title data) <= 255)%nat /\
  0 < CreateResourceInput.role_id data.
Proof.
  intros H. apply safeParse_success in H. destruct H as [He Hv].
  unfold CreateResourceSchema, z_object in He, Hv.
  destruct req_body; try discriminate.
  apply ap_errors in He. destruct He as [He _].
  apply ap_errors in He. destruct He as [He _].
  apply ap_errors in He. destruct He as [He _].
  apply ap_errors in He. destruct He as [He Hti].
  apply ap_errors in He. destruct He as [_ Hr].
  apply ap_value in Hv. destruct Hv as (g5 & d & Hv & _ & ->).
  apply ap_value in Hv. destruct Hv as (g4 & t & Hv & _ & ->).
  apply ap_value in Hv. destruct Hv as (g3 & u & Hv & _ & ->).
  apply ap_value in Hv. destruct Hv as (g2 & ti & Hv & Htiv & ->).
  apply ap_value in Hv. destruct Hv as (g1 & r & Hv & Hrv & ->).
  injection Hv as <-.
  cbn [CreateResourceInput.title CreateResourceInput.role_id].
  split.
  - apply name_schema_accepts in Hti. destruct Hti as (s & Hs & [_ Hmax] & _).
    erewrite name_schema_value in Htiv by exact Hs. now injection Htiv as <-.
  - apply role_id_schema_accepts in Hr. destruct Hr as (q & Hq & Hi & Hp).
    rewrite Hq in Hrv. cbn -[toZ] in Hrv. injection Hrv as <-.
    unfold toZ. unfold isInteger in Hi. apply Z.eqb_eq in Hi.
    apply Z.div_str_pos. split; [lia|].
    apply Z.mod_divide in Hi; [|lia].
    apply Z.divide_pos_le in Hi; lia.
Qed.

(** X7. POST /api/roles validates before it touches the store.  It answers
    400, 201 or 500; 400 exactly when validation of the body fails, and then
    the store is as it was; 201 only after [createRole] has returned the
    role, which is sent under [role], property by property, and is the one
    row appended to [roles]; on 500 both tables are as they were.  A body
    that validation accepts and one of whose texts holds U+0000 is answered
    500, the store left as it was.  On a store that satisfies the schema
    and whose roles sequence is not exhausted, a body with no such text is
    never answered 500. *)
Theorem post_roles_validates_first (req_body : JsValue) (db : Db) :
  let response := fst (post_roles req_body db) in
  let db' := snd (post_roles req_body db) in
  (status response = 400 \/ status response = 201 \/ status response = 500) /\
  (status response = 400 <->
     success (safeParse CreateRoleSchema req_body) = false) /\
  (status response = 400 -> db' = db) /\
  (status response = 201 ->
     exists data created,
       safeParse CreateRoleSchema req_body = Success data /\
       createRole data db = (inr created, db') /\
       Routes.body response = JObj [("role", JObj (role_properties created))] /\
       roles db' = (roles db ++ [created])%list /\
       resources db' = resources db) /\
  (status response = 500 ->
     roles db' = roles db /\ resources db' = resources db) /\
  (forall data,
     safeParse CreateRoleSchema req_body = Success data ->
     ~ storable (role_texts data) ->
     status response = 500 /\ db' = db) /\
  (forall data,
     safeParse CreateRoleSchema req_body = Success data ->
     storable (role_texts data) ->
     consistent db -> roles_id_seq db <= INT4_MAX -> status response <> 500).
Proof.
  cbv zeta. rewrite post_roles_run.
  destruct (safeParse CreateRoleSchema req_body) as [data|messages] eqn:Hp; simpl.
  - pose proof (createRole_effect data db) as He.
    assert (Hnul : forall data0, Success data = Success data0 ->
              ~ storable (role_texts data0) ->
              createRole data db = (inl CharacterNotInRepertoire, db)).
    { intros data0 [= <-] Hs. rewrite createRole_run.
      destruct (existsb has_nul (role_texts data)) eqn:Hn; [reflexivity|].
      exfalso. apply Hs. now apply storable_existsb. }
    destruct (createRole data db) as [[e|created] db'] eqn:Hc; simpl.
    + destruct He as (H1 & H2 & _).
      split; [tauto|]. split; [split; discriminate|].
      split; [discriminate|]. split; [discriminate|]. split; [auto|].
      split.
      * intros data0 H0 Hs. specialize (Hnul data0 H0 Hs).
        injection Hnul as _ <-. now split.
      * intros data0 [= <-] Hs Hcons Hseq. apply CreateRoleSchema_success in Hp.
        destruct Hp as (_ & Hlen & _).
        rewrite (createRole_succeeds data db Hcons Hseq Hlen Hs) in Hc.
        discriminate.
    + destruct He as (_ & H1 & H2 & _).
      split; [tauto|]. split; [split; discriminate|].
      split; [discriminate|]. split; [eauto 8|]. split; [discriminate|].
      split; [|discriminate].
      intros data0 H0 Hs. specialize (Hnul data0 H0 Hs). discriminate.
  - split; [tauto|]. split; [tauto|]. split; [reflexivity|].
    split; [discriminate|]. split; [discriminate|].
    split; [intros data0 H0; discriminate|discriminate].
Qed.

Lemma app_post_roles req_body db :
  app (mkRequest POST ["api"; "roles"] req_body) db = post_roles req_body db.
Proof. now rewrite app_not_HEAD by discriminate. Qed.

Lemma app_post_resources req_body db :
  app (mkRequest POST ["api"; "resources"] req_body) db =
  post_resources req_body db.
Proof. now rewrite app_not_HEAD by discriminate. Qed.

Lemma app_get_roles req_body db :
  app (mkRequest GET ["api"; "roles"] req_body) db = get_roles db.
Proof. now rewrite app_not_HEAD by discriminate. Qed.

Lemma app_get_role id req_body db :
  id <> "" ->
  app (mkRequest GET ["api"; "roles"; id] req_body) db = get_role_by_id id db.
Proof.
  intros Hid. rewrite app_not_HEAD by discriminate.
  unfold handle, router, role_id_param.
  cbn [method path path_eqb segment_eqb lower].
  apply String.eqb_neq in Hid. cbn -[String.eqb]. rewrite Hid. reflexivity.
Qed.

Lemma Z_to_string_not_empty n : 0 <= n -> Z_to_string n <> "".
Proof.
  intros Hn He. pose proof (decimal_digits_Z_to_string n) as Hd.
  rewrite He in Hd. apply Z.leb_le in Hn. rewrite Hn in Hd. discriminate.
Qed.

Lemma get_role_by_id_decimal n db :
  0 <= n <= 9007199254740991 ->
  get_role_by_id (Z_to_string n) db =
  match fst (getRoleById n db) with
  | inl e => (json 500 (error_json "Failed to fetch role" (pg_message e)), db)
  | inr None =>
      (json 404 (error_json "Role not found"
                   ("No role found with ID " ++ Z_to_string n)), db)
  | inr (Some role) =>
      (json 200 (JObj [("role", json_of_role_with_resources role)]), db)
  end.
Proof.
  intros Hn. rewrite get_role_by_id_run, RoleIdParamSchema_run.
  rewrite decimal_digits_Z_to_string.
  destruct Hn as [H0 Hmax]. apply Z.leb_le in H0. rewrite H0.
  apply Z.leb_le in H0. now rewrite Number_Z_to_string by lia.
Qed.

Lemma get_roles_run db :
  get_roles db =
  (json 200 (JObj [("roles",
     JArr (map json_of_summary (map summary (order_by Role.id (roles db)))))]),
   db).
Proof. reflexivity. Qed.

(** X8. A role created through the API is served by it.  On a store that
    satisfies the schema and whose roles sequence is not exhausted, POST
    /api/roles with a body that validation accepts and that holds no
    U+0000 answers 201 with the created role; GET /api/roles/:id for the
    decimal rendering of its id then answers 200 with the properties of
    that role and an empty resources list, and GET /api/roles lists what it
    listed before followed by the id, name and short_description of the new
    role. *)
Theorem created_role_is_served
    (req_body : JsValue) (data : CreateRoleInput.t) (db : Db) :
  consistent db ->
  roles_id_seq db <= INT4_MAX ->
  safeParse CreateRoleSchema req_body = Success data ->
  storable (role_texts data) ->
  exists created db' listed,
    app (mkRequest POST ["api"; "roles"] req_body) db =
      (mkResponse 201 (JObj [("role", JObj (role_properties created))]), db') /\
    (forall b,
       app (mkRequest GET ["api"; "roles"; Z_to_string (Role.id created)] b) db' =
         (mkResponse 200
            (JObj [("role",
                    JObj (role_properties created ++
                          [("resources", JArr [])])%list)]),
          db')) /\
    (forall b,
       app (mkRequest GET ["api"; "roles"] b) db =
         (mkResponse 200 (JObj [("roles", JArr listed)]), db)) /\
    (forall b,
       app (mkRequest GET ["api"; "roles"] b) db' =
         (mkResponse 200
            (JObj [("roles",
                    JArr (listed ++
                          [JObj [("id", of_Z (Role.id created));
                                 ("name", JStr (Role.name created));
                                 ("short_description",
                                  JStr (Role.short_description created))]])%list)]),
          db')).
Proof.
  intros Hc Hseq Hp Hs.
  pose proof (CreateRoleSchema_success _ _ Hp) as (_ & Hlen & _).
  pose proof (createRole_succeeds data db Hc Hseq Hlen Hs) as Hcr.
  pose proof (createRole_consistent data db Hc) as Hc'. rewrite Hcr in Hc'.
  simpl in Hc'.
  pose proof (roles_id_seq_range db Hc) as Hrange.
  eexists. eexists. eexists.
  split; [rewrite app_post_roles, post_roles_run, Hp, Hcr; reflexivity|].
  cbn [role_row Role.id].
  split; [|split].
  - intros b. rewrite app_get_role by (apply Z_to_string_not_empty; lia).
    rewrite get_role_by_id_decimal by (unfold INT4_MAX in *; lia).
    rewrite getRoleById_run_Z. cbn [roles resources].
    assert (Hr : int4_in_range (roles_id_seq db) = true).
    { apply int4_in_range_iff. unfold INT4_MIN, INT4_MAX in *. lia. }
    rewrite Hr, filter_app. rewrite (filter_none _ (roles db)).
    2:{ intros x Hx. apply Z.eqb_neq. pose proof (roles_id_below db Hc x Hx). lia. }
    cbn [filter List.app Role.id role_row]. rewrite Z.eqb_refl.
    rewrite (filter_none _ (resources db)); [reflexivity|].
    intros x Hx. apply Z.eqb_neq. intros Hid.
    pose proof (resources_role_id_fkey db Hc x Hx) as Hfk.
    apply has_role_In in Hfk. destruct Hfk as (role & Hin & Hrid).
    pose proof (roles_id_below db Hc role Hin). lia.
  - intros b. rewrite app_get_roles, get_roles_run. reflexivity.
  - intros b. rewrite app_get_roles, get_roles_run. cbn [roles].
    rewrite order_by_snoc.
    + now rewrite !map_app.
    + intros y Hy. pose proof (roles_id_below db Hc y Hy). simpl. lia.
Qed.

(** X9. A resource created through the API is served with its role.  On a
    store that satisfies the schema and whose resources sequence is not
    exhausted, POST /api/resources with a body that validation accepts and
    that holds no U+0000, for a stored role, answers 201 with the created
    resource; GET /api/roles/:id for that role answers 200 before and
    after, with the same role, and with the resources it listed before
    followed by the new one. *)
Theorem created_resource_is_served
    (req_body : JsValue) (data : CreateResourceInput.t) (db : Db) :
  consistent db ->
  resources_id_seq db <= INT4_MAX ->
  safeParse CreateResourceSchema req_body = Success data ->
  storable (resource_texts data) ->
  has_role db (CreateResourceInput.role_id data) = true ->
  let id_param := Z_to_string (CreateResourceInput.role_id data) in
  exists created db' role listed,
    app (mkRequest POST ["api"; "resources"] req_body) db =
      (mkResponse 201 (JObj [("resource", resource_object created)]), db') /\
    created = resource_row (resources_id_seq db) data /\
    (forall b,
       app (mkRequest GET ["api"; "roles"; id_param] b) db =
         (mkResponse 200
            (JObj [("role",
                    JObj (role_properties role ++
                          [("resources",
                            JArr (map resource_object listed))])%list)]),
          db)) /\
    (forall b,
       app (mkRequest GET ["api"; "roles"; id_param] b) db' =
         (mkResponse 200
            (JObj [("role",
                    JObj (role_properties role ++
                          [("resources",
                            JArr (map resource_object
                                    (listed ++ [created])))])%list)]),
          db')).
Proof.
  intros Hc Hseq Hp Hs Hrole id_param. subst id_param.
  pose proof (CreateResourceSchema_success _ _ Hp) as [Hlen Hpos].
  pose proof (createResource_succeeds data db Hc Hseq Hlen Hs Hrole) as Hcr.
  pose proof (consistent_role_in_range db _ Hc Hrole) as Hr.
  assert (Hmax : CreateResourceInput.role_id data <= 9007199254740991).
  { apply int4_in_range_iff in Hr. unfold INT4_MAX in Hr. lia. }
  pose proof Hrole as Hf. unfold has_role in Hf.
  destruct (filter (fun r => Role.id r =? CreateResourceInput.role_id data)
              (roles db)) as [|role rest] eqn:Hfilter.
  { apply existsb_filter_nil in Hfilter. congruence. }
  exists (resource_row (resources_id_seq db) data). eexists. exists role. eexists.
  split.
  { rewrite app_post_resources, post_resources_run, Hp, roleExists_run, Hr.
    simpl. rewrite Hrole, Hcr. unfold json.
    now rewrite json_of_resource_object. }
  split; [reflexivity|]. split.
  - intros b. rewrite app_get_role by (apply Z_to_string_not_empty; lia).
    rewrite get_role_by_id_decimal by lia.
    rewrite getRoleById_run_Z, Hr, Hfilter. cbn [fst]. unfold json.
    now rewrite json_of_role_with_resources_properties.
  - intros b. rewrite app_get_role by (apply Z_to_string_not_empty; lia).
    rewrite get_role_by_id_decimal by lia.
    rewrite getRoleById_run_Z, Hr. cbn [roles resources]. rewrite Hfilter.
    rewrite filter_app. cbn [filter resource_row Resource.role_id].
    rewrite Z.eqb_refl. rewrite order_by_snoc.
    + cbn [fst]. unfold json.
      now rewrite json_of_role_with_resources_properties.
    + intros y Hy. apply filter_In in Hy. destruct Hy as [Hy _].
      pose proof (resources_id_below db Hc y Hy). simpl. lia.
Qed.

End Served.

(** ** Every answer of the application *)

Section Answers.
Context {platform : Platform}.

Ltac answer_error :=
  unfold handled; cbn [fst snd status Routes.body json];
  split; [cbn [In]; tauto|];
  split; [intros _; eexists; eexists; split; [reflexivity|discriminate]|];
  split; [intros ?; exfalso; lia|];
  split; [intros ?; exfalso; lia|];
  split; [intros _; tables|]; try (intros _ _; reflexivity).

Ltac answer_success :=
  unfold handled; cbn [fst snd status Routes.body json];
  split; [cbn [In]; tauto|];
  split; [intros ?; exfalso; lia|];
  split; [intros _; reflexivity|];
  split; [first [intros ?; exfalso; lia | intros _; assumption]|];
  split; [first [intros ?; exfalso; lia | intros _; tables]|];
  first [intros ?; exfalso; lia | intros _ _; reflexivity].

Lemma get_role_by_id_answers req id_param db :
  handled req db (get_role_by_id id_param db).
Proof.
  rewrite get_role_by_id_run.
  destruct (safeParse RoleIdParamSchema _) as [id|messages]; [|answer_error].
  destruct (fst (getRoleById id db)) as [e|[role|]]; try answer_error.
  answer_success.
Qed.

Lemma post_roles_answers req db :
  method req = POST -> handled req db (post_roles (Server.body req) db).
Proof.
  intros Hm. rewrite post_roles_run.
  destruct (safeParse CreateRoleSchema _) as [data|messages]; [|answer_error].
  pose proof (createRole_effect data db) as He.
  destruct (createRole data db) as [[e|created] db'].
  - destruct He as (? & ? & _). answer_error.
    intros _ Hs. exfalso. apply Hs. reflexivity.
  - answer_success.
Qed.

Lemma post_resources_answers req db :
  method req = POST -> handled req db (post_resources (Server.body req) db).
Proof.
  intros Hm. rewrite post_resources_run.
  destruct (safeParse CreateResourceSchema _) as [data|messages]; [|answer_error].
  destruct (fst (roleExists _ db)) as [e|[|]]; try answer_error.
  pose proof (createResource_effect data db) as He.
  destruct (createResource data db) as [[e|created] db'].
  - destruct He as (? & ? & _). answer_error.
    intros _ Hs. exfalso. apply Hs. reflexivity.
  - answer_success.
Qed.

Lemma router_method req :
  match router req with
  | Preflight => method req = OPTIONS
  | PostRoles | PostResources => method req = POST
  | GetRoles | GetRoleById _ | Health | Root =>
      method req = GET \/ method req = HEAD
  | NotFound => method req <> OPTIONS
  end.
Proof.
  unfold router. destruct (method req); try reflexivity; try discriminate;
    repeat match goal with
           | |- context [if ?b then _ else _] => destruct b
           | |- context [match ?p with Some _ => _ | None => _ end] => destruct p
           end; try discriminate; tauto.
Qed.

Lemma handle_handled (req : Request) (db : Db) :
  handled req db (handle req db) /\
  (status (fst (handle req db)) = 204 <-> method req = OPTIONS) /\
  (method req = PUT \/ method req = PATCH \/ method req = DELETE ->
   status (fst (handle req db)) = 404).
Proof.
  pose proof (router_method req) as Hm. unfold handle.
  destruct (router req) eqn:Hr;
    unfold preflight, health, root, not_found; try rewrite get_roles_run.
  - split; [answer_success|]. split; [tauto|].
    rewrite Hm. intros [H|[H|H]]; discriminate.
  - split; [answer_success|]. split.
    + split; [discriminate|]. intros H. rewrite H in Hm. destruct Hm; discriminate.
    + intros [H|[H|H]]; rewrite H in Hm; destruct Hm; discriminate.
  - split; [apply get_role_by_id_answers|]. split.
    + split.
      * rewrite get_role_by_id_run.
        destruct (safeParse RoleIdParamSchema _) as [n|messages]; [|discriminate].
        destruct (fst (getRoleById n db)) as [e|[role|]]; discriminate.
      * intros H. rewrite H in Hm. destruct Hm; discriminate.
    + intros [H|[H|H]]; rewrite H in Hm; destruct Hm; discriminate.
  - split; [now apply post_roles_answers|]. split.
    + split.
      * rewrite post_roles_run.
        destruct (safeParse CreateRoleSchema _) as [data|messages]; [|discriminate].
        destruct (createRole data db) as [[e|created] db']; discriminate.
      * intros H. rewrite H in Hm. discriminate.
    + intros [H|[H|H]]; rewrite H in Hm; discriminate.
  - split; [now apply post_resources_answers|]. split.
    + split.
      * rewrite post_resources_run.
        destruct (safeParse CreateResourceSchema _) as [data|messages]; [|discriminate].
        destruct (fst (roleExists _ db)) as [e|[|]]; try discriminate.
        destruct (createResource data db) as [[e|created] db']; discriminate.
      * intros H. rewrite H in Hm. discriminate.
    + intros [H|[H|H]]; rewrite H in Hm; discriminate.
  - split; [answer_success|]. split.
    + split; [discriminate|]. intros H. rewrite H in Hm. destruct Hm; discriminate.
    + intros [H|[H|H]]; rewrite H in Hm; destruct Hm; discriminate.
  - split; [answer_success|]. split.
    + split; [discriminate|]. intros H. rewrite H in Hm. destruct Hm; discriminate.
    + intros [H|[H|H]]; rewrite H in Hm; destruct Hm; discriminate.
  - split; [answer_error|]. split.
    + split; [discriminate|]. intros H. contradiction.
    + reflexivity.
Qed.

Lemma handle_HEAD req db :
  method req = HEAD ->
  status (fst (handle req db)) =
    status (fst (handle (mkRequest GET (path req) (Server.body req)) db)) /\
  snd (handle req db) =
    snd (handle (mkRequest GET (path req) (Server.body req)) db).
Proof.
  intros Hm. unfold handle, router. cbn [method path Server.body]. rewrite Hm.
  destruct (path_eqb (path req) ["api"; "roles"]); [now split|].
  destruct (role_id_param (path req)); [now split|].
  destruct (path_eqb (path req) ["health"]); [now split|].
  destruct (path_eqb (path req) []); now split.
Qed.

(** X10. Every answer the application gives to a request whose body
    [express.json()] has parsed, and whose path holds no percent-escape,
    has one of the statuses 200, 201, 204, 400, 404 and 500.  The answer to a HEAD request has no body, and has the
    status of the answer to the GET request for the same path.  To any
    other request, an answer with a status from 400 on is
    [{ error, details }] with a non-empty [error]; one below 400 has no
    [error] field.  201 is given to a POST only; 204 exactly to OPTIONS;
    PUT, PATCH and DELETE are always answered 404.  Unless the status is
    201 both tables are as they were, and unless it is 201 or 500 the whole
    store is. *)
Theorem app_answers (req : Request) (db : Db) :
  answers req db (app req db) /\
  (status (fst (app req db)) = 204 <-> method req = OPTIONS) /\
  (method req = PUT \/ method req = PATCH \/ method req = DELETE ->
   status (fst (app req db)) = 404) /\
  (method req = HEAD ->
   status (fst (app req db)) =
     status (fst (app (mkRequest GET (path req) (Server.body req)) db)) /\
   snd (app req db) =
     snd (app (mkRequest GET (path req) (Server.body req)) db)).
Proof.
  destruct (handle_handled req db) as (Hh & H204 & H404).
  pose proof (handle_HEAD req db) as Hhead.
  rewrite !app_status, !app_snd.
  split; [|split; [exact H204|split; [exact H404|exact Hhead]]].
  unfold answers, handled in *. rewrite app_status, app_snd.
  destruct Hh as (Hin & Herr & Hok & H201 & Htab & Hdb).
  split; [exact Hin|].
  split.
  { intros Hm. unfold app. destruct (handle req db) as [response db'].
    now rewrite Hm. }
  split.
  { intros Hm. rewrite (app_not_HEAD req db Hm). exact Herr. }
  split; [|split; [exact H201|split; [exact Htab|exact Hdb]]].
  intros Hs. unfold app. destruct (handle req db) as [response db'].
  destruct (method req); try (apply Hok; exact Hs); reflexivity.
Qed.

End Answers.

(** ** The seed script *)

Lemma references_nil db id : resources db = [] -> references db id = false.
Proof. unfold references. now intros ->. Qed.

Lemma existsb_const_false {A} (l : list A) : existsb (fun _ => false) l = false.
Proof. induction l; auto. Qed.

Lemma clear_run db : Seed.clear db = (inr tt, migrated).
Proof.
  unfold Seed.clear, Seed.delete_all_resources, Seed.delete_all_roles,
    Seed.restart_roles_id_seq, Seed.restart_resources_id_seq,
    bind, get_db, put_db, references.
  cbn [roles resources roles_id_seq resources_id_seq existsb].
  now rewrite existsb_const_false.
Qed.

Lemma referenced_role db :
  existsb (fun r => references db (Role.id r)) (roles db) = true <->
  exists role resource,
    In role (roles db) /\ In resource (resources db) /\
    Resource.role_id resource = Role.id role.
Proof.
  rewrite existsb_exists. split.
  - intros (role & Hin & Href). apply existsb_exists in Href.
    destruct Href as (resource & Hr & Heq). apply Z.eqb_eq in Heq. eauto.
  - intros (role & resource & Hin & Hr & Heq). exists role. split; [easy|].
    apply existsb_exists. exists resource. split; [easy|]. now apply Z.eqb_eq.
Qed.

(** X11. The seed script clears the tables in the order the schema needs.
    Whatever the store holds, the four clearing statements run to their end
    and leave the store of a fresh migration: both tables empty and both
    sequences at 1.  [DELETE FROM roles] run first, with the resources
    still there, fails exactly when some resource references a stored role,
    and then leaves the store as it was; otherwise it empties [roles] and
    keeps the rest. *)
Theorem seed_clears_resources_first (db : Db) :
  Seed.clear db = (inr tt, migrated) /\
  (fst (Seed.delete_all_roles db) = inl ForeignKeyViolation <->
   exists role resource,
     In role (roles db) /\ In resource (resources db) /\
     Resource.role_id resource = Role.id role) /\
  (fst (Seed.delete_all_roles db) = inl ForeignKeyViolation ->
   snd (Seed.delete_all_roles db) = db) /\
  (fst (Seed.delete_all_roles db) <> inl ForeignKeyViolation ->
   Seed.delete_all_roles db =
     (inr tt, mkDb [] (resources db) (roles_id_seq db) (resources_id_seq db))).
Proof.
  split; [apply clear_run|].
  rewrite <- referenced_role.
  unfold Seed.delete_all_roles, bind, get_db, put_db, raise.
  destruct (existsb _ (roles db)); cbn [fst snd].
  - split; [tauto|]. split; [reflexivity|]. intros H. now contradiction H.
  - split; [split; discriminate|]. split; [discriminate|]. reflexivity.
Qed.

Lemma seed_run db : Seed.seed db = Seed.seed migrated.
Proof.
  unfold Seed.seed, Seed.script, Seed.then_, Seed.query.
  now rewrite !clear_run.
Qed.

(** The store the seed script leaves. *)
Lemma seed_migrated :
  fst (Seed.seed migrated) = 0 /\
  map Role.id (roles (snd (Seed.seed migrated))) = [1; 2; 3; 4; 5] /\
  map Role.name (roles (snd (Seed.seed migrated))) =
    map Seed.name Seed.SAMPLE_ROLES /\
  map Resource.id (resources (snd (Seed.seed migrated))) =
    [1; 2; 3; 4; 5; 6; 7; 8; 9; 10; 11; 12; 13; 14; 15; 16; 17; 18; 19; 20] /\
  map Resource.title (resources (snd (Seed.seed migrated))) =
    map Seed.title Seed.SAMPLE_RESOURCES /\
  map Resource.role_id (resources (snd (Seed.seed migrated))) =
    [1; 1; 1; 1; 2; 2; 2; 2; 3; 3; 3; 3; 4; 4; 4; 4; 5; 5; 5; 5] /\
  roles_id_seq (snd (Seed.seed migrated)) = 6 /\
  resources_id_seq (snd (Seed.seed migrated)) = 21.
Proof. vm_compute. repeat split. Qed.

Lemma consistent_seeded : consistent (snd (Seed.seed migrated)).
Proof.
  pose proof seed_migrated as H.
  remember (snd (Seed.seed migrated)) as db' eqn:E. clear E.
  destruct H as (_ & Hid & _ & Hrid & _ & Hrole & Hs1 & Hs2).
  constructor.
  - intros r Hr. apply (in_map Role.id) in Hr. rewrite Hid in Hr.
    rewrite Hs1. simpl in Hr. lia.
  - intros r Hr. apply (in_map Resource.id) in Hr. rewrite Hrid in Hr.
    rewrite Hs2. simpl in Hr. lia.
  - rewrite Hid. repeat (apply NoDup_cons; [simpl; lia|]). apply NoDup_nil.
  - rewrite Hrid. repeat (apply NoDup_cons; [simpl; lia|]). apply NoDup_nil.
  - rewrite Hs1. unfold INT4_MAX. lia.
  - rewrite Hs2. unfold INT4_MAX. lia.
  - intros r Hr. apply (in_map Resource.role_id) in Hr. rewrite Hrole in Hr.
    unfold has_role. apply existsb_exists.
    assert (Hin : In (Resource.role_id r) (map Role.id (roles db'))).
    { rewrite Hid. simpl in Hr. simpl. lia. }
    apply in_map_iff in Hin. destruct Hin as (role & Heq & Hin).
    exists role. split; [easy|]. now apply Z.eqb_eq.
Qed.

(** X12. The seed script rebuilds the same catalog from any store.
    Whatever the store holds, [seed] exits with status 0 and leaves the
    store it leaves from a fresh migration, so a second run changes
    nothing.  In that store the roles are the sample roles in their order
    with the ids 1, 2, ...; the resources are the sample resources in their
    order with the ids 1, 2, ..., each under the role its [role_name]
    names; every role has at least three resources; and the store
    satisfies the constraints of the schema. *)
Theorem seed_rebuilds_the_catalog (db : Db) :
  let db' := snd (Seed.seed db) in
  fst (Seed.seed db) = 0 /\
  db' = snd (Seed.seed migrated) /\
  Seed.seed db' = (0, db') /\
  roles db' = map sample_role_row (numbered 1 Seed.SAMPLE_ROLES) /\
  Forall2 (sample_resource_row db')
    (numbered 1 Seed.SAMPLE_RESOURCES) (resources db') /\
  (forall role,
     In role (roles db') -> (3 <= List.length (resources_of db' role))%nat) /\
  consistent db'.
Proof.
  cbv zeta. rewrite (seed_run (snd (Seed.seed db))), (seed_run db).
  destruct seed_migrated as (Hexit & Hid & _).
  split; [exact Hexit|]. split; [reflexivity|].
  split; [rewrite <- Hexit; apply surjective_pairing|].
  split; [vm_compute; reflexivity|].
  split; [vm_compute; repeat constructor|].
  split; [|apply consistent_seeded].
  intros role Hin. unfold resources_of.
  apply (in_map Role.id) in Hin. rewrite Hid in Hin.
  simpl in Hin.
  destruct Hin as [<- | [<- | [<- | [<- | [<- | []]]]]];
    apply Nat.leb_le; vm_compute; reflexivity.
Qed.

(** ** The property tests *)

Lemma toBe_text_refl a : PropertyTests.toBe_text a a = true.
Proof. destruct a; simpl; auto using String.eqb_refl. Qed.

Lemma toEqual_strings_refl l : PropertyTests.toEqual_strings l l = true.
Proof. induction l; simpl; auto. now rewrite String.eqb_refl. Qed.

Lemma filter_all {A} (p : A -> bool) (l : list A) :
  (forall x, In x l -> p x = true) -> filter p l = l.
Proof.
  induction l as [|a l IH]; intros H; simpl; auto.
  rewrite (H a) by now left. f_equal. apply IH. intros x Hx. apply H. now right.
Qed.

Lemma references_fresh db id :
  consistent db -> roles_id_seq db <= id -> references db id = false.
Proof.
  intros Hc Hid. unfold references.
  destruct (existsb _ (resources db)) eqn:He; auto.
  apply existsb_exists in He. destruct He as (r & Hr & Heq).
  apply Z.eqb_eq in Heq.
  pose proof (resources_role_id_fkey db Hc r Hr) as Hfk.
  apply has_role_In in Hfk. destruct Hfk as (role & Hin & Hrid).
  pose proof (roles_id_below db Hc role Hin). lia.
Qed.

Lemma roles_without_fresh db id :
  consistent db -> roles_id_seq db <= id ->
  filter (fun r => negb (Role.id r =? id)) (roles db) = roles db.
Proof.
  intros Hc Hid. apply filter_all. intros x Hx.
  pose proof (roles_id_below db Hc x Hx).
  apply negb_true_iff, Z.eqb_neq. lia.
Qed.

Lemma printable_no_nul s : printable s = true -> has_nul s = false.
Proof.
  unfold printable, has_nul.
  induction (list_ascii_of_string s) as [|c l IH]; cbn [forallb existsb];
    [reflexivity|].
  intros H. apply andb_true_iff in H. destruct H as [Hc Hl].
  rewrite (IH Hl), orb_false_r.
  destruct (Ascii.eqb_spec "000"%char c) as [<-|]; [discriminate Hc|reflexivity].
Qed.

Lemma fc_strings_storable minLength maxLength l :
  Forall (fc_string minLength maxLength) l -> storable l.
Proof.
  unfold storable. intros H. eapply Forall_impl; [|exact H].
  intros s [_ Hs]. now apply printable_no_nul.
Qed.

Lemma generated_role_storable roleData :
  generated_role roleData ->
  (String.length (CreateRoleInput.name roleData) <= 255)%nat /\
  storable (role_texts roleData).
Proof.
  intros ([Hlen Hn] & [_ Hs] & Hl & Hr & Hk). split; [lia|].
  unfold role_texts, storable.
  constructor; [now apply printable_no_nul|].
  constructor; [now apply printable_no_nul|].
  apply Forall_app. split.
  - destruct (CreateRoleInput.long_description roleData) as [| |l];
      cbn [or_null]; try constructor.
    destruct (String.eqb l ""); constructor; [|constructor].
    destruct Hl as [_ Hl]. now apply printable_no_nul.
  - apply Forall_app. split.
    + destruct (CreateRoleInput.responsibilities roleData) as [| |l];
        cbn [or_empty]; try constructor.
      destruct Hr as [_ Hr]. apply (fc_strings_storable _ _ _ Hr).
    + destruct (CreateRoleInput.skills roleData) as [| |l];
        cbn [or_empty]; try constructor.
      destruct Hk as [_ Hk]. apply (fc_strings_storable _ _ _ Hk).
Qed.

Lemma role_creation_run data db :
  consistent db -> roles_id_seq db <= INT4_MAX ->
  (String.length (CreateRoleInput.name data) <= 255)%nat ->
  storable (role_texts data) ->
  PropertyTests.role_creation data db =
    (inr PropertyTests.Passed,
     mkDb (roles db) (resources db) (roles_id_seq db + 1) (resources_id_seq db)).
Proof.
  intros Hc Hseq Hlen Hst.
  pose proof (roles_id_seq_range db Hc) as Hrange.
  assert (Hr : int4_in_range (roles_id_seq db) = true).
  { apply int4_in_range_iff. unfold INT4_MIN, INT4_MAX in *. lia. }
  unfold PropertyTests.role_creation, bind at 1.
  rewrite (createRole_succeeds data db Hc Hseq Hlen Hst).
  unfold role_row.
  cbn [ Role.id Role.name Role.short_description Role.long_description
       Role.responsibilities Role.skills PropertyTests.toEqual_array].
  rewrite !String.eqb_refl, toBe_text_refl, !toEqual_strings_refl.
  assert (Hpos : (0 <? roles_id_seq db) = true) by (apply Z.ltb_lt; lia).
  rewrite Hpos. cbn [PropertyTests.expect].
  unfold bind at 1. rewrite roleExists_run, Hr.
  unfold has_role at 1. cbn [roles]. rewrite existsb_app.
  cbn [existsb Role.id]. rewrite Z.eqb_refl. cbn [orb]. rewrite orb_true_r.
  cbn [PropertyTests.expect].
  unfold bind at 1. rewrite getRoleById_run_Z, Hr. cbn [roles resources].
  rewrite filter_app, (filter_none _ (roles db)).
  2:{ intros x Hx. apply Z.eqb_neq. pose proof (roles_id_below db Hc x Hx). lia. }
  cbn [filter Role.id role_row]. rewrite Z.eqb_refl.
  cbn [List.app RoleWithResources.role Role.id Role.name Role.short_description].
  rewrite Z.eqb_refl, !String.eqb_refl. cbn [PropertyTests.expect].
  unfold bind at 1, delete_from_roles, bind at 1. rewrite int4_run, Hr.
  unfold bind, get_db, put_db, ret.
  cbn [roles resources roles_id_seq resources_id_seq].
  replace (references _ (roles_id_seq db)) with (references db (roles_id_seq db))
    by reflexivity.
  rewrite (references_fresh db _ Hc) by lia. rewrite andb_false_r.
  rewrite filter_app, (roles_without_fresh db _ Hc) by lia.
  cbn [filter Role.id]. rewrite Z.eqb_refl. cbn [negb].
  now rewrite app_nil_r.
Qed.

(** X13. The role creation property test passes on every input it can
    generate and cleans up after itself.  The inputs are those of its
    [fc.record]: strings of printable ASCII characters within the bounds
    it gives, the name of 1 to 255 of them, each optional property given
    or undefined.  On a store that satisfies the schema, with a roles
    sequence that has room for the runs, every run meets its expectations,
    and after the runs both tables are as they were; only the roles
    sequence has moved on, by one for each run. *)
Theorem role_creation_test_passes (runs : list CreateRoleInput.t) (db : Db) :
  consistent db ->
  roles_id_seq db + Z.of_nat (List.length runs) <= INT4_MAX + 1 ->
  (forall roleData, In roleData runs -> generated_role roleData) ->
  PropertyTests.assert_property PropertyTests.role_creation runs db =
    (inr PropertyTests.Passed,
     mkDb (roles db) (resources db)
       (roles_id_seq db + Z.of_nat (List.length runs)) (resources_id_seq db)).
Proof.
  revert db. induction runs as [|roleData rest IH]; intros db Hc Hseq Hlen.
  - cbn [PropertyTests.assert_property ret List.length Z.of_nat].
    rewrite Z.add_0_r. now destruct db.
  - cbn [PropertyTests.assert_property]. unfold bind.
    cbn [List.length] in Hseq. rewrite Nat2Z.inj_succ in Hseq.
    destruct (generated_role_storable roleData (Hlen _ (or_introl eq_refl)))
      as [Hname Hst].
    rewrite role_creation_run; [|assumption|lia|exact Hname|exact Hst].
    rewrite IH.
    + cbn [roles resources roles_id_seq resources_id_seq List.length].
      rewrite Nat2Z.inj_succ. do 2 f_equal. lia.
    + destruct Hc. constructor; cbn [roles resources roles_id_seq resources_id_seq];
        auto; try lia.
      intros r Hr. specialize (roles_id_below0 r Hr). lia.
    + cbn [roles_id_seq]. lia.
    + intros d Hd. apply Hlen. now right.
Qed.

Lemma toBe_resource_type_refl a : PropertyTests.toBe_resource_type a a = true.
Proof. now destruct a. Qed.

Lemma toBe_difficulty_refl a : PropertyTests.toBe_difficulty a a = true.
Proof. now destruct a. Qed.

Lemma find_snoc {A} (p : A -> bool) (l : list A) (x : A) :
  (forall y, In y l -> p y = false) -> p x = true ->
  find p (l ++ [x]) = Some x.
Proof.
  intros Hl Hx. induction l as [|a l IH]; simpl.
  - now rewrite Hx.
  - rewrite (Hl a) by now left. apply IH. intros y Hy. apply Hl. now right.
Qed.

Lemma resources_without_fresh db id :
  consistent db -> resources_id_seq db <= id ->
  filter (fun r => negb (Resource.id r =? id)) (resources db) = resources db.
Proof.
  intros Hc Hid. apply filter_all. intros x Hx.
  pose proof (resources_id_below db Hc x Hx).
  apply negb_true_iff, Z.eqb_neq. lia.
Qed.

Lemma resource_creation_run testRoleId data db :
  consistent db -> resources_id_seq db <= INT4_MAX ->
  generated_resource data ->
  has_role db testRoleId = true ->
  PropertyTests.resource_creation testRoleId data db =
    (inr PropertyTests.Passed,
     mkDb (roles db) (resources db) (roles_id_seq db) (resources_id_seq db + 1)).
Proof.
  intros Hc Hseq ([[_ Hlen] Htitle] & Hurl) Hrole.
  assert (Hst : storable (resource_texts
            (CreateResourceInput.make testRoleId (PropertyTests.title data)
               (PropertyTests.url data) (PropertyTests.resource_type data)
               (PropertyTests.difficulty data)))).
  { unfold storable, resource_texts.
    cbn [CreateResourceInput.title CreateResourceInput.url].
    repeat constructor; now apply printable_no_nul. }
  pose proof (resources_id_seq_range db Hc) as Hrange.
  pose proof (consistent_role_in_range db _ Hc Hrole) as Ht.
  assert (Hr : int4_in_range (resources_id_seq db) = true).
  { apply int4_in_range_iff. unfold INT4_MIN, INT4_MAX in *. lia. }
  unfold PropertyTests.resource_creation, bind at 1.
  rewrite createResource_succeeds by assumption.
  unfold resource_row.
  cbn [ Resource.id Resource.role_id Resource.title Resource.url
       Resource.resource_type Resource.difficulty
       CreateResourceInput.role_id CreateResourceInput.title
       CreateResourceInput.url CreateResourceInput.resource_type
       CreateResourceInput.difficulty].
  rewrite Z.eqb_refl, !String.eqb_refl, toBe_resource_type_refl,
    toBe_difficulty_refl.
  assert (Hpos : (0 <? resources_id_seq db) = true) by (apply Z.ltb_lt; lia).
  rewrite Hpos. cbn [PropertyTests.expect].
  unfold bind at 1. rewrite getResourcesByRoleId_run, Ht.
  cbn [resources]. rewrite filter_app.
  cbn [filter Resource.role_id]. rewrite Z.eqb_refl.
  rewrite order_by_snoc.
  2:{ intros y Hy. apply filter_In in Hy. destruct Hy as [Hy _].
      pose proof (resources_id_below db Hc y Hy). cbn [Resource.id]. lia. }
  rewrite find_snoc.
  2:{ intros y Hy. apply order_by_In, filter_In in Hy. destruct Hy as [Hy _].
      pose proof (resources_id_below db Hc y Hy). cbn [Resource.id].
      apply Z.eqb_neq. lia. }
  2:{ cbn [Resource.id]. apply Z.eqb_refl. }
  cbn [Resource.id Resource.title Resource.url Resource.resource_type
       Resource.difficulty].
  rewrite !String.eqb_refl, toBe_resource_type_refl, toBe_difficulty_refl.
  cbn [PropertyTests.expect].
  unfold bind at 1, PropertyTests.delete_from_resources_by_id, bind at 1.
  rewrite int4_run, Hr. unfold bind, get_db, put_db, ret.
  cbn [roles resources roles_id_seq resources_id_seq].
  rewrite filter_app, (resources_without_fresh db _ Hc) by lia.
  cbn [filter Resource.id]. rewrite Z.eqb_refl. cbn [negb].
  now rewrite app_nil_r.
Qed.

Lemma resource_creation_runs testRoleId runs db :
  consistent db ->
  resources_id_seq db + Z.of_nat (List.length runs) <= INT4_MAX + 1 ->
  (forall data, In data runs -> generated_resource data) ->
  has_role db testRoleId = true ->
  PropertyTests.assert_property
    (PropertyTests.resource_creation testRoleId) runs db =
    (inr PropertyTests.Passed,
     mkDb (roles db) (resources db) (roles_id_seq db)
       (resources_id_seq db + Z.of_nat (List.length runs))).
Proof.
  revert db. induction runs as [|data rest IH]; intros db Hc Hseq Hlen Hrole.
  - cbn [PropertyTests.assert_property ret List.length Z.of_nat].
    rewrite Z.add_0_r. now destruct db.
  - cbn [PropertyTests.assert_property]. unfold bind.
    cbn [List.length] in Hseq. rewrite Nat2Z.inj_succ in Hseq.
    rewrite resource_creation_run;
      [|assumption|lia|apply Hlen; now left|assumption].
    rewrite IH.
    + cbn [roles resources roles_id_seq resources_id_seq List.length].
      rewrite Nat2Z.inj_succ. do 2 f_equal. lia.
    + destruct Hc. constructor; cbn [roles resources roles_id_seq resources_id_seq];
        auto; try lia.
      intros r Hr. specialize (resources_id_below0 r Hr). lia.
    + cbn [resources_id_seq]. lia.
    + intros d Hd. apply Hlen. now right.
    + exact Hrole.
Qed.

Lemma afterEach_run db testRoleId leftover db2 :
  consistent db -> roles_id_seq db <= testRoleId <= INT4_MAX ->
  (forall r, In r leftover -> Resource.role_id r = testRoleId) ->
  (exists role,
     roles db2 = (roles db ++ [role])%list /\ Role.id role = testRoleId) ->
  resources db2 = (resources db ++ leftover)%list ->
  PropertyTests.afterEach testRoleId db2 =
    (inr tt,
     mkDb (roles db) (resources db) (roles_id_seq db2) (resources_id_seq db2)).
Proof.
  intros Hc Hid Hleft (role & Hroles & Hrole) Hres.
  pose proof (roles_id_seq_range db Hc) as Hrange.
  assert (Hr : int4_in_range testRoleId = true).
  { apply int4_in_range_iff. unfold INT4_MIN, INT4_MAX in *. lia. }
  unfold PropertyTests.afterEach, delete_from_resources, delete_from_roles.
  unfold bind at 1. unfold bind at 1. rewrite int4_run, Hr.
  unfold bind at 1. unfold get_db at 1. unfold put_db at 1.
  unfold bind at 1. rewrite int4_run, Hr.
  unfold bind, get_db, put_db, references, has_role.
  cbn [roles resources roles_id_seq resources_id_seq].
  rewrite Hres, Hroles, filter_app.
  rewrite (filter_none _ leftover).
  2:{ intros x Hx. rewrite (Hleft x Hx), Z.eqb_refl. reflexivity. }
  rewrite app_nil_r.
  rewrite (filter_all _ (resources db)).
  2:{ intros x Hx. apply negb_true_iff.
      pose proof (references_fresh db testRoleId Hc (proj1 Hid)) as Hf.
      unfold references in Hf.
      destruct (Resource.role_id x =? testRoleId) eqn:He; auto.
      rewrite <- Hf. symmetry. apply existsb_exists. eauto. }
  pose proof (references_fresh db testRoleId Hc (proj1 Hid)) as Hf.
  unfold references in Hf. rewrite Hf, andb_false_r.
  rewrite filter_app, (roles_without_fresh db _ Hc) by lia.
  cbn [filter]. rewrite Hrole, Z.eqb_refl. cbn [negb].
  now rewrite app_nil_r.
Qed.

(** X14. The resource creation property test passes on every input it can
    generate, and its hooks leave the tables as they found them.  The
    inputs are those of its [fc.record]: a title of 1 to 255 printable
    ASCII characters and a URL written with such characters.  On a store
    that satisfies the schema, with room in both sequences: [beforeEach]
    creates the test role under a new id; every run for that role meets
    its expectations and removes the resource it created; and [afterEach]
    then removes the role, so that both tables are as before the test.
    [afterEach] does so too when runs have left resources of the test role
    behind. *)
Theorem resource_creation_test_passes
    (runs : list PropertyTests.ResourceData) (db : Db) :
  consistent db ->
  roles_id_seq db <= INT4_MAX ->
  resources_id_seq db + Z.of_nat (List.length runs) <= INT4_MAX + 1 ->
  (forall resourceData, In resourceData runs ->
     generated_resource resourceData) ->
  exists testRoleId db1 db2 db3,
    PropertyTests.beforeEach db = (inr testRoleId, db1) /\
    has_role db testRoleId = false /\
    has_role db1 testRoleId = true /\
    PropertyTests.assert_property
      (PropertyTests.resource_creation testRoleId) runs db1 =
      (inr PropertyTests.Passed, db2) /\
    roles db2 = roles db1 /\ resources db2 = resources db /\
    PropertyTests.afterEach testRoleId db2 = (inr tt, db3) /\
    roles db3 = roles db /\ resources db3 = resources db /\
    (forall leftover db2',
       (forall r, In r leftover -> Resource.role_id r = testRoleId) ->
       roles db2' = roles db1 ->
       resources db2' = (resources db ++ leftover)%list ->
       exists db3',
         PropertyTests.afterEach testRoleId db2' = (inr tt, db3') /\
         roles db3' = roles db /\ resources db3' = resources db).
Proof.
  intros Hc Hseq Hrseq Hlen.
  set (data := CreateRoleInput.make "Test Role for Resources"
                 "A test role for resource creation tests"
                 Undefined Undefined Undefined).
  assert (Hname : (String.length (CreateRoleInput.name data) <= 255)%nat).
  { apply Nat.leb_le. reflexivity. }
  assert (Hst : storable (role_texts data))
    by (apply storable_existsb; reflexivity).
  pose proof (createRole_succeeds data db Hc Hseq Hname Hst) as Hcreate.
  pose proof (createRole_consistent data db Hc) as Hc1.
  rewrite Hcreate in Hc1. cbn [snd] in Hc1.
  set (db1 := mkDb (roles db ++ [role_row (roles_id_seq db) data])%list
                (resources db) (roles_id_seq db + 1) (resources_id_seq db)) in *.
  assert (Hhas : has_role db1 (roles_id_seq db) = true).
  { apply has_role_In. exists (role_row (roles_id_seq db) data).
    split; [|reflexivity]. apply in_or_app. right. now left. }
  exists (roles_id_seq db), db1. eexists. eexists.
  split.
  { unfold PropertyTests.beforeEach, bind. fold data. rewrite Hcreate.
    reflexivity. }
  split; [now apply consistent_fresh|]. split; [exact Hhas|].
  split; [apply resource_creation_runs; auto|].
  split; [reflexivity|]. split; [reflexivity|].
  assert (Hafter : forall leftover db2',
    (forall r, In r leftover -> Resource.role_id r = roles_id_seq db) ->
    roles db2' = roles db1 ->
    resources db2' = (resources db ++ leftover)%list ->
    PropertyTests.afterEach (roles_id_seq db) db2' =
      (inr tt, mkDb (roles db) (resources db)
                 (roles_id_seq db2') (resources_id_seq db2'))).
  { intros leftover db2' Hleft Hroles Hres.
    apply afterEach_run with (leftover := leftover); auto; [lia|].
    exists (role_row (roles_id_seq db) data). now rewrite Hroles. }
  split.
  { apply Hafter with (leftover := []).
    - intros r [].
    - reflexivity.
    - cbn [resources db1]. now rewrite app_nil_r. }
  split; [reflexivity|]. split; [reflexivity|].
  intros leftover db2' Hleft Hroles Hres. eexists.
  split; [apply (Hafter leftover db2'); assumption|]. now split.
Qed.

(** ** The client against the server *)

Lemma as_number_of_Z z : Types.as_number (of_Z z) = Some z.
Proof.
  unfold Types.as_number, of_Z, isInteger, toZ, inject_Z. cbn [Qnum Qden].
  now rewrite Z.mod_1_r, Z.div_1_r.
Qed.

Lemma as_list_map {A} (cast : JsValue -> option A) (json_of : A -> JsValue) l :
  (forall a, cast (json_of a) = Some a) ->
  Types.as_list cast (map json_of l) = Some l.
Proof.
  intros H. induction l as [|a l IH]; simpl; auto.
  now rewrite H, IH.
Qed.

Lemma as_strings_json l :
  Types.as_array Types.as_string (JArr (map JStr l)) = Some l.
Proof. cbn [Types.as_array]. now rewrite (as_list_map Types.as_string JStr). Qed.

Lemma as_ResourceType_text t :
  Types.as_ResourceType (JStr (ResourceType_text t)) = Some t.
Proof. now destruct t. Qed.

Lemma as_DifficultyLevel_text d :
  Types.as_DifficultyLevel (JStr (DifficultyLevel_text d)) = Some d.
Proof. now destruct d. Qed.


Lemma as_Resource_json r : Types.as_Resource (json_of_resource r) = Some r.
Proof.
  destruct r as [id role_id title url type difficulty].
  unfold Types.as_Resource, json_of_resource.
  cbn [get lookup String.eqb Ascii.eqb Bool.eqb Resource.id Resource.role_id
       Resource.title Resource.url Resource.resource_type Resource.difficulty
       andb].
  rewrite !as_number_of_Z. cbn [Types.and_then Types.as_string].
  now rewrite as_ResourceType_text, as_DifficultyLevel_text.
Qed.

Lemma as_RoleWithResources_json role :
  Types.as_RoleWithResources (json_of_role_with_resources role) =
  typed_role role.
Proof.
  destruct role as [[id name short long responsibilities skills] resources].
  unfold Types.as_RoleWithResources, Types.as_Role, json_of_role_with_resources,
    fields_of_role, typed_role.
  cbn [get lookup String.eqb Ascii.eqb Bool.eqb List.app andb
       RoleWithResources.role RoleWithResources.resources
       Role.id Role.name Role.short_description Role.long_description
       Role.responsibilities Role.skills].
  rewrite as_number_of_Z. cbn [Types.and_then Types.as_string].
  destruct long as [long|]; cbn [json_of_text Types.as_string Types.and_then];
    [|reflexivity].
  destruct responsibilities as [responsibilities|];
    cbn [json_of_strings]; [|reflexivity].
  rewrite as_strings_json. cbn [Types.and_then].
  destruct skills as [skills|]; cbn [json_of_strings]; [|reflexivity].
  rewrite as_strings_json. cbn [Types.and_then Types.as_array].
  now rewrite (as_list_map Types.as_Resource json_of_resource _ as_Resource_json).
Qed.

Section Client.
Context {browser : Browser} {platform : Platform}.


Lemma client_getRoleById id db :
  Number_text id <> "" ->
  Api.getRoleById id db =
    match safeParse RoleIdParamSchema (JObj [("id", JStr (Number_text id))]) with
    | Failure messages =>
        Some (inl (rejects_with 400 "Invalid ID format" (hd "" messages)))
    | Success n =>
        match fst (Queries.getRoleById n db) with
        | inl e =>
            Some (inl (rejects_with 500 "Failed to fetch role" (pg_message e)))
        | inr None =>
            Some (inl (rejects_with 404 "Role not found"
                         ("No role found with ID " ++ Num_to_string n)))
        | inr (Some role) => option_map inr (typed_role role)
        end
    end.
Proof.
  intros Hid. unfold Api.getRoleById, Api.fetch, Api.getRoleById_request.
  rewrite app_get_role by exact Hid. rewrite get_role_by_id_run.
  destruct (safeParse RoleIdParamSchema _) as [n|messages]; [|reflexivity].
  destruct (fst (Queries.getRoleById n db)) as [e|[role|]]; try reflexivity.
  cbn [Routes.body Routes.status json fst Api.fetchApi Api.ok Api.data
       Api.response_status]. cbn [Z.leb Z.compare Pos.compare Pos.compare_cont
       andb negb].
  unfold Types.as_GetRoleByIdResponse.
  cbn [get lookup String.eqb Ascii.eqb Bool.eqb andb].
  now rewrite as_RoleWithResources_json.
Qed.

End Client.

Section Pages.
Context {browser : Browser} {platform : Platform}.


Lemma Z_to_string_nonempty n : 0 <= n -> String.eqb (Z_to_string n) "" = false.
Proof.
  intros Hn. pose proof (decimal_digits_Z_to_string n) as H.
  apply Z.leb_le in Hn. rewrite Hn in H. unfold decimal_digits in H.
  apply andb_prop in H. destruct H as [H _]. now apply negb_true_iff in H.
Qed.

(** X16. The role page shows the role of its [id].  When it mounts it
    shows its loading indicator.  For the decimal numeral of a safe integer
    [n], once the request has settled: if the role is stored and none of
    its long description, responsibilities and skills is null, the answer
    is of the type the client casts it to, and the page shows the name of
    the role, its long description, its responsibilities and skills, each
    as a list or, when empty, as the text that stands for none, and a
    resource list mounted on the resources of the role in ascending order
    of id; if one of the three is null, as the server stores them when they
    are left out, the answer is not of the type [types.ts] declares; if no
    role has the id the page shows the error of an [ApiError] 404, and if
    the lookup fails that of a 500: the status text, never the details the
    server gave.  An empty [id] is an invalid role ID, and no request is
    made for it. *)
Theorem role_page_shows_the_role (db : Db) :
  RoleDetailPage.render RoleDetailPage.mount =
    RoleDetailPage.LoadingIndicator "Loading role details..." /\
  (forall n role long_description responsibilities skills,
     decimal_numbers browser ->
     0 <= n <= 9007199254740991 ->
     fst (Queries.getRoleById n db) = inr (Some role) ->
     Role.long_description (RoleWithResources.role role) =
       Some long_description ->
     Role.responsibilities (RoleWithResources.role role) =
       Some responsibilities ->
     Role.skills (RoleWithResources.role role) = Some skills ->
     exists settled,
       Api.getRoleById (Number_of (Z_to_string n)) db = Some settled /\
       role_page (Z_to_string n) (fun _ => settled) =
         RoleDetailPage.Details
           (Role.name (RoleWithResources.role role)) long_description
           (match responsibilities with
            | [] => RoleDetailPage.Nothing "No responsibilities listed"
            | _ => RoleDetailPage.Items responsibilities
            end)
           (match skills with
            | [] => RoleDetailPage.Nothing "No skills listed"
            | _ => RoleDetailPage.Items skills
            end)
           (ResourceList.mount (RoleWithResources.resources role))) /\
  (forall n role,
     decimal_numbers browser ->
     0 <= n <= 9007199254740991 ->
     fst (Queries.getRoleById n db) = inr (Some role) ->
     Role.long_description (RoleWithResources.role role) = None \/
     Role.responsibilities (RoleWithResources.role role) = None \/
     Role.skills (RoleWithResources.role role) = None ->
     Api.getRoleById (Number_of (Z_to_string n)) db = None) /\
  (forall n,
     decimal_numbers browser ->
     0 <= n <= 9007199254740991 ->
     fst (Queries.getRoleById n db) = inr None ->
     exists settled,
       Api.getRoleById (Number_of (Z_to_string n)) db = Some settled /\
       role_page (Z_to_string n) (fun _ => settled) =
         RoleDetailPage.ErrorMessage
           ("Error: API Error 404: " ++ statusText_of 404)) /\
  (forall n e,
     decimal_numbers browser ->
     0 <= n <= 9007199254740991 ->
     fst (Queries.getRoleById n db) = inl e ->
     exists settled,
       Api.getRoleById (Number_of (Z_to_string n)) db = Some settled /\
       role_page (Z_to_string n) (fun _ => settled) =
         RoleDetailPage.ErrorMessage
           ("Error: API Error 500: " ++ statusText_of 500)) /\
  (forall getRoleById,
     role_page "" getRoleById =
       RoleDetailPage.ErrorMessage "Error: Invalid role ID").
Proof.
  assert (Hclient : forall n,
    decimal_numbers browser -> 0 <= n <= 9007199254740991 ->
    isNaN (Number_of (Z_to_string n)) = false /\
    Api.getRoleById (Number_of (Z_to_string n)) db =
      match fst (Queries.getRoleById n db) with
      | inl e =>
          Some (inl (rejects_with 500 "Failed to fetch role" (pg_message e)))
      | inr None =>
          Some (inl (rejects_with 404 "Role not found"
                       ("No role found with ID " ++ Z_to_string n)))
      | inr (Some role) => option_map inr (typed_role role)
      end).
  { intros n Hdec Hn. destruct (Hdec n Hn) as [Hnan Htext].
    split; [exact Hnan|].
    rewrite client_getRoleById
      by (rewrite Htext; apply Z_to_string_not_empty; lia).
    rewrite Htext, RoleIdParamSchema_run, decimal_digits_Z_to_string.
    assert (Hle : (0 <=? n) = true) by (apply Z.leb_le; lia).
    now rewrite Hle, Number_Z_to_string by lia. }
  assert (Hpage : forall n settled,
    decimal_numbers browser -> 0 <= n <= 9007199254740991 ->
    role_page (Z_to_string n) (fun _ => settled) =
      RoleDetailPage.render
        match settled with
        | inr response_role =>
            RoleDetailPage.mkState (Some response_role) false None
        | inl err =>
            RoleDetailPage.mkState None false (Some (Api.message err))
        end).
  { intros n settled Hdec Hn. destruct (Hdec n Hn) as [Hnan _].
    unfold role_page, RoleDetailPage.fetchRoleDetails, RoleDetailPage.invalid.
    rewrite Z_to_string_nonempty, Hnan by lia. cbn [orb].
    now destruct settled. }
  split; [reflexivity|].
  split; [|split; [|split; [|split; [|reflexivity]]]].
  - intros n role long_description responsibilities skills Hdec Hn Hrole Hl Hr Hs.
    destruct (Hclient n Hdec Hn) as [_ Hget]. rewrite Hrole in Hget.
    unfold typed_role in Hget. rewrite Hl, Hr, Hs in Hget.
    eexists. split; [exact Hget|]. rewrite Hpage by assumption.
    unfold RoleDetailPage.render, RoleDetailPage.listing.
    cbn [RoleDetailPage.loading RoleDetailPage.role RoleDetailPage.error
         Types.RoleWithResources.role Types.RoleWithResources.resources
         Types.Role.name Types.Role.long_description
         Types.Role.responsibilities Types.Role.skills].
    now destruct responsibilities, skills.
  - intros n role Hdec Hn Hrole Hnull.
    destruct (Hclient n Hdec Hn) as [_ Hget]. rewrite Hrole in Hget.
    rewrite Hget. unfold typed_role.
    destruct (Role.long_description (RoleWithResources.role role)),
      (Role.responsibilities (RoleWithResources.role role)),
      (Role.skills (RoleWithResources.role role)); try reflexivity.
    destruct Hnull as [H|[H|H]]; discriminate H.
  - intros n Hdec Hn Hrole.
    destruct (Hclient n Hdec Hn) as [_ Hget]. rewrite Hrole in Hget.
    eexists. split; [exact Hget|]. now rewrite Hpage by assumption.
  - intros n e Hdec Hn Hrole.
    destruct (Hclient n Hdec Hn) as [_ Hget]. rewrite Hrole in Hget.
    eexists. split; [exact Hget|]. now rewrite Hpage by assumption.
Qed.

End Pages.

(** ** No silent rejection *)

Lemma invalid_type_nonempty expected v : invalid_type expected v <> "".
Proof. destruct v; discriminate. Qed.

Lemma explained_aborted {A} message :
  message <> "" -> explained (@aborted A message).
Proof.
  intros H. split; [discriminate|]. now repeat constructor.
Qed.

Lemma explained_pure {A} (a : A) : explained (pure a).
Proof. split; [discriminate|constructor]. Qed.

Lemma explained_ap {A B} (f : Parse (A -> B)) (a : Parse A) :
  explained f -> explained a -> explained (f <*> a).
Proof.
  intros [Hf1 Hf2] [Ha1 Ha2]. unfold ap. split; cbn [value errors].
  - destruct (value f); [destruct (value a)|]; intros H; try discriminate.
    + intros E. apply app_eq_nil in E. destruct E as [_ E]. now apply Ha1.
    + intros E. apply app_eq_nil in E. destruct E as [E _]. now apply Hf1.
  - apply Forall_app. now split.
Qed.

Lemma run_checks_nonempty {A} (checks : list (Check A)) a :
  Forall (fun c => snd c <> "") checks ->
  Forall (fun message => message <> "") (run_checks checks a).
Proof.
  intros H. unfold run_checks. induction H as [|c checks Hc _ IH]; simpl.
  - constructor.
  - apply Forall_app. split; [|exact IH].
    destruct (fst c a); now repeat constructor.
Qed.

Lemma explained_z_string checks v :
  Forall (fun c => snd c <> "") checks -> explained (z_string checks v).
Proof.
  intros H. destruct v; try (apply explained_aborted, invalid_type_nonempty).
  split; [discriminate|]. now apply run_checks_nonempty.
Qed.

Lemma explained_z_number checks v :
  Forall (fun c => snd c <> "") checks -> explained (z_number checks v).
Proof.
  intros H. destruct v; try (apply explained_aborted, invalid_type_nonempty).
  split; [discriminate|]. now apply run_checks_nonempty.
Qed.

Lemma explained_refine {A} (test : A -> bool) message (inner : Schema A) v :
  message <> "" -> explained (inner v) -> explained (refine test message inner v).
Proof.
  intros Hm [H1 H2]. unfold refine.
  destruct (value (inner v)) as [a|] eqn:E.
  - split; [discriminate|]. cbn [errors]. apply Forall_app. split; [exact H2|].
    destruct (test a); now repeat constructor.
  - split; [now rewrite E|exact H2].
Qed.

Lemma explained_map_value {A B} (f : A -> B) (r : Parse A) :
  explained r -> explained (map_value f r).
Proof.
  intros [H1 H2]. split; [|exact H2]. cbn [map_value value errors].
  destruct (value r); [discriminate|]. intros _. now apply H1.
Qed.

Lemma explained_optional {A} (inner : Schema A) v :
  explained (inner v) -> explained (optional inner v).
Proof.
  intros H. destruct v; try (now apply explained_map_value).
  split; [discriminate|constructor].
Qed.

Lemma explained_nullable {A} (inner : Schema (Nullish A)) v :
  explained (inner v) -> explained (nullable inner v).
Proof.
  intros H. destruct v; try exact H. split; [discriminate|constructor].
Qed.

Lemma explained_parse_items {A} (element : Schema A) items :
  (forall v, explained (element v)) -> explained (parse_items element items).
Proof.
  intros H. induction items as [|item rest [IH1 IH2]]; cbn [parse_items].
  - split; [discriminate|constructor].
  - destruct (H item) as [H1 H2]. split; cbn [value errors].
    + destruct (value (element item));
        [destruct (value (parse_items element rest))|]; intros E;
        try discriminate; intros E'; apply app_eq_nil in E';
        destruct E' as [E1 E2]; [now apply IH1|now apply H1].
    + apply Forall_app. now split.
Qed.

Lemma explained_z_array {A} (element : Schema A) v :
  (forall v, explained (element v)) -> explained (z_array element v).
Proof.
  intros H. destruct v; try (apply explained_aborted, invalid_type_nonempty).
  now apply explained_parse_items.
Qed.

Lemma explained_z_enum {A} (values : list (string * A)) message v :
  message <> "" -> explained (z_enum values message v).
Proof.
  intros H. unfold z_enum.
  destruct v; try (now apply explained_aborted).
  destruct (find _ values); [|now apply explained_aborted].
  split; [discriminate|constructor].
Qed.

Lemma explained_transform {A B} (f : A -> B) (inner : Schema A) v :
  explained (inner v) -> explained (transform f inner v).
Proof.
  intros [H1 H2]. unfold transform.
  destruct (errors (inner v)) as [|m ms] eqn:E.
  - destruct (value (inner v)); [split; [discriminate|constructor]|].
    exfalso. now apply H1.
  - split; [discriminate|exact H2].
Qed.

Lemma explained_z_object {A} (shape : JsValue -> Parse A) v :
  (forall fields, explained (shape (JObj fields))) -> explained (z_object shape v).
Proof.
  intros H. destruct v; try (apply explained_aborted, invalid_type_nonempty).
  apply H.
Qed.

Lemma explained_Failure {A} (schema : Schema A) v messages :
  explained (schema v) -> safeParse schema v = Failure messages ->
  messages <> [] /\ Forall (fun message => message <> "") messages.
Proof.
  intros [H1 H2]. unfold safeParse.
  destruct (errors (schema v)) as [|m ms] eqn:E.
  - destruct (value (schema v)); [discriminate|]. exfalso. now apply H1.
  - intros H. injection H as <-. split; [discriminate|exact H2].
Qed.

Ltac explain :=
  repeat first
    [ apply explained_ap | apply explained_pure | apply explained_refine
    | apply explained_nullable | apply explained_optional
    | apply explained_map_value | apply explained_z_string
    | apply explained_z_number | apply explained_z_enum
    | apply explained_z_array; intros ? | apply explained_transform
    | apply Forall_cons | apply Forall_nil | discriminate ].

Lemma explained_CreateRoleSchema v : explained (CreateRoleSchema v).
Proof. apply explained_z_object. intros fields. explain. Qed.

Lemma explained_CreateResourceSchema {platform : Platform} v :
  explained (CreateResourceSchema v).
Proof.
  apply explained_z_object. intros fields.
  unfold ResourceTypeSchema, DifficultyLevelSchema. explain.
Qed.

Lemma explained_RoleIdParamSchema v : explained (RoleIdParamSchema v).
Proof. apply explained_z_object. intros fields. explain. Qed.

Lemma join_nonempty sep messages :
  messages <> [] -> Forall (fun message => message <> "") messages ->
  join sep messages <> "".
Proof.
  intros Hne H. destruct H as [|m ms Hm _]; [contradiction|].
  unfold join. cbn [String.concat].
  destruct m as [|c m]; [contradiction|].
  destruct ms; discriminate.
Qed.

(** X17. No request is rejected without an explanation.  When one of the
    three schemas rejects a value, the failure carries at least one message
    and none of its messages is empty; and every 400 answer of the
    application to a request whose body [express.json()] has parsed and
    whose path holds no percent-escape, HEAD requests apart, whose answers
    have no body, has a non-empty [details] next to its [error]. *)
Theorem rejections_are_explained {platform : Platform} :
  (forall v messages,
     safeParse CreateRoleSchema v = Failure messages ->
     messages <> [] /\ Forall (fun message => message <> "") messages) /\
  (forall v messages,
     safeParse CreateResourceSchema v = Failure messages ->
     messages <> [] /\ Forall (fun message => message <> "") messages) /\
  (forall v messages,
     safeParse RoleIdParamSchema v = Failure messages ->
     messages <> [] /\ Forall (fun message => message <> "") messages) /\
  (forall req db,
     method req <> HEAD ->
     status (fst (app req db)) = 400 ->
     exists error details,
       Routes.body (fst (app req db)) = error_json error details /\
       error <> "" /\ details <> "").
Proof.
  split; [|split; [|split]].
  - intros v messages. apply explained_Failure, explained_CreateRoleSchema.
  - intros v messages. apply explained_Failure, explained_CreateResourceSchema.
  - intros v messages. apply explained_Failure, explained_RoleIdParamSchema.
  - intros req db Hm. rewrite (app_not_HEAD req db Hm). unfold handle.
    destruct (router req); try discriminate.
    + rewrite get_role_by_id_run, RoleIdParamSchema_run.
      destruct (decimal_digits id).
      * destruct (fst (Queries.getRoleById _ db)) as [e|[role|]]; discriminate.
      * intros _. eexists. eexists. split; [reflexivity|]. split; discriminate.
    + rewrite post_roles_run.
      destruct (safeParse CreateRoleSchema _) as [data|messages] eqn:E.
      * destruct (createRole data db) as [[e|created] db']; discriminate.
      * intros _. eexists. eexists. split; [reflexivity|].
        split; [discriminate|].
        apply explained_Failure in E; [|apply explained_CreateRoleSchema].
        now apply join_nonempty.
    + rewrite post_resources_run.
      destruct (safeParse CreateResourceSchema _) as [data|messages] eqn:E.
      * destruct (fst (roleExists _ db)) as [e|[|]]; try discriminate.
        destruct (createResource data db) as [[e|created] db']; discriminate.
      * intros _. eexists. eexists. split; [reflexivity|].
        split; [discriminate|].
        apply explained_Failure in E; [|apply explained_CreateResourceSchema].
        now apply join_nonempty.
Qed.

(** * The further properties at the worked examples *)

(** X1 at the sample body of a role. *)
Lemma CreateRoleSchema_accepts_witness :
  success (safeParse CreateRoleSchema role_body) = true.
Proof.
  apply (proj2 (CreateRoleSchema_accepts role_body)).
  split; [eexists; reflexivity|].
  split; [exists "Data Analyst"; split; [reflexivity|split; [simpl; lia|reflexivity]]|].
  split; [exists "Turn data into decisions";
          split; [reflexivity|split; [simpl; lia|reflexivity]]|].
  split; [left; reflexivity|].
  split; [left; reflexivity|].
  right. right. exists ["SQL"; "Statistics"]. reflexivity.
Defined.

(** X2 at the sample body of a resource. *)
Lemma CreateResourceSchema_accepts_witness :
  success (safeParse (@CreateResourceSchema sample_platform)
             (resource_body 1 "Video")) = true.
Proof.
  apply (proj2 (proj1 (@CreateResourceSchema_accepts sample_platform
                         (resource_body 1 "Video")))).
  split; [eexists; reflexivity|].
  split; [exists (inject_Z 1); split; [reflexivity|split; [reflexivity|reflexivity]]|].
  split; [exists "Testing basics";
          split; [reflexivity|split; [simpl; lia|reflexivity]]|].
  split; [exists "https://example.com/testing"; split; reflexivity|].
  split; [left; reflexivity|left; reflexivity].
Defined.

(** X3 at the id 42. *)
Lemma RoleIdParamSchema_decimal_witness :
  safeParse RoleIdParamSchema (JObj [("id", JStr (Z_to_string 42))]) =
    Success (Finite 42).
Proof.
  destruct RoleIdParamSchema_decimal as (_ & _ & H & _). apply H. lia.
Defined.

(** X4 at the sample store: a second resource for role 1. *)
Lemma createResource_then_getResourcesByRoleId_witness :
  exists created db' before,
    createResource (resource_input 1) sample_db = (inr created, db') /\
    getResourcesByRoleId 1 sample_db = (inr before, sample_db) /\
    getResourcesByRoleId 1 db' = (inr (before ++ [created])%list, db').
Proof.
  destruct (createResource_then_getResourcesByRoleId (resource_input 1) sample_db)
    as (H & _ & _).
  destruct H as (created & db' & before & Hc & _ & _ & _ & _ & _ & _ & _ & Hb & Ha).
  - exact consistent_sample_db.
  - vm_compute. discriminate.
  - apply Nat.leb_le. reflexivity.
  - apply storable_existsb. reflexivity.
  - reflexivity.
  - exists created, db', before. split; [exact Hc|]. split; [exact Hb|exact Ha].
Defined.

(** X5 at the sample store: a role is created under a new id, and a name
    of 255 letters and a space is stored as the 255 letters. *)
Lemma createRole_assigns_new_id_witness :
  (exists created db',
     createRole role_input sample_db = (inr created, db') /\
     0 < Role.id created /\
     roleExists (Role.id created) db' = (inr true, db')) /\
  (exists created db',
     createRole padded_input sample_db = (inr created, db') /\
     Role.id created = 2 /\
     Role.name created = substring 0 255 (CreateRoleInput.name padded_input) /\
     roles db' = [sample_role; created]).
Proof.
  split.
  - destruct (createRole_assigns_new_id role_input sample_db) as (H & _ & _).
    destruct H as (created & db' & Hc & Hpos & _ & _ & He & _).
    + exact consistent_sample_db.
    + vm_compute. discriminate.
    + apply Nat.leb_le. reflexivity.
    + apply storable_existsb. reflexivity.
    + exists created, db'. split; [exact Hc|]. split; [exact Hpos|exact He].
  - destruct (createRole_assigns_new_id padded_input sample_db) as (_ & _ & H).
    destruct H as [_ H].
    + apply storable_existsb. reflexivity.
    + apply Nat.ltb_lt. reflexivity.
    + apply H.
      * reflexivity.
      * exact consistent_sample_db.
      * vm_compute. discriminate.
Defined.


(** X7 at the sample store: the sample body is not answered 500. *)
Lemma post_roles_validates_first_witness :
  status (fst (@post_roles sample_platform role_body sample_db)) <> 500.
Proof.
  destruct (@post_roles_validates_first sample_platform role_body sample_db)
    as (_ & _ & _ & _ & _ & _ & H).
  apply (H role_input).
  - reflexivity.
  - apply storable_existsb. reflexivity.
  - exact consistent_sample_db.
  - vm_compute. discriminate.
Defined.

(** X8 at the sample store. *)
Lemma created_role_is_served_witness :
  exists created db',
    @app sample_platform (mkRequest POST ["api"; "roles"] role_body) sample_db =
      (mkResponse 201 (JObj [("role", JObj (role_properties created))]), db') /\
    @app sample_platform
      (mkRequest GET ["api"; "roles"; Z_to_string (Role.id created)] (JObj []))
      db' =
      (mkResponse 200
         (JObj [("role",
                 JObj (role_properties created ++
                       [("resources", JArr [])])%list)]),
       db').
Proof.
  destruct (@created_role_is_served sample_platform role_body role_input
              sample_db)
    as (created & db' & listed & Hpost & Hget & _).
  - exact consistent_sample_db.
  - vm_compute. discriminate.
  - reflexivity.
  - apply storable_existsb. reflexivity.
  - exists created, db'. split; [exact Hpost|apply Hget].
Defined.

(** X9 at the sample store. *)
Lemma created_resource_is_served_witness :
  exists created db',
    @app sample_platform
      (mkRequest POST ["api"; "resources"] (resource_body 1 "Video")) sample_db =
      (mkResponse 201 (JObj [("resource", resource_object created)]), db') /\
    created = resource_row 2 (resource_input 1).
Proof.
  destruct (@created_resource_is_served sample_platform
              (resource_body 1 "Video") (resource_input 1) sample_db)
    as (created & db' & role & listed & Hpost & Hrow & _).
  - exact consistent_sample_db.
  - vm_compute. discriminate.
  - reflexivity.
  - apply storable_existsb. reflexivity.
  - reflexivity.
  - exists created, db'. split; [exact Hpost|exact Hrow].
Defined.

(** X10 at a DELETE request and at a HEAD request. *)
Lemma app_answers_witness :
  status (fst (@app sample_platform
                 (mkRequest DELETE ["api"; "roles"; "1"] (JObj []))
                 sample_db)) = 404 /\
  @app sample_platform (mkRequest HEAD ["api"; "roles"] (JObj [])) sample_db =
    (mkResponse 200 JUndefined, sample_db).
Proof.
  split.
  - destruct (@app_answers sample_platform
                (mkRequest DELETE ["api"; "roles"; "1"] (JObj [])) sample_db)
      as (_ & _ & H & _).
    apply H. right. right. reflexivity.
  - destruct (@app_answers sample_platform
                (mkRequest HEAD ["api"; "roles"] (JObj [])) sample_db)
      as ((_ & Hbody & _) & _ & _ & Hhead).
    destruct (Hhead eq_refl) as [Hstatus Hstore].
    specialize (Hbody eq_refl).
    destruct (@app sample_platform
                (mkRequest HEAD ["api"; "roles"] (JObj [])) sample_db)
      as [[status body] db'].
    cbn [fst snd Routes.status Routes.body] in *.
    now rewrite Hstatus, Hbody, Hstore.
Defined.

(** X11 at the sample store: its role is referenced. *)
Lemma seed_clears_resources_first_witness :
  fst (Seed.delete_all_roles sample_db) = inl ForeignKeyViolation.
Proof.
  destruct (seed_clears_resources_first sample_db) as (_ & H & _).
  apply H. exists sample_role, sample_resource.
  split; [now left|]. split; [now left|reflexivity].
Defined.

(** X12 at the sample store: the first role of the seeded store. *)
Lemma seed_rebuilds_the_catalog_witness :
  (3 <= List.length
          (resources_of (snd (Seed.seed sample_db))
             (hd sample_role (roles (snd (Seed.seed sample_db))))))%nat.
Proof.
  destruct (seed_rebuilds_the_catalog sample_db) as (_ & _ & _ & _ & _ & H & _).
  apply H. vm_compute. left. reflexivity.
Defined.

(** X13 at the sample store: one run. *)
Lemma role_creation_test_passes_witness :
  PropertyTests.assert_property PropertyTests.role_creation [role_input] sample_db =
    (inr PropertyTests.Passed, mkDb [sample_role] [sample_resource] 3 2).
Proof.
  apply (role_creation_test_passes [role_input] sample_db).
  - exact consistent_sample_db.
  - vm_compute. discriminate.
  - intros roleData [<-|[]].
    repeat split; try (cbn; lia); repeat constructor.
Defined.

(** X14 at the sample store: one run. *)
Lemma resource_creation_test_passes_witness :
  exists testRoleId db1 db2 db3,
    PropertyTests.beforeEach sample_db = (inr testRoleId, db1) /\
    PropertyTests.assert_property
      (PropertyTests.resource_creation testRoleId) [resource_data] db1 =
      (inr PropertyTests.Passed, db2) /\
    PropertyTests.afterEach testRoleId db2 = (inr tt, db3) /\
    roles db3 = [sample_role] /\ resources db3 = [sample_resource].
Proof.
  destruct (resource_creation_test_passes [resource_data] sample_db)
    as (testRoleId & db1 & db2 & db3 & Hb & _ & _ & Hp & _ & _ & Ha & Hr & Hs & _).
  - exact consistent_sample_db.
  - vm_compute. discriminate.
  - vm_compute. discriminate.
  - intros resourceData [<-|[]].
    repeat split; try (cbn; lia).
  - exists testRoleId, db1, db2, db3.
    split; [exact Hb|]. split; [exact Hp|]. split; [exact Ha|].
    split; [exact Hr|exact Hs].
Defined.


(** The sample browser reads and renders decimal numerals. *)
Lemma decimal_numbers_sample_browser : decimal_numbers sample_browser.
Proof.
  intros n Hn. cbn [Number_of isNaN Number_text sample_browser].
  rewrite decimal_digits_Z_to_string.
  assert (H : (0 <=? n) = true) by (apply Z.leb_le; lia).
  rewrite H. split; [reflexivity|]. now rewrite Number_Z_to_string by lia.
Defined.

(** X16 at a store whose role has every column filled, where the page of
    role 1 shows it, and at the sample store, whose role has no long
    description. *)
Lemma role_page_shows_the_role_witness :
  (exists settled,
     @Api.getRoleById sample_browser sample_platform
       (@Number_of sample_browser (Z_to_string 1)) described_db = Some settled /\
     @role_page sample_browser (Z_to_string 1) (fun _ => settled) =
       RoleDetailPage.Details "QA Engineer"
         "Plans and runs the tests of a product."
         (RoleDetailPage.Items ["Write test plans"; "Report defects"])
         (RoleDetailPage.Nothing "No skills listed")
         (ResourceList.mount [sample_resource])) /\
  @Api.getRoleById sample_browser sample_platform
    (@Number_of sample_browser (Z_to_string 1)) sample_db = None.
Proof.
  split.
  - destruct (@role_page_shows_the_role sample_browser sample_platform
                described_db) as (_ & H & _).
    apply (H 1 (RoleWithResources.make described_role [sample_resource])
             "Plans and runs the tests of a product."
             ["Write test plans"; "Report defects"] []
             decimal_numbers_sample_browser);
      [lia|reflexivity|reflexivity|reflexivity|reflexivity].
  - destruct (@role_page_shows_the_role sample_browser sample_platform
                sample_db) as (_ & _ & H & _).
    apply (H 1 (RoleWithResources.make sample_role [sample_resource])
             decimal_numbers_sample_browser);
      [lia|reflexivity|left; reflexivity].
Defined.

(** X17 at a request with an empty object for body. *)
Lemma rejections_are_explained_witness :
  exists error details,
    Routes.body (fst (@app sample_platform
                        (mkRequest POST ["api"; "roles"] (JObj [])) sample_db)) =
      error_json error details /\
    error <> "" /\ details <> "".
Proof.
  destruct (@rejections_are_explained sample_platform) as (_ & _ & _ & H).
  apply H; [discriminate|reflexivity].
Defined.
